(** * Shareable Meals: the meal list and the meal-plan calendar

    A shallow embedding of the data-synchronisation logic of two React Native
    screens, [src/meals.tsx] (component [MyMeals]) and [src/calendar.tsx]
    (component [MealPlanCalendar]), and the properties of that logic.

    Conventions of the embedding.

    - A JavaScript [number] is an IEEE 754 binary64 value, represented by
      [spec_float] with precision 53 and maximal exponent 1024; comparisons
      and addition are the IEEE ones, so [NaN] compares false with everything.
    - A string is a [string] of code units below 256, the characters of
      Latin-1; [toLowerCase] and the white space that [parseFloat] and
      [parseInt] skip are those of that range.
    - React state is a record.  A function created during a render (an event
      handler, a [useCallback], the body of a [useEffect]) sees the state
      variables of that render as constants: it is modelled as a function of
      that render's state record, called [env], and of the answers of the
      services it awaits.  What it does to the component is a list of state
      updates ([Update]), applied to the live state in order, and a list of
      timers it registers with [setTimeout].  A timer callback keeps the
      [env] of the render that created it. *)

From Stdlib Require Import ZArith Ascii String SpecFloat.
From stdpp Require Import gmap strings list fin_maps pretty.

Open Scope Z_scope.

(** ** The JavaScript values the two components compute with *)

Module JS.

Definition number : Type := spec_float.

Definition prec : Z := 53.
Definition emax : Z := 1024.

Definition NaN : number := S754_nan.
Definition zero : number := S754_zero false.

(** [isNaN(x)] *)
Definition isNaN (x : number) : bool :=
  match x with
  | S754_nan => true
  | _ => false
  end.
(** [x <= y], [x >= y], [x < y], [x > y], [x + y] on numbers. *)
Definition le (x y : number) : bool := SFleb x y.
Definition ge (x y : number) : bool := SFleb y x.
Definition lt (x y : number) : bool := SFltb x y.
Definition gt (x y : number) : bool := SFltb y x.
Definition add (x y : number) : number := SFadd prec emax x y.

(** [x === y] on numbers. *)
Definition eq (x y : number) : bool := SFeqb x y.

(** [isFinite x]: neither [NaN] nor an infinity. *)
Definition isFinite (x : number) : bool :=
  match x with
  | S754_nan | S754_infinity _ => false
  | _ => true
  end.

(** The number denoted by an integer, as a numeric literal or a JSON integer
    gives it. *)
Definition ofZ (n : Z) : number := binary_normalize prec emax n 0 false.

(** [x || 0] on a number that may be [undefined] ([None]): the falsy numbers
    are [NaN], [0] and [-0]. *)
Definition truthy (x : number) : bool :=
  match x with
  | S754_nan | S754_zero _ => false
  | _ => true
  end.

Definition orZero (x : option number) : number :=
  match x with
  | Some v => if truthy v then v else zero
  | None => zero
  end.

(** *** Strings *)

(** The capital letters below 256 are [A] to [Z] and the code units 192 to
    222 without the multiplication sign, 215; the small letter of each is 32
    further. *)
Definition lowerChar (c : ascii) : ascii :=
  let n := N_of_ascii c in
  if (((65 <=? n) && (n <=? 90))
      || ((192 <=? n) && (n <=? 222) && negb (n =? 215)))%N
  then ascii_of_N (n + 32) else c.

Fixpoint toLowerCase (s : string) : string :=
  match s with
  | EmptyString => EmptyString
  | String c r => String (lowerChar c) (toLowerCase r)
  end.

Definition startsWith (s t : string) : bool := String.prefix t s.

(** [s.includes(t)]: [t] occurs in [s] as a contiguous substring. *)
Fixpoint includes (s t : string) : bool :=
  match s with
  | EmptyString => startsWith s t
  | String _ r => startsWith s t || includes r t
  end.

(** A string is falsy exactly when it is empty. *)
Definition isEmpty (s : string) : bool :=
  match s with
  | EmptyString => true
  | String _ _ => false
  end.

(** *** parseFloat

    [parseFloat] skips leading white space and converts the longest prefix
    that is a decimal literal: an optional sign, then [Infinity] or digits
    with an optional fraction and an optional exponent.  It returns [NaN]
    when there is no such prefix.  The value is rounded to the nearest
    double, ties to even. *)

(** The white space and line terminators below 256: tab to carriage
    return, the space and the no-break space. *)
Definition isWhiteSpace (c : ascii) : bool :=
  let n := N_of_ascii c in
  (((9 <=? n) && (n <=? 13)) || (n =? 32) || (n =? 160))%N.

Fixpoint trimStart (s : string) : string :=
  match s with
  | String c r => if isWhiteSpace c then trimStart r else s
  | EmptyString => s
  end.

Definition isDigit (c : ascii) : bool :=
  let n := N_of_ascii c in ((48 <=? n) && (n <=? 57))%N.

Definition digitVal (c : ascii) : Z := Z.of_N (N_of_ascii c) - 48.

(** The leading decimal digits of [s] and what follows them. *)
Fixpoint takeDigits (s : string) : list Z * string :=
  match s with
  | String c r =>
      if isDigit c then let '(ds, r') := takeDigits r in (digitVal c :: ds, r')
      else ([], s)
  | EmptyString => ([], s)
  end.

Definition digitsVal (ds : list Z) : Z := fold_left (fun a d => 10 * a + d) ds 0.

(** The double nearest to [(-1)^neg * m * 10^e], for [0 <= m]. *)
Definition decimalToNumber (neg : bool) (m e : Z) : number :=
  match m with
  | Z0 => S754_zero neg
  | Zneg _ => S754_nan
  | Zpos p =>
      if 0 <=? e
      then binary_normalize prec emax (if neg then - (m * 10 ^ e) else m * 10 ^ e) 0 false
      else SFdiv prec emax (S754_finite neg p 0)
                           (S754_finite false (Z.to_pos (10 ^ (- e))) 0)
  end.

(** The exponent part [e], [e+] or [e-] followed by at least one digit;
    [0] when the text does not continue with one. *)
Definition exponentPart (s : string) : Z :=
  match s with
  | String c r =>
      if (Ascii.eqb c "e" || Ascii.eqb c "E")%char then
        match r with
        | String "-"%char r' =>
            match takeDigits r' with
            | ([], _) => 0
            | (ds, _) => - digitsVal ds
            end
        | String "+"%char r' => digitsVal (fst (takeDigits r'))
        | _ => digitsVal (fst (takeDigits r))
        end
      else 0
  | EmptyString => 0
  end.

(** The unsigned part of a decimal literal. *)
Definition unsignedLiteral (neg : bool) (s : string) : number :=
  if startsWith s "Infinity" then S754_infinity neg
  else
    let '(intDigits, r) := takeDigits s in
    let '(fracDigits, r') :=
      match r with
      | String "."%char q => takeDigits q
      | _ => ([], r)
      end in
    match intDigits, fracDigits with
    | [], [] => S754_nan
    | _, _ =>
        decimalToNumber neg (digitsVal (intDigits ++ fracDigits))
                        (exponentPart r' - Z.of_nat (length fracDigits))
    end.

Definition parseFloat (s : string) : number :=
  match trimStart s with
  | String "-"%char r => unsignedLiteral true r
  | String "+"%char r => unsignedLiteral false r
  | t => unsignedLiteral false t
  end.

(** [parseFloat(x)] for a number [x]: the argument is first printed, with
    the shortest decimal text that reads back as [x], and then parsed; the
    result is [x] itself, except that negative zero prints as ["0"]. *)
Definition parseFloatOfNumber (x : number) : number :=
  match x with
  | S754_zero _ => zero
  | _ => x
  end.

(** *** replace, parseInt, String.fromCharCode, match *)

(** [s.slice(n)] for [0 <= n]. *)
Fixpoint slice (n : nat) (s : string) : string :=
  match n, s with
  | S n', String _ r => slice n' r
  | _, _ => s
  end.

(** [s.replace(pattern, replacement)] for a string [pattern] and a
    [replacement] without [$]: the first occurrence is replaced. *)
Fixpoint replace (s pattern replacement : string) : string :=
  if startsWith s pattern
  then replacement +:+ slice (String.length pattern) s
  else match s with
       | String c r => String c (replace r pattern replacement)
       | EmptyString => EmptyString
       end.

(** The code units of a string. *)
Definition codeUnits (s : string) : list Z :=
  (fun c => Z.of_N (N_of_ascii c)) <$> list_ascii_of_string s.

Definition hexVal (c : ascii) : option Z :=
  let n := N_of_ascii c in
  if isDigit c then Some (Z.of_N n - 48)
  else if ((97 <=? n) && (n <=? 102))%N then Some (Z.of_N n - 87)
  else if ((65 <=? n) && (n <=? 70))%N then Some (Z.of_N n - 55)
  else None.

(** The values of the leading hexadecimal digits of [s]. *)
Fixpoint takeHexDigits (s : string) : list Z :=
  match s with
  | String c r =>
      match hexVal c with
      | Some d => d :: takeHexDigits r
      | None => []
      end
  | EmptyString => []
  end.

(** [parseInt(s, 16)]: leading white space is skipped, then a sign and the
    prefix [0x] or [0X] are read if they are there, then the longest run of
    hexadecimal digits; [None] is [NaN], the result when that run is
    empty. *)
Definition parseInt16 (s : string) : option Z :=
  let t := trimStart s in
  let '(neg, u) :=
    match t with
    | String "-"%char r => (true, r)
    | String "+"%char r => (false, r)
    | _ => (false, t)
    end in
  let v :=
    match u with
    | String "0"%char (String x r) =>
        if (Ascii.eqb x "x" || Ascii.eqb x "X")%char then r else u
    | _ => u
    end in
  match takeHexDigits v with
  | [] => None
  | ds =>
      let n := fold_left (fun a d => 16 * a + d) ds 0 in
      Some (if neg then - n else n)
  end.

(** The code unit of [String.fromCharCode(n)]: [NaN] gives [0], any other
    number is taken modulo [2^16]. *)
Definition fromCharCode (n : option Z) : Z :=
  match n with
  | Some v => v mod 65536
  | None => 0
  end.

(** The characters [.] does not match in a regular expression. *)
Definition isLineTerminator (c : ascii) : bool :=
  let n := N_of_ascii c in ((n =? 10) || (n =? 13))%N.

(** [s.match(/.{1,2}/g) || []]: from left to right, two characters that
    [.] matches, or one if no second one follows. *)
Fixpoint matchOneOrTwo (s : string) : list string :=
  match s with
  | String a r =>
      if isLineTerminator a then matchOneOrTwo r
      else
        match r with
        | String b r' =>
            if isLineTerminator b then String a EmptyString :: matchOneOrTwo r'
            else String a (String b EmptyString) :: matchOneOrTwo r'
        | EmptyString => [String a EmptyString]
        end
  | EmptyString => []
  end.

(** [s.match(/.{2}/g)], with [null] read as the empty list. *)
Fixpoint matchTwo (s : string) : list string :=
  match s with
  | String a r =>
      match r with
      | String b r' =>
          if isLineTerminator a then matchTwo r
          else if isLineTerminator b then matchTwo r'
          else String a (String b EmptyString) :: matchTwo r'
      | EmptyString => []
      end
  | EmptyString => []
  end.

(** [chunks.map(byte => String.fromCharCode(parseInt(byte, 16))).join('')],
    as the list of the code units of the result. *)
Definition decodeHex (chunks : list string) : list Z :=
  (fun byte => fromCharCode (parseInt16 byte)) <$> chunks.

(** *** Notions the properties of the picture decoding are stated with *)

(** The text of bytes in the hex format in which the database sends a
    binary column: two lower-case digits for each byte, after the prefix
    [\x]. *)
Definition hexDigit (n : Z) : ascii :=
  ascii_of_N (Z.to_N (if n <? 10 then 48 + n else 87 + n)).

Definition hexOfByte (b : Z) : string :=
  String (hexDigit (b / 16)) (String (hexDigit (b mod 16)) EmptyString).

Fixpoint hexOfBytes (bs : list Z) : string :=
  match bs with
  | [] => EmptyString
  | b :: r => hexOfByte b +:+ hexOfBytes r
  end.

(** A text without line terminators. *)
Fixpoint singleLine (s : string) : bool :=
  match s with
  | String c r => negb (isLineTerminator c) && singleLine r
  | EmptyString => true
  end.

(** The two digits of a byte are read back as the byte, and neither is a
    line terminator. *)
Definition byteChecked (b : Z) : bool :=
  (fromCharCode (parseInt16 (hexOfByte b)) =? b)
  && negb (isLineTerminator (hexDigit (b / 16)))
  && negb (isLineTerminator (hexDigit (b mod 16))).

End JS.

(** ** The record type shared by the two components *)

Module Types.
Import JS.

(** A meal identifier is a number or a string ([mealId: number | string]). *)
Inductive MealId :=
  | IdNum (n : Z)
  | IdStr (s : string).

#[global] Instance MealId_eq_dec : EqDecision MealId.
Proof. solve_decision. Defined.

(** Modelled from the spec: the interface [Meal] is declared in
    [types/types], which is not part of the sources at hand.  The record has
    the fields of the spec's Record that the two components read: the
    identifier, the name, the description, the four nutrition numbers and the
    favorite flag.  A nutrition field is [None] when the object has no such
    property; a property that holds [null] is read the same way by every
    use below ([parseFloat(null)] is [NaN], [null || 0] is [0]). *)
Record Meal := {
  id : MealId;
  name : string;
  description : string;
  calories : option number;
  protein : option number;
  carbohydrates : option number;
  fat : option number;
  favorite : bool;
}.

(** [{ ...meal, favorite: status }] *)
Definition withFavorite (meal : Meal) (status : bool) : Meal :=
  {| id := id meal; name := name meal; description := description meal;
     calories := calories meal; protein := protein meal;
     carbohydrates := carbohydrates meal; fat := fat meal;
     favorite := status |}.

End Types.

(** ** [src/meals.tsx]: the component [MyMeals] *)

Module MyMeals.
Import JS Types.

(** *** The filter evaluation *)

(** The value of a property read by name, [meal[key]]. *)
Inductive Value :=
  | VNum (x : number)
  | VStr (s : string)
  | VBool (b : bool).

(** [meal[key]], or [None] when [key in meal] is false, for the properties
    of [Meal] above.  The filter types the component creates are the four
    nutrition fields (lines 38-43 and 603-608). *)
Definition getField (meal : Meal) (key : string) : option Value :=
  if String.eqb key "id" then
    Some (match id meal with IdNum n => VNum (ofZ n) | IdStr s => VStr s end)
  else if String.eqb key "name" then Some (VStr (name meal))
  else if String.eqb key "description" then Some (VStr (description meal))
  else if String.eqb key "calories" then VNum <$> calories meal
  else if String.eqb key "protein" then VNum <$> protein meal
  else if String.eqb key "carbohydrates" then VNum <$> carbohydrates meal
  else if String.eqb key "fat" then VNum <$> fat meal
  else if String.eqb key "favorite" then Some (VBool (favorite meal))
  else None.

(** [parseFloat(v as unknown as string)]: the value is converted to a string
    and parsed. *)
Definition parseFloatValue (v : Value) : number :=
  match v with
  | VNum x => parseFloatOfNumber x
  | VStr s => parseFloat s
  | VBool true => parseFloat "true"
  | VBool false => parseFloat "false"
  end.

(** One entry of the [filters] state: [{ type, greaterThan, lessThan }]. *)
Record NutritionFilter := {
  type : string;
  greaterThan : string;
  lessThan : string;
}.

(** The callback of [filters.every] (lines 540-557). *)
Definition passesFilter (meal : Meal) (filter : NutritionFilter) : bool :=
  let greaterThanValue := parseFloat (greaterThan filter) in
  let lessThanValue := parseFloat (lessThan filter) in
  match getField meal (type filter) with
  | Some v =>
      let mealValue := parseFloatValue v in
      if negb (isNaN greaterThanValue) && le mealValue greaterThanValue then false
      else if negb (isNaN lessThanValue) && ge mealValue lessThanValue then false
      else true
  | None => true
  end.

Definition passesFilters (filters : list NutritionFilter) (meal : Meal) : bool :=
  forallb (passesFilter meal) filters.

(** Lines 559-562. *)
Definition passesSearch (searchQuery : string) (meal : Meal) : bool :=
  isEmpty searchQuery
  || includes (toLowerCase (name meal)) (toLowerCase searchQuery)
  || includes (toLowerCase (description meal)) (toLowerCase searchQuery).

(** [meals.filter(...)] of lines 539-565. *)
Definition filterMeals (meals : list Meal) (filters : list NutritionFilter)
    (searchQuery : string) : list Meal :=
  List.filter (fun meal => passesFilters filters meal && passesSearch searchQuery meal)
              meals.

Definition defaultFilters : list NutritionFilter :=
  [ {| type := "calories"; greaterThan := ""; lessThan := "" |};
    {| type := "fat"; greaterThan := ""; lessThan := "" |};
    {| type := "protein"; greaterThan := ""; lessThan := "" |};
    {| type := "carbohydrates"; greaterThan := ""; lessThan := "" |} ].

(** *** Component state *)

Definition MEALS_PER_PAGE : Z := 20.

Record State := {
  meals : list Meal;
  filteredMeals : list Meal;
  filteredMealsReady : bool;
  searchQuery : string;
  filters : list NutritionFilter;
  loading : bool;
  refreshing : bool;
  error : option string;
  retryCount : Z;
  dietaryRestrictionFilter : string;
  aiFilter : string;
  cuisineFilter : string;
  filtersLoaded : bool;
  favoriteLoading : gmap string bool;
  currentPage : Z;
  hasMoreMeals : bool;
  loadingMore : bool;
}.

(** The state of the first render (lines 34-72). *)
Definition initialState : State :=
  {| meals := []; filteredMeals := []; filteredMealsReady := false;
     searchQuery := ""; filters := defaultFilters;
     loading := true; refreshing := false; error := None; retryCount := 0;
     dietaryRestrictionFilter := ""; aiFilter := ""; cuisineFilter := "";
     filtersLoaded := false; favoriteLoading := ∅;
     currentPage := 0; hasMoreMeals := true; loadingMore := false |}.

(** The calls of the state setters.  [AppendMeals], [IncrRetryCount] and
    [SetFavoriteLoading] are the functional updates
    [setMeals(prev => [...prev, ...newMeals])],
    [setRetryCount(prev => prev + 1)] and
    [setFavoriteLoading(prev => ({ ...prev, [mealId]: b }))]. *)
Inductive Update :=
  | SetMeals (ms : list Meal)
  | AppendMeals (ms : list Meal)
  | SetFilteredMeals (ms : list Meal)
  | SetFilteredMealsReady (b : bool)
  | SetSearchQuery (q : string)
  | SetFilters (fs : list NutritionFilter)
  | SetLoading (b : bool)
  | SetRefreshing (b : bool)
  | SetError (e : option string)
  | SetRetryCount (n : Z)
  | IncrRetryCount
  | SetDietaryRestrictionFilter (v : string)
  | SetAiFilter (v : string)
  | SetCuisineFilter (v : string)
  | SetFiltersLoaded (b : bool)
  | SetFavoriteLoading (key : string) (b : bool)
  | SetCurrentPage (n : Z)
  | SetHasMoreMeals (b : bool)
  | SetLoadingMore (b : bool).

Definition applyUpdate (s : State) (u : Update) : State :=
  {| meals :=
       match u with
       | SetMeals ms => ms
       | AppendMeals ms => meals s ++ ms
       | _ => meals s
       end;
     filteredMeals := match u with SetFilteredMeals ms => ms | _ => filteredMeals s end;
     filteredMealsReady :=
       match u with SetFilteredMealsReady b => b | _ => filteredMealsReady s end;
     searchQuery := match u with SetSearchQuery q => q | _ => searchQuery s end;
     filters := match u with SetFilters fs => fs | _ => filters s end;
     loading := match u with SetLoading b => b | _ => loading s end;
     refreshing := match u with SetRefreshing b => b | _ => refreshing s end;
     error := match u with SetError e => e | _ => error s end;
     retryCount :=
       match u with
       | SetRetryCount n => n
       | IncrRetryCount => retryCount s + 1
       | _ => retryCount s
       end;
     dietaryRestrictionFilter :=
       match u with SetDietaryRestrictionFilter v => v | _ => dietaryRestrictionFilter s end;
     aiFilter := match u with SetAiFilter v => v | _ => aiFilter s end;
     cuisineFilter := match u with SetCuisineFilter v => v | _ => cuisineFilter s end;
     filtersLoaded := match u with SetFiltersLoaded b => b | _ => filtersLoaded s end;
     favoriteLoading :=
       match u with
       | SetFavoriteLoading key b => <[key := b]> (favoriteLoading s)
       | _ => favoriteLoading s
       end;
     currentPage := match u with SetCurrentPage n => n | _ => currentPage s end;
     hasMoreMeals := match u with SetHasMoreMeals b => b | _ => hasMoreMeals s end;
     loadingMore := match u with SetLoadingMore b => b | _ => loadingMore s end |}.

Definition applyUpdates (us : list Update) (s : State) : State :=
  fold_left applyUpdate us s.

(** *** Services and timers *)

(** What a handler sends to the services it awaits. *)
Inductive Request :=
  | GetUser
      (* supabase.auth.getUser() *)
  | CacheGetUserMeals (userId : string)
      (* cachedDataService.getUserMeals(userId) *)
  | SelectMeals (userId : string) (offset last : Z) (dietary ai cuisine : string)
      (* the query on "meals": .range(offset, last) and the .eq filters *)
  | UpdateFavorite (mealId : MealId) (status : bool).
      (* .update({ favorite: status }).eq("id", mealId) *)

(** The answer of [supabase.auth.getUser()] as [getCurrentUserId] sees it:
    a user id, or the message of the error it catches. *)
Inductive UserAnswer :=
  | UserId (userId : string)
  | UserError (message : string).

(** The answer [{ data, error }] of a query; [data] may be [null].  The
    client resolves with an [error] also when the request could not be
    sent: its promise does not reject. *)
Inductive QueryAnswer :=
  | QueryError (message : string)
  | QueryData (data : option (list Meal)).

(** The answers one call of [fetchMyMeals] gets from the services it awaits;
    [cacheAnswer] is [None] when the cache read throws. *)
Record FetchAnswers := {
  userAnswer : UserAnswer;
  cacheAnswer : option (list Meal);
  queryAnswer : QueryAnswer;
}.

(** The callback of a [setTimeout], with the render state it closes over. *)
Inductive Callback :=
  | RetryFetch (env : State) (isRefresh loadMore : bool)
      (* () => { setRetryCount(prev => prev + 1); fetchMyMeals(isRefresh, loadMore); } *)
  | Backfill (env : State).
      (* () => loadMoreMeals() *)

Record Timer := {
  delay : Z;
  callback : Callback;
}.

(** One run of an asynchronous handler: the state updates before its first
    [await], the requests it sends, and, once the last answer is there, the
    final state updates, the timers it registers and the alerts it shows. *)
Record Run := {
  before : list Update;
  requests : list Request;
  after : list Update;
  timers : list Timer;
  alerts : list string;
}.

(** [a || b] on strings. *)
Definition orElse (a b : string) : string := if isEmpty a then b else a.

(** *** toggleFavorite (lines 295-346) *)

(** The property key [mealId] denotes in [favoriteLoading[mealId]]. *)
Definition idKey (mealId : MealId) : string :=
  match mealId with
  | IdNum n => pretty n
  | IdStr s => s
  end.

(** [typeof mealId === 'string' && mealId.startsWith('macro_')] *)
Definition isMacroId (mealId : MealId) : bool :=
  match mealId with
  | IdStr s => startsWith s "macro_"
  | IdNum _ => false
  end.

Definition setFavorite (mealId : MealId) (status : bool) (ms : list Meal) : list Meal :=
  map (fun meal => if decide (id meal = mealId) then withFavorite meal status else meal) ms.

(** [answer] is the [error] of the awaited update: [None] when it succeeded,
    the error's message otherwise (the client resolves with an [error], it
    does not reject).  The result is [None] when the call returns at one of
    its two guards. *)
Definition toggleFavorite (env : State) (mealId : MealId) (answer : option string)
    : option Run :=
  if bool_decide (favoriteLoading env !! idKey mealId = Some true) then None
  else if isMacroId mealId then None
  else
    let key := idKey mealId in
    let start := [SetFavoriteLoading key true; SetError None] in
    let finally := [SetFavoriteLoading key false] in
    let catch message :=
      [SetError (Some (orElse message "Failed to update favorite status. Please try again."))] in
    match find (fun meal => bool_decide (id meal = mealId)) (meals env) with
    | None =>
        Some {| before := start ++ catch "Meal not found" ++ finally;
                requests := []; after := []; timers := [];
                alerts := [orElse "Meal not found"
                                  "Failed to update favorite status. Please try again."] |}
    | Some currentMeal =>
        let newFavoriteStatus := negb (favorite currentMeal) in
        let updatedMeals := setFavorite mealId newFavoriteStatus (meals env) in
        let sent := [UpdateFavorite mealId newFavoriteStatus] in
        match answer with
        | Some message =>
            let revertedMeals := setFavorite mealId (favorite currentMeal) (meals env) in
            let thrown := orElse message "Failed to update favorite status" in
            Some {| before := start ++ [SetMeals updatedMeals];
                    requests := sent;
                    after := [SetMeals revertedMeals] ++ catch thrown ++ finally;
                    timers := [];
                    alerts := [orElse thrown
                                 "Failed to update favorite status. Please try again."] |}
        | None =>
            Some {| before := start ++ [SetMeals updatedMeals];
                    requests := sent; after := finally; timers := []; alerts := [] |}
        end
    end.

(** *** fetchMyMeals (lines 419-518) *)

Definition authMessage : string := "Authentication required. Please log in again.".

(** What the body of the [try] block obtains: the batch [newMeals], or the
    message of the error it throws; with the requests sent and the state
    updates of [getCurrentUserId]. *)
Record Attempt := {
  sent : list Request;
  inner : list Update;
  outcome : string + list Meal;
}.

Definition attempt (env : State) (loadMore : bool) (answers : FetchAnswers) : Attempt :=
  match userAnswer answers with
  | UserError message =>
      (* getCurrentUserId sets the error and returns null *)
      {| sent := [GetUser];
         inner := [SetError (Some (orElse message "Authentication error"))];
         outcome := inl authMessage |}
  | UserId userId =>
      let useCache :=
        negb loadMore && isEmpty (dietaryRestrictionFilter env)
        && isEmpty (aiFilter env) && isEmpty (cuisineFilter env) in
      let pageToLoad := if loadMore then currentPage env + 1 else 0 in
      let cached := if useCache then cacheAnswer answers else None in
      match cached with
      | Some (m :: ms) =>
          {| sent := [GetUser; CacheGetUserMeals userId]; inner := [];
             outcome := inr (m :: ms) |}
      | _ =>
          let offset := pageToLoad * MEALS_PER_PAGE in
          let query :=
            SelectMeals userId offset (offset + MEALS_PER_PAGE - 1)
                        (dietaryRestrictionFilter env) (aiFilter env) (cuisineFilter env) in
          {| sent := if useCache then [GetUser; CacheGetUserMeals userId; query]
                     else [GetUser; query];
             inner := [];
             outcome :=
               match queryAnswer answers with
               | QueryError message => inl (orElse message "Failed to fetch meals")
               | QueryData data => inr (default [] data)
               end |}
      end
  end.

Definition fetchMyMeals (env : State) (isRefresh loadMore : bool) (answers : FetchAnswers)
    : option Run :=
  if negb (filtersLoaded env) then None
  else
    let start :=
      (if isRefresh then
         [SetRefreshing true; SetError None; SetCurrentPage 0; SetHasMoreMeals true]
       else if loadMore then [SetLoadingMore true]
       else [SetLoading true; SetError None])
      ++ (if negb loadMore then [SetFilteredMealsReady false] else []) in
    let finally := [SetLoading false; SetRefreshing false; SetLoadingMore false] in
    let a := attempt env loadMore answers in
    match outcome a with
    | inr newMeals =>
        let pageToLoad := if loadMore then currentPage env + 1 else 0 in
        Some {| before := start; requests := sent a;
                after :=
                  inner a
                  ++ (if loadMore then [AppendMeals newMeals; SetCurrentPage pageToLoad]
                      else [SetMeals newMeals; SetCurrentPage 0])
                  ++ [SetHasMoreMeals (Z.of_nat (length newMeals) =? MEALS_PER_PAGE);
                      SetRetryCount 0]
                  ++ finally;
                timers := []; alerts := [] |}
    | inl message =>
        let errorMessage := orElse message "Failed to fetch meals. Please try again later." in
        Some {| before := start; requests := sent a;
                after := inner a ++ [SetError (Some errorMessage)] ++ finally;
                timers :=
                  if (retryCount env <? 3) && negb (includes message "Authentication")
                  then [ {| delay := 2 ^ retryCount env * 1000;
                            callback := RetryFetch env isRefresh loadMore |} ]
                  else [];
                alerts := [] |}
    end.

(** *** handleRefresh, loadMoreMeals (lines 520-529) *)

(** A call made by a handler after some state updates of its own. *)
Definition withUpdates (us : list Update) (r : option Run) : option Run :=
  match r with
  | Some run =>
      Some {| before := us ++ before run; requests := requests run; after := after run;
              timers := timers run; alerts := alerts run |}
  | None =>
      match us with
      | [] => None
      | _ => Some {| before := us; requests := []; after := []; timers := []; alerts := [] |}
      end
  end.

Definition handleRefresh (env : State) (answers : FetchAnswers) : option Run :=
  withUpdates [SetRetryCount 0] (fetchMyMeals env true false answers).

Definition loadMoreGuard (env : State) : bool :=
  negb (loadingMore env) && hasMoreMeals env && filteredMealsReady env.

Definition loadMoreMeals (env : State) (answers : FetchAnswers) : option Run :=
  if loadMoreGuard env then fetchMyMeals env false true answers else None.

(** What a timer callback does when it fires. *)
Definition fire (c : Callback) (answers : FetchAnswers) : option Run :=
  match c with
  | RetryFetch env isRefresh loadMore =>
      withUpdates [IncrRetryCount] (fetchMyMeals env isRefresh loadMore answers)
  | Backfill env => loadMoreMeals env answers
  end.

(** *** restoreFiltersAndFetchMeals (lines 348-400), handleSearchChange
    (lines 583-594) *)

(** What the restoration reads: the user id, if there is one, and the five
    saved items.  [savedFilters] is the parsed text, [None] when nothing is
    saved or the text does not parse; the other items are [None] when
    nothing is saved.  The 200 ms timeout gives empty strings for all. *)
Record StorageAnswers := {
  storageUser : option string;
  savedFilters : option (list NutritionFilter);
  savedSearchQuery : option string;
  savedDietary : option string;
  savedAi : option string;
  savedCuisine : option string;
}.

Definition setIfSaved (set : string → Update) (saved : option string) : list Update :=
  match saved with
  | Some v => [set v]
  | None => []
  end.

Definition restoreFiltersAndFetchMeals (a : StorageAnswers) : list Update :=
  [SetError None]
  ++ match storageUser a with
     | None => [SetError (Some authMessage); SetFiltersLoaded true]
     | Some _ =>
         match savedFilters a with
         | Some parsedFilters => [SetFilters parsedFilters]
         | None => []
         end
         ++ match savedSearchQuery a with
            | Some q => if isEmpty q then [] else [SetSearchQuery q]
            | None => []
            end
         ++ setIfSaved SetDietaryRestrictionFilter (savedDietary a)
         ++ setIfSaved SetAiFilter (savedAi a)
         ++ setIfSaved SetCuisineFilter (savedCuisine a)
         ++ [SetFiltersLoaded true; SetFilteredMealsReady false]
     end.

(** The write to storage that follows is not part of the model. *)
Definition handleSearchChange (text : string) : list Update := [SetSearchQuery text].

(** *** The filter effect (lines 538-577)

    The effect runs after a render; it has no [await].  It sets
    [filteredMeals], may set [filteredMealsReady], and may register the
    100 ms timer that calls [loadMoreMeals]. *)
Definition backfillWanted (env : State) (filtered : list Meal) : bool :=
  (Z.of_nat (length filtered) <? 10) && hasMoreMeals env && negb (loadingMore env)
  && (0 <? Z.of_nat (length (meals env))).

Definition filterEffect (env : State) : list Update * list Timer :=
  let filtered := filterMeals (meals env) (filters env) (searchQuery env) in
  ( [SetFilteredMeals filtered]
    ++ (if negb (loading env) || (0 <? Z.of_nat (length (meals env)))
        then [SetFilteredMealsReady true] else []),
    if backfillWanted env filtered
    then [ {| delay := 100; callback := Backfill env |} ]
    else [] ).

(** The effect of lines 531-536, run when the loaded flag or one of the
    categorical filters has changed. *)
Definition filtersChangedEffect (env : State) (answers : FetchAnswers) : option Run :=
  withUpdates [SetCurrentPage 0; SetHasMoreMeals true] (fetchMyMeals env false false answers).

(** *** The component over time

    The live state, the runs whose answers have not arrived yet, the timers
    that have not fired yet, and every request sent so far. *)

Inductive Call :=
  | CallFetch (isRefresh loadMore : bool)
  | CallToggle (mealId : MealId).

Record System := {
  live : State;
  inFlight : list (Call * Run);
  pendingTimers : list Timer;
  log : list Request;
}.

Definition initialSystem (s : State) : System :=
  {| live := s; inFlight := []; pendingTimers := []; log := [] |}.

(** A handler is called: its first updates are applied and its requests
    are sent; a run that awaits nothing is over at once. *)
Definition launch (c : Call) (r : option Run) (sys : System) : System :=
  match r with
  | None => sys
  | Some run =>
      match requests run with
      | [] =>
          {| live := applyUpdates (after run) (applyUpdates (before run) (live sys));
             inFlight := inFlight sys;
             pendingTimers := pendingTimers sys ++ timers run;
             log := log sys |}
      | _ =>
          {| live := applyUpdates (before run) (live sys);
             inFlight := inFlight sys ++ [(c, run)];
             pendingTimers := pendingTimers sys;
             log := log sys ++ requests run |}
      end
  end.

(** What can happen next.  A handler called by the user interface is the one
    of the latest render, so its [env] is the live state; a timer callback
    brings its own. *)
Inductive Event :=
  | EvRestore (a : StorageAnswers)
      (* the 50 ms timer of lines 402-409 fires *)
  | EvSearch (text : string)
      (* onChangeText={handleSearchChange} *)
  | EvFilterEffect
      (* the filter effect runs after a render *)
  | EvFiltersChanged (answers : FetchAnswers)
      (* the effect of lines 531-536 runs *)
  | EvLoadMore (answers : FetchAnswers)
      (* onEndReached={loadMoreMeals} *)
  | EvRefresh (answers : FetchAnswers)
      (* onRefresh={handleRefresh}, onPress={handleRefresh} *)
  | EvToggle (mealId : MealId) (answer : option string)
      (* onPress={() => toggleFavorite(item.id)} *)
  | EvAnswer (i : nat)
      (* the answers of the i-th run in flight arrive *)
  | EvTimer (i : nat) (answers : FetchAnswers).
      (* the i-th pending timer fires *)

Definition callOf (c : Callback) : Call :=
  match c with
  | RetryFetch _ isRefresh loadMore => CallFetch isRefresh loadMore
  | Backfill _ => CallFetch false true
  end.

Definition step (sys : System) (ev : Event) : System :=
  match ev with
  | EvRestore a =>
      {| live := applyUpdates (restoreFiltersAndFetchMeals a) (live sys);
         inFlight := inFlight sys; pendingTimers := pendingTimers sys; log := log sys |}
  | EvSearch text =>
      {| live := applyUpdates (handleSearchChange text) (live sys);
         inFlight := inFlight sys; pendingTimers := pendingTimers sys; log := log sys |}
  | EvFilterEffect =>
      let '(us, ts) := filterEffect (live sys) in
      {| live := applyUpdates us (live sys); inFlight := inFlight sys;
         pendingTimers := pendingTimers sys ++ ts; log := log sys |}
  | EvFiltersChanged answers =>
      launch (CallFetch false false) (filtersChangedEffect (live sys) answers) sys
  | EvLoadMore answers =>
      launch (CallFetch false true) (loadMoreMeals (live sys) answers) sys
  | EvRefresh answers =>
      launch (CallFetch true false) (handleRefresh (live sys) answers) sys
  | EvToggle mealId answer =>
      launch (CallToggle mealId) (toggleFavorite (live sys) mealId answer) sys
  | EvAnswer i =>
      match inFlight sys !! i with
      | Some (_, run) =>
          {| live := applyUpdates (after run) (live sys);
             inFlight := delete i (inFlight sys);
             pendingTimers := pendingTimers sys ++ timers run;
             log := log sys |}
      | None => sys
      end
  | EvTimer i answers =>
      match pendingTimers sys !! i with
      | Some t =>
          launch (callOf (callback t)) (fire (callback t) answers)
                 {| live := live sys; inFlight := inFlight sys;
                    pendingTimers := delete i (pendingTimers sys); log := log sys |}
      | None => sys
      end
  end.

Definition steps (sys : System) (evs : list Event) : System := fold_left step evs sys.

Definition isLoadMore (c : Call * Run) : bool :=
  match fst c with
  | CallFetch _ true => true
  | _ => false
  end.

(** The load-more fetches in flight. *)
Definition loadMoresInFlight (sys : System) : list (Call * Run) :=
  List.filter isLoadMore (inFlight sys).

Definition isSelectMeals (r : Request) : bool :=
  match r with
  | SelectMeals _ _ _ _ _ _ => true
  | _ => false
  end.

(** The page queries sent to the remote source so far. *)
Definition pageQueries (sys : System) : list Request := List.filter isSelectMeals (log sys).

(** *** Notions the properties are stated with *)

(** The fetches started by the timers a filter pass registers, once they
    fire. *)
Definition backfillFetches (env : State) (answers : FetchAnswers) : list Run :=
  omap (λ t, fire (callback t) answers) (snd (filterEffect env)).

(** *** Sample records, answers and histories *)

Definition sampleMeal (n : Z) : Meal :=
  {| id := IdNum n; name := "Meal " +:+ pretty n; description := "Dinner";
     calories := Some (ofZ (100 * n)); protein := Some (ofZ n);
     carbohydrates := Some (ofZ (2 * n)); fat := None; favorite := false |}.

(** The records 1 to [k]. *)
Definition sampleMeals (k : nat) : list Meal := sampleMeal <$> (Z.of_nat <$> seq 1 k).

Definition caloriesBetween (g l : string) : NutritionFilter :=
  {| type := "calories"; greaterThan := g; lessThan := l |}.

Definition user1 : string := "user-1".

(** The cache has nothing and the query fails. *)
Definition networkDown : FetchAnswers :=
  {| userAnswer := UserId user1; cacheAnswer := None;
     queryAnswer := QueryError "Network request failed" |}.

(** The cache has nothing and the query returns [ms]. *)
Definition page (ms : list Meal) : FetchAnswers :=
  {| userAnswer := UserId user1; cacheAnswer := None; queryAnswer := QueryData (Some ms) |}.

(** The cache returns [ms]. *)
Definition cached (ms : list Meal) : FetchAnswers :=
  {| userAnswer := UserId user1; cacheAnswer := Some ms;
     queryAnswer := QueryError "not asked" |}.

Definition noUser : FetchAnswers :=
  {| userAnswer := UserError authMessage; cacheAnswer := None;
     queryAnswer := QueryError "not asked" |}.

Definition nothingSaved : StorageAnswers :=
  {| storageUser := Some user1; savedFilters := None; savedSearchQuery := None;
     savedDietary := None; savedAi := None; savedCuisine := None |}.

Definition noSession : StorageAnswers :=
  {| storageUser := None; savedFilters := None; savedSearchQuery := None;
     savedDietary := None; savedAi := None; savedCuisine := None |}.

(** The state once the filters are restored and nothing else has happened. *)
Definition restoredState : State :=
  applyUpdates (restoreFiltersAndFetchMeals nothingSaved) initialState.

(** From the first render to the end of the first load.  The effects of
    a render run in the order of the source, the one of lines 531-536
    before the filter effect. *)
Definition mountAndLoad (first : FetchAnswers) : list Event :=
  [EvFiltersChanged first; EvFilterEffect; EvRestore nothingSaved;
   EvFiltersChanged first; EvFilterEffect; EvAnswer 0; EvFilterEffect; EvFilterEffect].

(** Twelve records are loaded; there is no further page. *)
Definition loaded : System :=
  steps (initialSystem initialState) (mountAndLoad (page (sampleMeals 12))).

(** Twenty records are loaded and a search shows two of them. *)
Definition searching : System :=
  steps (initialSystem initialState)
        (mountAndLoad (page (sampleMeals 20)) ++ [EvSearch "meal 2"; EvFilterEffect]).

(** The first load has failed for want of a session. *)
Definition signedOut : System :=
  steps (initialSystem initialState)
        [EvFiltersChanged noUser; EvFilterEffect; EvRestore noSession;
         EvFiltersChanged noUser; EvFilterEffect; EvAnswer 0].

(** A toggle of record 7 awaits its answer when a refresh brings a list
    without that record. *)
Definition toggledThenRefreshed : System :=
  steps (initialSystem initialState)
        (mountAndLoad (page [sampleMeal 7])
         ++ [EvToggle (IdNum 7) None; EvFilterEffect;
             EvRefresh (page [sampleMeal 8]); EvFilterEffect;
             EvAnswer 1; EvFilterEffect]).

(** The second page: the records 21 to 23. *)
Definition secondPage : list Meal := sampleMeal <$> [21; 22; 23].

(** The list reaches its end, then the timer of the filter pass fires. *)
Definition endReachedThenTimer : list Event :=
  [EvLoadMore (page secondPage); EvFilterEffect; EvTimer 0 (page secondPage)].

(** The fetch in flight fails, and the retry it has registered fires. *)
Definition failThenRetry : list Event :=
  [EvAnswer 0; EvFilterEffect; EvTimer 0 networkDown; EvFilterEffect].

(** A refresh that fails, and [k] retries that fail too. *)
Definition refreshFailing (k : nat) : list Event :=
  [EvRefresh networkDown; EvFilterEffect] ++ concat (replicate k failThenRetry)
  ++ [EvAnswer 0; EvFilterEffect].

(** *** isFilterActive (lines 81-85) *)

Definition boundSet (filter : NutritionFilter) : bool :=
  negb (String.eqb (greaterThan filter) "") || negb (String.eqb (lessThan filter) "").

Definition isFilterActive (env : State) : bool :=
  negb (String.eqb (aiFilter env) "")
  || negb (String.eqb (dietaryRestrictionFilter env) "")
  || negb (String.eqb (cuisineFilter env) "")
  || existsb boundSet (filters env).

(** *** The filter dialog: clearFilters (lines 598-645), applyFilters
    (lines 647-695)

    The dialog edits a draft, the state variables [tempFilters],
    [tempDietaryRestrictionFilter], [tempAiFilter] and [tempCuisineFilter];
    the flags of the dialog itself and the writes to storage are not part
    of the model. *)

Record Draft := {
  tempFilters : list NutritionFilter;
  tempDietaryRestrictionFilter : string;
  tempAiFilter : string;
  tempCuisineFilter : string;
}.

(** [!text || !isNaN(parseFloat(text))] *)
Definition validBound (text : string) : bool :=
  isEmpty text || negb (isNaN (parseFloat text)).

(** [isValid] of lines 652-656. *)
Definition validFilters (fs : list NutritionFilter) : bool :=
  forallb (fun filter => validBound (greaterThan filter) && validBound (lessThan filter)) fs.

Definition invalidFiltersMessage : string :=
  "Please enter valid numeric values for the filters.".

Definition applyFilters (draft : Draft) (user : UserAnswer) : Run :=
  if negb (validFilters (tempFilters draft)) then
    {| before := [SetError None]; requests := []; after := []; timers := [];
       alerts := [invalidFiltersMessage] |}
  else
    match user with
    | UserError message =>
        let errorMessage := orElse authMessage "Failed to apply filters" in
        {| before := [SetError None]; requests := [GetUser];
           after := [SetError (Some (orElse message "Authentication error"));
                     SetError (Some errorMessage)];
           timers := []; alerts := [errorMessage] |}
    | UserId _ =>
        {| before := [SetError None]; requests := [GetUser];
           after := [SetFilters (tempFilters draft);
                     SetDietaryRestrictionFilter (tempDietaryRestrictionFilter draft);
                     SetAiFilter (tempAiFilter draft);
                     SetCuisineFilter (tempCuisineFilter draft)];
           timers := []; alerts := [] |}
    end.

Definition clearFilters (user : UserAnswer) : Run :=
  {| before := [SetError None; SetFilters defaultFilters; SetAiFilter "";
                SetDietaryRestrictionFilter ""; SetCuisineFilter ""; SetSearchQuery ""];
     requests := [GetUser];
     after := match user with
              | UserError message => [SetError (Some (orElse message "Authentication error"))]
              | UserId _ => []
              end;
     timers := []; alerts := [] |}.

(** The state once a run is over. *)
Definition finished (run : Run) (s : State) : State :=
  applyUpdates (after run) (applyUpdates (before run) s).

(** The state after the filter effect has run in it. *)
Definition afterFilterEffect (s : State) : State := applyUpdates (fst (filterEffect s)) s.

(** *** What the component shows (lines 697-971) *)

Inductive Footer :=
  | LoadingMoreFooter
      (* "Loading more meals..." *)
  | EndOfListFooter
      (* "You've reached the end of your meals!" *)
  | NoFooter.

Inductive Screen :=
  | LoadingScreen
      (* the early return of line 697 *)
  | ListSpinner
      (* line 814 *)
  | EmptyState (adjust : bool)
      (* "No Meals Found"; [adjust] selects "Try adjusting your search or
         filters to find meals." *)
  | MealList (data : list Meal) (footer : Footer).

Definition screen (s : State) : Screen :=
  if loading s || negb (filtersLoaded s) || negb (filteredMealsReady s) then LoadingScreen
  else if loading s && (Z.of_nat (length (meals s)) =? 0) then ListSpinner
  else if (Z.of_nat (length (filteredMeals s)) =? 0) && filteredMealsReady s
          && negb (loading s)
  then EmptyState (negb (isEmpty (searchQuery s)) || isFilterActive s)
  else MealList (filteredMeals s)
         (if loadingMore s then LoadingMoreFooter
          else if negb (hasMoreMeals s) && (0 <? Z.of_nat (length (filteredMeals s)))
          then EndOfListFooter
          else NoFooter).

(** The [uri] of the image of a record whose [picture] is a non-empty
    string, as the list of its code units; [None] is the placeholder
    (lines 890-906). *)
Definition imageUri (picture : option string) : option (list Z) :=
  match picture with
  | Some p =>
      if isEmpty p then None
      else if startsWith p "\x" then Some (decodeHex (matchTwo (slice 2 p)))
      else Some (codeUnits p)
  | None => None
  end.

(** The identifiers of a list of records, in order. *)
Definition ids (ms : list Meal) : list MealId := id <$> ms.



(** *** More samples *)

(** A draft that asks for more than 100 and less than 500 calories. *)
Definition sampleDraft : Draft :=
  {| tempFilters := [caloriesBetween "100" "500"]; tempDietaryRestrictionFilter := "";
     tempAiFilter := "ai"; tempCuisineFilter := "" |}.

(** A draft with a lower bound that is not a number. *)
Definition invalidDraft : Draft :=
  {| tempFilters := [caloriesBetween "abc" "500"]; tempDietaryRestrictionFilter := "vegan";
     tempAiFilter := ""; tempCuisineFilter := "" |}.

(** The first load has brought no record. *)
Definition emptyLoaded : System :=
  steps (initialSystem initialState) (mountAndLoad (page [])).


End MyMeals.

(** ** [src/calendar.tsx]: the component [MealPlanCalendar] *)

Module Calendar.
Import JS Types.

(** *** Rows of the remote tables *)

(** The columns of a row of "meals" joined to a meal-plan entry
    ([entry.meals]) that [Meal] keeps; every column but the key may be
    [null]. *)
Record MealRow := {
  rowId : MealId;
  rowName : option string;
  rowDescription : option string;
  rowCalories : option number;
  rowProtein : option number;
  rowCarbohydrates : option number;
  rowFat : option number;
  rowFavorite : option bool;
}.

(** A row of "meal_plan": the joined meal ([entry.meals], possibly [null])
    and [entry.meal_id]. *)
Record PlanEntry := {
  entryMeals : option MealRow;
  entryMealId : MealId;
}.

(** A row of "macro_meals". *)
Record MacroMeal := {
  macroId : MealId;
  macroMealName : option string;
  macroCalories : option number;
  macroProtein : option number;
  macroCarbs : option number;
  macroFat : option number;
}.

(** The falsy identifiers are [0] and the empty string. *)
Definition idTruthy (i : MealId) : bool :=
  match i with
  | IdNum n => negb (n =? 0)
  | IdStr s => negb (isEmpty s)
  end.

(** [s || d] on a string that may be [null]. *)
Definition strOr (s : option string) (d : string) : string :=
  match s with
  | Some v => if isEmpty v then d else v
  | None => d
  end.

(** The property key, and the text in a template string, of an identifier. *)
Definition idText (i : MealId) : string :=
  match i with
  | IdNum n => pretty n
  | IdStr s => s
  end.

(** Lines 171-206. *)
Definition transformEntry (entry : PlanEntry) : Meal :=
  let m := entryMeals entry in
  {| id := match m with
           | Some r => if idTruthy (rowId r) then rowId r else entryMealId entry
           | None => entryMealId entry
           end;
     name := strOr (m ≫= rowName) "Unknown Meal";
     description := strOr (m ≫= rowDescription) "";
     calories := Some (orZero (m ≫= rowCalories));
     protein := Some (orZero (m ≫= rowProtein));
     carbohydrates := Some (orZero (m ≫= rowCarbohydrates));
     fat := Some (orZero (m ≫= rowFat));
     favorite := default false (m ≫= rowFavorite) |}.

(** Lines 209-233. *)
Definition transformMacroMeal (macroMeal : MacroMeal) : Meal :=
  {| id := IdStr ("macro_" +:+ idText (macroId macroMeal));
     name := strOr (macroMealName macroMeal) "Scanned Meal";
     description := "AI-analyzed meal nutrition";
     calories := Some (orZero (macroCalories macroMeal));
     protein := Some (orZero (macroProtein macroMeal));
     carbohydrates := Some (orZero (macroCarbs macroMeal));
     fat := Some (orZero (macroFat macroMeal));
     favorite := false |}.

(** *** Component state *)

Record State := {
  daysToShow : nat;
  meals : gmap string (list Meal);
  loadingDates : gmap string bool;
  error : option string;
  isRefreshing : bool;
  isInitialLoading : bool;
}.

Definition initialState : State :=
  {| daysToShow := 7; meals := ∅; loadingDates := ∅; error := None;
     isRefreshing := false; isInitialLoading := true |}.

(** The calls of the state setters; the three on maps are the functional
    updates [prev => ({ ...prev, [date]: b })],
    [prev => ({ ...prev, ...newMeals })] and
    [prev => ({ ...prev, [date]: mealsForDate })]. *)
Inductive Update :=
  | SetLoadingDate (date : string) (b : bool)
  | SetError (e : option string)
  | MergeMeals (newMeals : gmap string (list Meal))
  | SetMealsForDate (date : string) (mealsForDate : list Meal)
  | SetIsRefreshing (b : bool)
  | SetIsInitialLoading (b : bool).

Definition applyUpdate (s : State) (u : Update) : State :=
  let mk ms ld er rf il :=
    {| daysToShow := daysToShow s; meals := ms; loadingDates := ld; error := er;
       isRefreshing := rf; isInitialLoading := il |} in
  match u with
  | SetLoadingDate date b =>
      mk (meals s) (<[date := b]> (loadingDates s)) (error s) (isRefreshing s)
         (isInitialLoading s)
  | SetError e =>
      mk (meals s) (loadingDates s) e (isRefreshing s) (isInitialLoading s)
  | MergeMeals newMeals =>
      mk (newMeals ∪ meals s) (loadingDates s) (error s) (isRefreshing s)
         (isInitialLoading s)
  | SetMealsForDate date mealsForDate =>
      mk (<[date := mealsForDate]> (meals s)) (loadingDates s) (error s) (isRefreshing s)
         (isInitialLoading s)
  | SetIsRefreshing b =>
      mk (meals s) (loadingDates s) (error s) b (isInitialLoading s)
  | SetIsInitialLoading b =>
      mk (meals s) (loadingDates s) (error s) (isRefreshing s) b
  end.

Definition applyUpdates (us : list Update) (s : State) : State :=
  fold_left applyUpdate us s.

(** *** Answers of the services *)

(** [getCurrentUserId] (lines 65-83): the user id, or [null] after it has set
    the error to the given message. *)
Inductive UserAnswer :=
  | UserId (userId : string)
  | NoUser (shown : string).

(** [cachedDataService.getMealsForDate]: it throws, or resolves to [null],
    or resolves to a list. *)
Inductive CacheAnswer :=
  | CacheThrows
  | CacheNull
  | CacheMeals (cached : list Meal).

(** The answer [{ data, error }] of the query on "meal_plan". *)
Inductive PlanAnswer :=
  | PlanError (message : string)
  | PlanData (data : option (list PlanEntry)).

(** The two queries of lines 110-147: the [try] block throws while it
    awaits or reads them ([QueriesRejected]), or both answers arrive;
    [macro] is the [data] of the second one, [None] when it is [null], as
    it is when that query reports an error. *)
Inductive QueriesAnswer :=
  | QueriesRejected
  | QueriesAnswered (plan : PlanAnswer) (macro : option (list MacroMeal)).

(** What one attempt of [fetchMealsForDate] gets. *)
Record DateAnswers := {
  userAnswer : UserAnswer;
  cacheAnswer : CacheAnswer;
  queriesAnswer : QueriesAnswer;
}.

(** *** fetchMealsForDate (lines 85-256) *)

(** One pass through the body: it returns a list, or calls itself again
    after one second. *)
Inductive Pass :=
  | Return (mealsForDate : list Meal) (us : list Update)
  | Again (us : list Update).

Definition pass (date : string) (retryCount : Z) (a : DateAnswers) : Pass :=
  let start := [SetLoadingDate date true] in
  match userAnswer a with
  | NoUser shown => Return [] (start ++ [SetError (Some shown); SetLoadingDate date false])
  | UserId userId =>
      match cacheAnswer a with
      | CacheMeals (m :: ms) =>
          Return (m :: ms) (start ++ [SetLoadingDate date false; SetError None])
      | _ =>
          match queriesAnswer a with
          | QueriesRejected =>
              if retryCount <? 2 then Again start
              else Return [] (start ++
                     [SetError (Some ("An unexpected error occurred loading meals for "
                                      +:+ date +:+ "."));
                      SetLoadingDate date false])
          | QueriesAnswered (PlanError message) _ =>
              if (retryCount <? 2)
                 && (includes message "network" || includes message "timeout")
              then Again start
              else Return [] (start ++
                     [SetError (Some ("Failed to load meals for " +:+ date
                                      +:+ ". Please try refreshing."));
                      SetLoadingDate date false])
          | QueriesAnswered (PlanData data) macro =>
              let transformedMeals := transformEntry <$> default [] data in
              let transformedMacroMeals := transformMacroMeal <$> default [] macro in
              Return (transformedMeals ++ transformedMacroMeals)
                     (start ++ [SetLoadingDate date false; SetError None])
          end
      end
  end.

(** [answers n] is what the attempt with [retryCount = n] gets.  The
    recursion of the source is on [retryCount]; [fuel] bounds it here. *)
Fixpoint fetchMealsForDateFrom (fuel : nat) (date : string) (retryCount : Z)
    (answers : Z → DateAnswers) : option (list Meal * list Update) :=
  match fuel with
  | O => None
  | S fuel' =>
      match pass date retryCount (answers retryCount) with
      | Return mealsForDate us => Some (mealsForDate, us)
      | Again us =>
          match fetchMealsForDateFrom fuel' date (retryCount + 1) answers with
          | Some (mealsForDate, us') => Some (mealsForDate, us ++ us')
          | None => None
          end
      end
  end.

(** [fetchMealsForDate(date)], with [retryCount = 0]: three passes at most. *)
Definition fetchMealsForDate (date : string) (answers : Z → DateAnswers)
    : list Meal * list Update :=
  default ([], []) (fetchMealsForDateFrom 3 date 0 answers).

(** *** calculateNutritionTotals (lines 464-476) *)

Record Totals := {
  totalCalories : number;
  totalProtein : number;
  totalCarbs : number;
  totalFat : number;
}.

Definition calculateNutritionTotals (mealsForDay : list Meal) : Totals :=
  fold_left
    (fun totals meal =>
       {| totalCalories := add (totalCalories totals) (orZero (calories meal));
          totalProtein := add (totalProtein totals) (orZero (protein meal));
          totalCarbs := add (totalCarbs totals) (orZero (carbohydrates meal));
          totalFat := add (totalFat totals) (orZero (fat meal)) |})
    mealsForDay
    {| totalCalories := zero; totalProtein := zero; totalCarbs := zero; totalFat := zero |}.

(** *** fetchMealsForWeek (lines 258-359)

    The per-date reads and fetches of one call are all started in the [for]
    loop and run interleaved; each [.then] callback runs when its own read
    or fetch has settled.  The order in which they settle is not fixed by
    the code: it is part of what the call gets. *)

Record WeekAnswers := {
  weekUser : UserAnswer;
  weekCache : nat → CacheAnswer;
      (* the cache read of day i *)
  weekFetch : nat → Z → DateAnswers;
      (* what fetchMealsForDate of day i gets at each attempt *)
  cacheOrder : list nat;
      (* the days, in the order in which their cache reads settle *)
  fetchOrder : list nat;
      (* the days, in the order in which their fetches settle *)
}.

Section Week.

(** [dateOf i] is [format(addDays(weekStartDate, i), "yyyy-MM-dd")]; the
    functions [addDays] and [format] are those of the library date-fns. *)
Variable dateOf : nat → string.

(** The days the [for] loops start: [i < daysToShow]. *)
Definition started (env : State) (i : nat) : bool := bool_decide (i < daysToShow env)%nat.

(** The cache reads of lines 279-295: [newMeals] after [Promise.all], and
    whether one of the reads resolved to [null]. *)
Definition cachedWeek (env : State) (w : WeekAnswers) : gmap string (list Meal) * bool :=
  fold_left
    (fun '(newMeals, nullSeen) i =>
       match weekCache w i with
       | CacheMeals mealsForDate => (<[dateOf i := mealsForDate]> newMeals, nullSeen)
       | CacheNull => (delete (dateOf i) newMeals, true)
       | CacheThrows => (newMeals, nullSeen)
       end)
    (List.filter (started env) (cacheOrder w)) (∅, false).

Definition hasData (entry : string * list Meal) : bool :=
  match snd entry with
  | [] => false
  | _ => true
  end.

(** [!newMeals[date] || newMeals[date].length === 0] *)
Definition isMissing (newMeals : gmap string (list Meal)) (i : nat) : bool :=
  match newMeals !! dateOf i with
  | Some (_ :: _) => false
  | _ => true
  end.

(** Lines 336-349: every day is fetched, [newMeals] is filled as the fetches
    settle, and the map is published once, after all of them. *)
Definition freshWeek (env : State) (w : WeekAnswers) (newMeals : gmap string (list Meal))
    : list Update :=
  let fetched i := fetchMealsForDate (dateOf i) (weekFetch w i) in
  let settled := List.filter (started env) (fetchOrder w) in
  let newMeals' :=
    fold_left (fun nm i => <[dateOf i := fst (fetched i)]> nm) settled newMeals in
  concat ((fun i => snd (fetched i)) <$> settled)
  ++ [MergeMeals newMeals'; SetError None].

(** Lines 299-329: the cached days are published at once, and each missing
    day is published when its own fetch settles. *)
Definition cachedThenMissing (env : State) (w : WeekAnswers)
    (newMeals : gmap string (list Meal)) : list Update :=
  let fetched i := fetchMealsForDate (dateOf i) (weekFetch w i) in
  [MergeMeals newMeals]
  ++ concat ((fun i => snd (fetched i) ++ [SetMealsForDate (dateOf i) (fst (fetched i))])
             <$> List.filter (isMissing newMeals)
                   (List.filter (started env) (fetchOrder w)))
  ++ [SetError None].

Definition fetchMealsForWeek (env : State) (isRefresh : bool) (w : WeekAnswers)
    : list Update :=
  let start := if isRefresh then [SetIsRefreshing true] else [SetIsInitialLoading true] in
  let finally := [SetIsRefreshing false; SetIsInitialLoading false] in
  match weekUser w with
  | NoUser shown =>
      start
      ++ [SetError (Some shown);
          SetError (Some "Authentication required. Please log in again.")]
      ++ finally
  | UserId _ =>
      if isRefresh then start ++ freshWeek env w ∅ ++ finally
      else
        let '(newMeals, nullSeen) := cachedWeek env w in
        if negb nullSeen && existsb hasData (map_to_list newMeals)
        then start ++ cachedThenMissing env w newMeals ++ finally
        else start ++ freshWeek env w newMeals ++ finally
  end.

(** [handleRefresh] (lines 361-363). *)
Definition handleRefresh (env : State) (w : WeekAnswers) : list Update :=
  fetchMealsForWeek env true w.

End Week.


(** *** Notions the properties are stated with *)

(** The sum [((start + x1) + x2) + ...], added from left to right. *)
Definition sumFrom (start : number) (xs : list number) : number := fold_left add xs start.

(** What a field counts for in a total, in the words of the property: the
    value the record has for it, and 0 when the record has none. *)
Definition valueOrZero (x : option number) : number :=
  match x with
  | Some v => v
  | None => zero
  end.

(** The totals in the words of the property: component by component, the
    sum over the list of what the field counts for. *)
Definition summedTotals (mealsForDay : list Meal) : Totals :=
  {| totalCalories := sumFrom zero (valueOrZero ∘ calories <$> mealsForDay);
     totalProtein := sumFrom zero (valueOrZero ∘ protein <$> mealsForDay);
     totalCarbs := sumFrom zero (valueOrZero ∘ carbohydrates <$> mealsForDay);
     totalFat := sumFrom zero (valueOrZero ∘ fat <$> mealsForDay) |}.

(** A field that is missing, or holds a number other than [NaN] and the
    negative zero. *)
Definition plain (x : option number) : bool :=
  match x with
  | Some S754_nan | Some (S754_zero true) => false
  | _ => true
  end.

Definition plainFields (meal : Meal) : bool :=
  plain (calories meal) && plain (protein meal) && plain (carbohydrates meal)
  && plain (fat meal).

(** An attempt that obtains no record: no user, or no cached record and a
    rejected or failed query. *)
Definition failed (a : DateAnswers) : bool :=
  match userAnswer a, cacheAnswer a, queriesAnswer a with
  | NoUser _, _, _ => true
  | UserId _, CacheMeals (_ :: _), _ => false
  | UserId _, _, QueriesRejected => true
  | UserId _, _, QueriesAnswered (PlanError _) _ => true
  | UserId _, _, QueriesAnswered (PlanData _) _ => false
  end.

(** An attempt that the code repeats, unless it is the third: there is a
    user, the cache has no record, and the queries are rejected or the query
    on "meal_plan" reports an error whose message mentions [network] or
    [timeout]. *)
Definition retried (a : DateAnswers) : bool :=
  match userAnswer a, cacheAnswer a, queriesAnswer a with
  | NoUser _, _, _ => false
  | UserId _, CacheMeals (_ :: _), _ => false
  | UserId _, _, QueriesRejected => true
  | UserId _, _, QueriesAnswered (PlanError message) _ =>
      includes message "network" || includes message "timeout"
  | UserId _, _, QueriesAnswered (PlanData _) _ => false
  end.

(** The updates that publish records: the calls of [setMeals]. *)
Definition isPublish (u : Update) : bool :=
  match u with
  | MergeMeals _ | SetMealsForDate _ _ => true
  | _ => false
  end.

(** What an update does to the published map. *)
Definition publish (m : gmap string (list Meal)) (u : Update) : gmap string (list Meal) :=
  match u with
  | MergeMeals newMeals => newMeals ∪ m
  | SetMealsForDate date mealsForDate => <[date := mealsForDate]> m
  | _ => m
  end.

(** *** A sample week *)

(** The days from 2024-03-10 on. *)
Definition marchFrom10 (i : nat) : string := "2024-03-" +:+ pretty (10 + i)%nat.

Definition plannedMeal (n : Z) : PlanEntry :=
  {| entryMeals :=
       Some {| rowId := IdNum n; rowName := Some "Soup"; rowDescription := None;
               rowCalories := Some (ofZ 250); rowProtein := None;
               rowCarbohydrates := Some (ofZ 30); rowFat := None;
               rowFavorite := None |};
     entryMealId := IdNum n |}.

Definition dayAnswered (n : Z) : DateAnswers :=
  {| userAnswer := UserId "user-1"; cacheAnswer := CacheThrows;
     queriesAnswer := QueriesAnswered (PlanData (Some [plannedMeal n])) None |}.



(** *** The picture of a planned record (lines 172-179) *)

(** [pictureUri] for the column [picture] of the joined row, [None] when it
    is [null]; the result is [null] or the list of the code units of a
    string. *)
Definition pictureUri (picture : option string) : option (list Z) :=
  match picture with
  | Some p =>
      if isEmpty p then None
      else if startsWith p "\x" then Some (decodeHex (matchOneOrTwo (slice 2 p)))
      else Some (codeUnits p)
  | None => None
  end.

(** *** What a day of the calendar shows (lines 935-1048) *)

Inductive DayCell :=
  | Spinner
      (* "Loading meals..." *)
  | Cards (mealsForDay : list Meal)
  | NoMealsPlanned
      (* "No meals planned" *)
  | Blank.

Definition dayCell (s : State) (date : string) : DayCell :=
  if default false (loadingDates s !! date) then Spinner
  else
    match meals s !! date with
    | Some (m :: ms) => Cards (m :: ms)
    | Some [] => NoMealsPlanned
    | None => Blank
    end.

Definition noTotals : Totals :=
  {| totalCalories := zero; totalProtein := zero; totalCarbs := zero; totalFat := zero |}.

(** [totals] of lines 1045-1047. *)
Definition dayTotals (s : State) (date : string) : Totals :=
  match meals s !! date with
  | Some (m :: ms) => calculateNutritionTotals (m :: ms)
  | _ => noTotals
  end.

(** [hasNutrition] of line 1048. *)
Definition hasNutrition (s : State) (date : string) : bool :=
  gt (totalCalories (dayTotals s date)) zero.

(** *** deleteAllMealsForDate (lines 365-421), deleteMacroMeal
    (lines 538-584) *)

Inductive Request :=
  | DeleteMealPlan (userId date : string)
      (* .from("meal_plan").delete().eq("user_id", userId).eq("date", date) *)
  | DeleteMacroMeal (macroMealId userId : string)
      (* .from('macro_meals').delete().eq('id', macroMealId).eq('user_id', userId) *)
  | InvalidateMealPlanCache (userId : string).

(** The alerts of the two handlers. *)
Inductive Notice :=
  | NotLoggedIn
      (* "You are not logged in. Please log in to continue." *)
  | DeleteFailed (message : string)
      (* `Failed to delete meals: ${error.message}` *)
  | DeletedAll (date : string)
      (* "All meals for ... have been deleted." *)
  | Unexpected
      (* "An unexpected error occurred. Please try again." *)
  | InvalidMealType
      (* "Invalid meal type for deletion." *)
  | MacroDeleteFailed
      (* "Failed to delete the AI-scanned meal. Please try again." *)
  | MacroDeleted
      (* "AI-scanned meal deleted successfully." *)
  | MacroUnexpected.
      (* "An unexpected error occurred while deleting the meal." *)

(** The awaited deletion: it throws, or resolves with an [error], or
    resolves without one. *)
Inductive DeleteAnswer :=
  | DeleteThrows
  | DeleteError (message : string)
  | DeleteDone.

(** What a handler has done once it is over. *)
Record Handled := {
  sentRequests : list Request;
  updates : list Update;
  notices : list Notice;
}.

(** [confirmed] is the button pressed in the dialog, [invalidated] tells
    whether [invalidateMealPlanCache] resolves. *)
Definition deleteAllMealsForDate (date : string) (user : UserAnswer) (confirmed : bool)
    (answer : DeleteAnswer) (invalidated : bool) : Handled :=
  match user with
  | NoUser shown =>
      {| sentRequests := []; updates := [SetError (Some shown)]; notices := [NotLoggedIn] |}
  | UserId userId =>
      if negb confirmed then {| sentRequests := []; updates := []; notices := [] |}
      else
        match answer with
        | DeleteThrows =>
            {| sentRequests := [DeleteMealPlan userId date]; updates := [];
               notices := [Unexpected] |}
        | DeleteError message =>
            {| sentRequests := [DeleteMealPlan userId date]; updates := [];
               notices := [DeleteFailed message] |}
        | DeleteDone =>
            if invalidated then
              {| sentRequests := [DeleteMealPlan userId date; InvalidateMealPlanCache userId];
                 updates := [SetMealsForDate date []];
                 notices := [DeletedAll date] |}
            else
              {| sentRequests := [DeleteMealPlan userId date; InvalidateMealPlanCache userId];
                 updates := [];
                 notices := [DeletedAll date; Unexpected] |}
        end
  end.

(** [typeof id === 'string' && id.startsWith('macro_')] *)
Definition hasMacroPrefix (i : MealId) : bool :=
  match i with
  | IdStr s => startsWith s "macro_"
  | IdNum _ => false
  end.

(** [meal] is the record, [isMacroMeal] its property of that name and
    [mealDate] the day of its [created_at], or today's when it has none;
    [refetch] is what the call of [fetchMealsForDate] gets. *)
Definition deleteMacroMeal (meal : Meal) (isMacroMeal : bool) (mealDate : string)
    (user : UserAnswer) (answer : DeleteAnswer) (invalidated : bool)
    (refetch : Z → DateAnswers) : Handled :=
  if negb isMacroMeal || negb (hasMacroPrefix (id meal)) then
    {| sentRequests := []; updates := []; notices := [InvalidMealType] |}
  else
    match user with
    | NoUser shown =>
        {| sentRequests := []; updates := [SetError (Some shown)]; notices := [NotLoggedIn] |}
    | UserId userId =>
        let macroMealId := replace (idText (id meal)) "macro_" "" in
        match answer with
        | DeleteThrows =>
            {| sentRequests := [DeleteMacroMeal macroMealId userId]; updates := [];
               notices := [MacroUnexpected] |}
        | DeleteError _ =>
            {| sentRequests := [DeleteMacroMeal macroMealId userId]; updates := [];
               notices := [MacroDeleteFailed] |}
        | DeleteDone =>
            let sent := [DeleteMacroMeal macroMealId userId; InvalidateMealPlanCache userId] in
            if invalidated then
              let '(updatedMeals, us) := fetchMealsForDate mealDate refetch in
              {| sentRequests := sent;
                 updates := us ++ [SetMealsForDate mealDate updatedMeals];
                 notices := [MacroDeleted] |}
            else {| sentRequests := sent; updates := []; notices := [MacroUnexpected] |}
        end
    end.

(** *** handleNextWeek (lines 506-535) *)

Section NextWeek.

(** [dateOf i] is the text of the day [i] days after [startOfCurrentWeek];
    [addDays] adds calendar days, so that the day [i] days after
    [newWeekStart] is [dateOf (daysToShow + i)]. *)
Variable dateOf : nat → string.

(** The days of the new week that the loop fetches, one after the other:
    those with [!meals[currentDateString]]. *)
Definition daysToFetch (env : State) : list nat :=
  List.filter (fun i => bool_decide (meals env !! dateOf i = None)) (seq (daysToShow env) 7).

(** The result is [None] when the call returns at its guard; otherwise the
    argument of [setDaysToShow] and the other state updates.  [answers i]
    is what the fetch of day [i] gets. *)
Definition handleNextWeek (env : State) (answers : nat → Z → DateAnswers)
    : option (nat * list Update) :=
  if isRefreshing env || isInitialLoading env then None
  else
    let fetched i := fetchMealsForDate (dateOf i) (answers i) in
    let newMeals : gmap string (list Meal) :=
      fold_left (fun nm i => <[dateOf i := fst (fetched i)]> nm) (daysToFetch env) ∅ in
    Some ((daysToShow env + 7)%nat,
          concat ((fun i => snd (fetched i)) <$> daysToFetch env)
          ++ (if bool_decide (0 < size newMeals)%nat then [MergeMeals newMeals] else [])).

End NextWeek.

(** *** More notions the properties are stated with *)

(** Each pass of [fetchMealsForDate] starts by setting the loading flag of
    its date: the attempts a list of updates records. *)
Definition isAttempt (u : Update) : bool :=
  match u with
  | SetLoadingDate _ true => true
  | _ => false
  end.

Definition attempts (us : list Update) : nat := length (List.filter isAttempt us).

(** The updates of the pass that returns: the loading flag is set and
    released, and the error is set or cleared. *)
Definition closing (date : string) (e : option string) (us : list Update) : Prop :=
  us = [SetLoadingDate date true; SetError e; SetLoadingDate date false]
  ∨ us = [SetLoadingDate date true; SetLoadingDate date false; SetError e].

(** Updates that remove no date from the published map and leave each
    loading flag released or as it was. *)
Definition steady (us : list Update) : Prop :=
  ∀ s,
    (∀ date, is_Some (meals s !! date) → is_Some (meals (applyUpdates us s) !! date))
    ∧ (∀ date, loadingDates (applyUpdates us s) !! date = Some false
               ∨ loadingDates (applyUpdates us s) !! date = loadingDates s !! date).

(** *** More samples *)


(** The first week is on the screen: day 3 has a record, day 4 has none,
    and nothing is loading. *)
Definition firstWeekShown : State :=
  {| daysToShow := 7;
     meals := {[ marchFrom10 3 := [transformEntry (plannedMeal 3)]; marchFrom10 4 := [] ]};
     loadingDates := ∅; error := None; isRefreshing := false; isInitialLoading := false |}.

(** Every day is answered with one planned record. *)
Definition everyDayAnswered (i : nat) (n : Z) : DateAnswers := dayAnswered (Z.of_nat i).

End Calendar.

(** * Properties *)

(** ** Comparisons of numbers *)

Section Numbers.
Import JS.

Lemma compare_cont_flip (p q : positive) :
  Pos.compare_cont Eq q p = CompOpp (Pos.compare_cont Eq p q).
Proof. by rewrite (Pos.compare_cont_antisym p q Eq). Qed.

Lemma SFcompare_antisym (x y : number) (c : comparison) :
  SFcompare x y = Some c → SFcompare y x = Some (CompOpp c).
Proof.
  destruct x as [sx|sx| |sx mx ex], y as [sy|sy| |sy my ey]; simpl;
    try discriminate; intros [= <-]; try (by destruct sx); try (by destruct sy);
    try (by destruct sx, sy).
  destruct sx, sy; try done;
    rewrite (Z.compare_antisym ex ey), (compare_cont_flip mx my);
    destruct (ex ?= ey); simpl; try done.
Qed.

Lemma SFcompare_defined (x y : number) :
  isNaN x = false → isNaN y = false → ∃ c, SFcompare x y = Some c.
Proof. destruct x, y; simpl; try discriminate; eauto. Qed.

(** Among numbers, [x <= y] fails exactly when [x > y]. *)
Lemma le_false_gt (x y : number) :
  isNaN x = false → isNaN y = false → le x y = false → gt x y = true.
Proof.
  intros Hx Hy. unfold le, gt, SFleb, SFltb.
  destruct (SFcompare_defined x y Hx Hy) as [c Hc].
  rewrite Hc, (SFcompare_antisym _ _ _ Hc). by destruct c.
Qed.

Lemma ge_false_lt (x y : number) :
  isNaN x = false → isNaN y = false → ge x y = false → lt x y = true.
Proof. intros Hx Hy. apply (le_false_gt y x Hy Hx). Qed.

Lemma gt_le_false (x y : number) : gt x y = true → le x y = false.
Proof.
  unfold le, gt, SFleb, SFltb. destruct (SFcompare y x) as [c|] eqn:Hc; [|done].
  rewrite (SFcompare_antisym _ _ _ Hc). by destruct c.
Qed.

Lemma lt_ge_false (x y : number) : lt x y = true → ge x y = false.
Proof. apply (gt_le_false y x). Qed.

(** A comparison with [NaN] is false. *)
Lemma le_NaN_l (x y : number) : isNaN x = true → le x y = false.
Proof. by destruct x. Qed.

Lemma ge_NaN_l (x y : number) : isNaN x = true → ge x y = false.
Proof. by destruct x, y. Qed.

Lemma eq_le (x y : number) : eq x y = true → le x y = true.
Proof. unfold le, eq, SFeqb, SFleb. by destruct (SFcompare x y) as [[]|]. Qed.

Lemma eq_ge (x y : number) : eq x y = true → ge x y = true.
Proof.
  unfold ge, eq, SFeqb, SFleb. destruct (SFcompare x y) as [c|] eqn:Hc; [|done].
  rewrite (SFcompare_antisym _ _ _ Hc). by destruct c.
Qed.

Lemma isFinite_not_NaN (x : number) : isFinite x = true → isNaN x = false.
Proof. by destruct x. Qed.

(** Adding zero changes nothing but the sign of a negative zero. *)
Lemma add_zero_r (x : number) : x ≠ S754_zero true → add x zero = x.
Proof. destruct x as [[]| | |]; by intros. Qed.

Lemma parseFloat_empty : parseFloat "" = NaN.
Proof. reflexivity. Qed.

Lemma orElse_nonempty (a b c : string) :
  isEmpty b = false → MyMeals.orElse (MyMeals.orElse a b) c = MyMeals.orElse a b.
Proof.
  intros Hb. unfold MyMeals.orElse at 2 3. destruct (isEmpty a) eqn:Ha; unfold MyMeals.orElse.
  - by rewrite Hb.
  - by rewrite Ha.
Qed.

End Numbers.

(** ** Lists *)

Section Lists.
Context {A : Type}.

Lemma filter_all (p : A → bool) (l : list A) :
  (∀ x, p x = true) → List.filter p l = l.
Proof. intros Hp. induction l as [|x l IH]; simpl; [done|]. by rewrite Hp, IH. Qed.

Lemma filter_sublist (p : A → bool) (l : list A) : sublist (List.filter p l) l.
Proof.
  induction l as [|x l IH]; simpl; [constructor|].
  destruct (p x); by constructor.
Qed.


End Lists.

(** ** The filter evaluation of [MyMeals] *)

Section FilterEvaluation.
Import JS Types MyMeals.

Lemma passesFilter_absent (meal : Meal) (filter : NutritionFilter) :
  getField meal (type filter) = None → passesFilter meal filter = true.
Proof. unfold passesFilter. by intros ->. Qed.

(** What [passesFilter] computes on a record that has the field. *)
Lemma passesFilter_present (meal : Meal) (filter : NutritionFilter) (v : Value) :
  getField meal (type filter) = Some v →
  passesFilter meal filter
  = negb (negb (isNaN (parseFloat (greaterThan filter)))
          && le (parseFloatValue v) (parseFloat (greaterThan filter)))
    && negb (negb (isNaN (parseFloat (lessThan filter)))
             && ge (parseFloatValue v) (parseFloat (lessThan filter))).
Proof.
  unfold passesFilter. intros ->.
  by destruct (negb _ && le _ _), (negb _ && ge _ _).
Qed.

Lemma elem_of_filterMeals (meals : list Meal) (filters : list NutritionFilter)
    (searchQuery : string) (meal : Meal) :
  meal ∈ filterMeals meals filters searchQuery
  ↔ meal ∈ meals ∧ passesFilters filters meal = true
    ∧ passesSearch searchQuery meal = true.
Proof.
  unfold filterMeals. rewrite !list_elem_of_In, filter_In, andb_true_iff. tauto.
Qed.

Lemma passesFilters_elem (filters : list NutritionFilter) (meal : Meal)
    (filter : NutritionFilter) :
  passesFilters filters meal = true → filter ∈ filters → passesFilter meal filter = true.
Proof.
  unfold passesFilters. rewrite forallb_forall. intros H Hin. apply H.
  by apply list_elem_of_In.
Qed.

(** A kept record passes every entry of the filter list. *)
Lemma kept_passes (meals : list Meal) (filters : list NutritionFilter)
    (searchQuery : string) (meal : Meal) (filter : NutritionFilter) (v : Value) :
  filter ∈ filters →
  getField meal (type filter) = Some v →
  meal ∈ filterMeals meals filters searchQuery →
  negb (negb (isNaN (parseFloat (greaterThan filter)))
        && le (parseFloatValue v) (parseFloat (greaterThan filter)))
  && negb (negb (isNaN (parseFloat (lessThan filter)))
           && ge (parseFloatValue v) (parseFloat (lessThan filter))) = true.
Proof.
  intros Hin Hv Hkept. apply elem_of_filterMeals in Hkept as (_ & Hall & _).
  rewrite <- (passesFilter_present _ _ _ Hv). by eapply passesFilters_elem.
Qed.

(** C1.  Let [filter] be an entry of the filter list.  A record without the
    filtered field passes the entry, and so does a record whose value for
    it is not a number.  For a record whose value is a number: if it is
    strictly greater than the lower bound and strictly less than the upper
    bound it passes the entry; if the record is kept by the evaluation, then
    its value is strictly greater than [greaterThan] when that bound parses
    to a finite number, and strictly less than [lessThan] when that bound
    parses to a finite number; and a value equal to such a bound excludes
    the record. *)
Theorem filter_bounds_strict (meals : list Meal) (filters : list NutritionFilter)
    (searchQuery : string) (meal : Meal) (filter : NutritionFilter) :
  filter ∈ filters →
  (getField meal (type filter) = None → passesFilter meal filter = true)
  ∧ (∀ v : Value, getField meal (type filter) = Some v →
       (isNaN (parseFloatValue v) = true → passesFilter meal filter = true)
       ∧ (gt (parseFloatValue v) (parseFloat (greaterThan filter)) = true →
          lt (parseFloatValue v) (parseFloat (lessThan filter)) = true →
          passesFilter meal filter = true)
       ∧ (isNaN (parseFloatValue v) = false →
          (meal ∈ filterMeals meals filters searchQuery →
             (isFinite (parseFloat (greaterThan filter)) = true →
              gt (parseFloatValue v) (parseFloat (greaterThan filter)) = true)
             ∧ (isFinite (parseFloat (lessThan filter)) = true →
                lt (parseFloatValue v) (parseFloat (lessThan filter)) = true))
          ∧ (isFinite (parseFloat (greaterThan filter)) = true →
             eq (parseFloatValue v) (parseFloat (greaterThan filter)) = true →
             meal ∉ filterMeals meals filters searchQuery)
          ∧ (isFinite (parseFloat (lessThan filter)) = true →
             eq (parseFloatValue v) (parseFloat (lessThan filter)) = true →
             meal ∉ filterMeals meals filters searchQuery))).
Proof.
  intros Hin. split; [apply passesFilter_absent|].
  intros v Hv. rewrite (passesFilter_present _ _ _ Hv).
  pose proof (kept_passes meals filters searchQuery meal filter v Hin Hv) as Hkept.
  set (x := parseFloatValue v) in *. set (g := parseFloat (greaterThan filter)) in *.
  set (l := parseFloat (lessThan filter)) in *.
  split; [|split; [|intros Hx; split; [|split]]].
  - intros Hx. by rewrite (le_NaN_l x g Hx), (ge_NaN_l x l Hx), !andb_false_r.
  - intros Hg Hl. by rewrite (gt_le_false _ _ Hg), (lt_ge_false _ _ Hl), !andb_false_r.
  - intros Hp%Hkept. apply andb_true_iff in Hp as [Hp1 Hp2].
    split; intros Hfin; apply isFinite_not_NaN in Hfin as Hn.
    + rewrite Hn in Hp1. simpl in Hp1. apply negb_true_iff in Hp1.
      by apply le_false_gt.
    + rewrite Hn in Hp2. simpl in Hp2. apply negb_true_iff in Hp2.
      by apply ge_false_lt.
  - intros Hfin Heq Hp%Hkept.
    by rewrite (isFinite_not_NaN _ Hfin), (eq_le _ _ Heq) in Hp.
  - intros Hfin Heq Hp%Hkept.
    by rewrite (isFinite_not_NaN _ Hfin), (eq_ge _ _ Heq), andb_false_r in Hp.
Qed.

(** Calories between 500 and 1000: the record with 600 is kept and its value
    lies strictly between the bounds; the record with 500 is excluded. *)
Lemma filter_bounds_strict_witness :
  caloriesBetween "500" "1000" ∈ [caloriesBetween "500" "1000"]
  ∧ getField (sampleMeal 6) "calories" = Some (VNum (ofZ 600))
  ∧ sampleMeal 6 ∈ filterMeals [sampleMeal 5; sampleMeal 6; sampleMeal 10]
                               [caloriesBetween "500" "1000"] ""
  ∧ gt (ofZ 600) (parseFloat "500") = true
  ∧ lt (ofZ 600) (parseFloat "1000") = true
  ∧ sampleMeal 5 ∉ filterMeals [sampleMeal 5; sampleMeal 6; sampleMeal 10]
                               [caloriesBetween "500" "1000"] "".
Proof.
  assert (Hin : caloriesBetween "500" "1000" ∈ [caloriesBetween "500" "1000"])
    by apply list_elem_of_here.
  assert (Hkept : sampleMeal 6 ∈ filterMeals [sampleMeal 5; sampleMeal 6; sampleMeal 10]
                                            [caloriesBetween "500" "1000"] "").
  { replace (filterMeals _ _ _) with [sampleMeal 6] by (vm_compute; reflexivity).
    apply list_elem_of_here. }
  pose proof (filter_bounds_strict [sampleMeal 5; sampleMeal 6; sampleMeal 10]
                [caloriesBetween "500" "1000"] "" (sampleMeal 6) _ Hin) as [_ H6].
  destruct (H6 (VNum (ofZ 600)) eq_refl) as (_ & _ & Hnum).
  destruct (Hnum eq_refl) as ([Hg Hl] & _ & _); [exact Hkept|].
  pose proof (filter_bounds_strict [sampleMeal 5; sampleMeal 6; sampleMeal 10]
                [caloriesBetween "500" "1000"] "" (sampleMeal 5) _ Hin) as [_ H5].
  destruct (H5 (VNum (ofZ 500)) eq_refl) as (_ & _ & Hnum5).
  destruct (Hnum5 eq_refl) as (_ & Heq & _).
  exact (conj Hin (conj eq_refl (conj Hkept (conj (Hg eq_refl) (conj (Hl eq_refl)
           (Heq eq_refl eq_refl)))))).
Defined.

Lemma passesFilter_unset (meal : Meal) (filter : NutritionFilter) :
  greaterThan filter = "" → lessThan filter = "" → passesFilter meal filter = true.
Proof.
  intros Hg Hl. unfold passesFilter. rewrite Hg, Hl, parseFloat_empty.
  by destruct (getField meal (type filter)).
Qed.

Lemma passesFilters_unset (filters : list NutritionFilter) (meal : Meal) :
  Forall (λ filter, greaterThan filter = "" ∧ lessThan filter = "") filters →
  passesFilters filters meal = true.
Proof.
  unfold passesFilters. induction 1 as [|filter filters [Hg Hl] _ IH]; simpl; [done|].
  by rewrite passesFilter_unset, IH.
Qed.

(** C2.  When every bound of the filter list is the empty string and the
    search query is empty, the evaluation returns the input list.  For any
    filters and query the result is a subsequence of the input, in the
    input's order.  The filter pass leaves the record set as it is, and the
    list it stores depends on the record set, the filters and the query
    only. *)
Theorem filter_identity_order_purity (meals : list Meal) (filters : list NutritionFilter)
    (searchQuery : string) (env : State) :
  (Forall (λ filter, greaterThan filter = "" ∧ lessThan filter = "") filters →
   filterMeals meals filters "" = meals)
  ∧ sublist (filterMeals meals filters searchQuery) meals
  ∧ MyMeals.meals (applyUpdates (fst (filterEffect env)) env) = MyMeals.meals env
  ∧ filteredMeals (applyUpdates (fst (filterEffect env)) env)
    = filterMeals (MyMeals.meals env) (MyMeals.filters env) (MyMeals.searchQuery env).
Proof.
  split; [|split; [|split]].
  - intros Hunset. unfold filterMeals. apply filter_all. intros meal.
    by rewrite (passesFilters_unset _ _ Hunset).
  - apply filter_sublist.
  - unfold filterEffect. simpl. by destruct (negb _ || _).
  - unfold filterEffect. simpl. by destruct (negb _ || _).
Qed.

(** The filters of the first render are all unset. *)
Lemma filter_identity_order_purity_witness :
  Forall (λ filter, greaterThan filter = "" ∧ lessThan filter = "") defaultFilters
  ∧ filterMeals (sampleMeals 3) defaultFilters "" = sampleMeals 3.
Proof.
  assert (H : Forall (λ filter, greaterThan filter = "" ∧ lessThan filter = "")
                     defaultFilters) by (repeat constructor).
  split; [exact H|].
  exact (proj1 (filter_identity_order_purity (sampleMeals 3) defaultFilters "" initialState)
               H).
Defined.

End FilterEvaluation.

(** ** Pagination in [MyMeals] *)

Section Pagination.
Import JS Types MyMeals.

Lemma applyUpdates_app (us vs : list Update) (s : State) :
  applyUpdates (us ++ vs) s = applyUpdates vs (applyUpdates us s).
Proof. apply fold_left_app. Qed.

(** A fetch that obtains a batch registers no timer and ends by setting
    [hasMoreMeals], the retry count and the three loading flags. *)
Lemma fetch_success_after (env : State) (isRefresh loadMore : bool) (answers : FetchAnswers)
    (newMeals : list Meal) :
  filtersLoaded env = true →
  outcome (attempt env loadMore answers) = inr newMeals →
  ∃ run us,
    fetchMyMeals env isRefresh loadMore answers = Some run
    ∧ requests run = sent (attempt env loadMore answers)
    ∧ timers run = []
    ∧ after run = us ++ [SetHasMoreMeals (Z.of_nat (length newMeals) =? MEALS_PER_PAGE);
                         SetRetryCount 0; SetLoading false; SetRefreshing false;
                         SetLoadingMore false].
Proof.
  intros Hloaded Hout. unfold fetchMyMeals. rewrite Hloaded, Hout. simpl.
  eexists _, (inner (attempt env loadMore answers)
              ++ (if loadMore then [AppendMeals newMeals; SetCurrentPage _]
                  else [SetMeals newMeals; SetCurrentPage 0])).
  split; [reflexivity|]. simpl. split; [done|]. split; [done|].
  by rewrite <- !app_assoc.
Qed.

Lemma fetchMyMeals_started (env : State) (isRefresh loadMore : bool) (answers : FetchAnswers) :
  is_Some (fetchMyMeals env isRefresh loadMore answers) ↔ filtersLoaded env = true.
Proof.
  unfold fetchMyMeals. destruct (filtersLoaded env); simpl.
  - split; [done|]. intros _. destruct (outcome _); eauto.
  - split; [by intros [? ?]|done].
Qed.

(** [loadMoreMeals] starts a fetch exactly when its render has no load-more
    under way, has more pages, has its filtered list ready and has its
    filters loaded. *)
Lemma loadMoreMeals_started (env : State) (answers : FetchAnswers) :
  is_Some (loadMoreMeals env answers)
  ↔ loadingMore env = false ∧ hasMoreMeals env = true ∧ filteredMealsReady env = true
    ∧ filtersLoaded env = true.
Proof.
  unfold loadMoreMeals, loadMoreGuard.
  destruct (loadingMore env), (hasMoreMeals env), (filteredMealsReady env); simpl;
    rewrite ?fetchMyMeals_started;
    try (split; [by intros [? ?] | by intros (? & ? & ? & ?)]).
  tauto.
Qed.

Lemma loadMore_needs_hasMore (env : State) (answers : FetchAnswers) :
  hasMoreMeals env = false → loadMoreMeals env answers = None.
Proof.
  intros H. unfold loadMoreMeals, loadMoreGuard. by rewrite H, andb_false_r.
Qed.

(** A load-more fetch asks for the page after the current one of its
    render. *)
Lemma loadMore_requests (env : State) (answers : FetchAnswers) (run : Run) (userId : string) :
  loadMoreMeals env answers = Some run →
  userAnswer answers = UserId userId →
  requests run
  = [GetUser;
     SelectMeals userId ((currentPage env + 1) * 20) ((currentPage env + 1) * 20 + 20 - 1)
                 (dietaryRestrictionFilter env) (aiFilter env) (cuisineFilter env)].
Proof.
  unfold loadMoreMeals, fetchMyMeals. destruct (loadMoreGuard env); [|done].
  destruct (negb (filtersLoaded env)); [done|]. intros Hrun Huser.
  unfold attempt in Hrun. rewrite Huser in Hrun. simpl in Hrun.
  destruct (queryAnswer answers); simpl in Hrun; by injection Hrun as <-.
Qed.

(** C3, as amended.  A fetch that obtains a batch sets [hasMoreMeals] to
    whether the batch has exactly 20 records, whatever else has happened to
    the state in the meantime; for a batch of at most 20 records, as a page
    of the remote source is, the flag becomes false exactly when the batch
    has fewer than 20.  A call of [loadMoreMeals] from a render in which
    [hasMoreMeals] is false sends no request. *)
Theorem hasMore_after_fetch (env : State) (isRefresh loadMore : bool)
    (answers : FetchAnswers) (newMeals : list Meal) :
  filtersLoaded env = true →
  outcome (attempt env loadMore answers) = inr newMeals →
  ∃ run,
    fetchMyMeals env isRefresh loadMore answers = Some run
    ∧ (∀ s : State,
         hasMoreMeals (applyUpdates (after run) s)
         = bool_decide (length newMeals = 20%nat))
    ∧ ((length newMeals ≤ 20)%nat →
       ∀ s : State,
         hasMoreMeals (applyUpdates (after run) s) = false ↔ (length newMeals < 20)%nat)
    ∧ (∀ env' answers',
         hasMoreMeals env' = false → loadMoreMeals env' answers' = None).
Proof.
  intros Hloaded Hout.
  destruct (fetch_success_after env isRefresh loadMore answers newMeals Hloaded Hout)
    as (run & us & Hrun & _ & _ & Hafter).
  exists run. split; [exact Hrun|].
  assert (Hflag : ∀ s, hasMoreMeals (applyUpdates (after run) s)
                       = bool_decide (length newMeals = 20%nat)).
  { intros s. rewrite Hafter, applyUpdates_app. simpl. unfold MEALS_PER_PAGE.
    destruct (Z.eqb_spec (Z.of_nat (length newMeals)) 20) as [E|E];
      symmetry; [apply bool_decide_eq_true | apply bool_decide_eq_false]; lia. }
  split; [exact Hflag|]. split; [|apply loadMore_needs_hasMore].
  intros Hle s. rewrite Hflag, bool_decide_eq_false. lia.
Qed.

(** A second page of five records ends the pagination. *)
Lemma hasMore_after_fetch_witness :
  filtersLoaded restoredState = true
  ∧ outcome (attempt restoredState true (page (sampleMeals 5))) = inr (sampleMeals 5)
  ∧ ∃ run,
      fetchMyMeals restoredState false true (page (sampleMeals 5)) = Some run
      ∧ hasMoreMeals (applyUpdates (after run) restoredState) = false.
Proof.
  split; [reflexivity|]. split; [reflexivity|].
  destruct (hasMore_after_fetch restoredState false true (page (sampleMeals 5))
              (sampleMeals 5) eq_refl eq_refl) as (run & Hrun & _ & Hlast & _).
  exists run. split; [exact Hrun|].
  apply Hlast; vm_compute; lia.
Defined.

(** C3, as stated, fails.  The first load is served by the cache with 21
    records: the fetch completes and sets [hasMoreMeals] to false, although
    the batch is not smaller than 20. *)
Lemma hasMore_false_on_cached_batch_of_21 :
  ∃ run,
    fetchMyMeals restoredState false false (cached (sampleMeals 21)) = Some run
    ∧ outcome (attempt restoredState false (cached (sampleMeals 21)))
      = inr (sampleMeals 21)
    ∧ requests run = [GetUser; CacheGetUserMeals user1]
    ∧ hasMoreMeals (applyUpdates (after run) (applyUpdates (before run) restoredState))
      = false
    ∧ ¬ (length (sampleMeals 21) < 20)%nat.
Proof.
  eexists. split; [reflexivity|]. split; [reflexivity|]. split; [reflexivity|].
  split; [reflexivity|]. vm_compute. lia.
Qed.

(** The pass registers no timer: one of its conditions fails. *)
Local Ltac no_backfill :=
  split;
  [ rewrite bool_decide_eq_false_2;
    [done | intros (? & ? & ? & ? & ? & ?); first [lia | done]]
  | split; [by intros ? ?%elem_of_nil | by intros ? ? ?%elem_of_nil] ].

(** C5, as amended.  A filter pass starts one load-more fetch, through a
    timer of 100 ms that calls the [loadMoreMeals] of the same render,
    exactly when the filtered list has fewer than 10 records, more pages are
    expected, no load-more is under way, the record set is not empty, and
    the render already had its filtered list ready and its filters loaded;
    otherwise it starts none.  The fetch asks for the page after the
    current one of that render. *)
Theorem backfill_after_filter_pass (env : State) (answers : FetchAnswers) :
  length (backfillFetches env answers)
  = (if bool_decide
          ((length (filterMeals (meals env) (filters env) (searchQuery env)) < 10)%nat
           ∧ hasMoreMeals env = true ∧ loadingMore env = false
           ∧ (0 < length (meals env))%nat
           ∧ filteredMealsReady env = true ∧ filtersLoaded env = true)
     then 1%nat else 0%nat)
  ∧ (∀ t, t ∈ snd (filterEffect env) → delay t = 100 ∧ callback t = Backfill env)
  ∧ (∀ run userId, run ∈ backfillFetches env answers →
       userAnswer answers = UserId userId →
       requests run
       = [GetUser;
          SelectMeals userId ((currentPage env + 1) * 20) ((currentPage env + 1) * 20 + 20 - 1)
                      (dietaryRestrictionFilter env) (aiFilter env) (cuisineFilter env)]).
Proof.
  unfold backfillFetches, filterEffect, backfillWanted. simpl.
  set (filtered := filterMeals _ _ _).
  destruct (Z.ltb_spec (Z.of_nat (length filtered)) 10) as [Hlen|Hlen]; simpl;
    [|no_backfill].
  destruct (hasMoreMeals env) eqn:Hmore; simpl; [|no_backfill].
  destruct (loadingMore env) eqn:Hloading; simpl; [no_backfill|].
  destruct (Z.ltb_spec 0 (Z.of_nat (length (meals env)))) as [Hne|Hne]; simpl;
    [|no_backfill].
  split; [|split].
  - destruct (loadMoreMeals env answers) as [run|] eqn:Hrun; simpl.
    + rewrite bool_decide_eq_true_2; [done|].
      assert (Hs : is_Some (loadMoreMeals env answers)) by eauto.
      apply loadMoreMeals_started in Hs. repeat split; try tauto; lia.
    + rewrite bool_decide_eq_false_2; [done|].
      intros (_ & _ & _ & _ & Hready & Hloaded).
      assert (Hs : is_Some (loadMoreMeals env answers))
        by (apply (loadMoreMeals_started env answers); tauto).
      rewrite Hrun in Hs. by destruct Hs.
  - by intros t ->%list_elem_of_singleton.
  - intros run userId Hin Huser.
    destruct (loadMoreMeals env answers) as [run'|] eqn:Hrun; simpl in Hin;
      [|by apply elem_of_nil in Hin].
    apply list_elem_of_singleton in Hin as ->. by apply (loadMore_requests env answers).
Qed.

(** C5, as stated, fails.  After a first load that failed for want of a
    session, nothing is in flight and no timer is pending; the filtered list
    has fewer than 10 records, [hasMoreMeals] is true and no load is under
    way; and the filter pass registers no timer and starts no fetch. *)
Lemma no_backfill_on_empty_record_set :
  inFlight signedOut = []
  ∧ pendingTimers signedOut = []
  ∧ (length (filterMeals (meals (live signedOut)) (filters (live signedOut))
                         (searchQuery (live signedOut))) < 10)%nat
  ∧ hasMoreMeals (live signedOut) = true
  ∧ loadingMore (live signedOut) = false
  ∧ loading (live signedOut) = false
  ∧ refreshing (live signedOut) = false
  ∧ snd (filterEffect (live signedOut)) = []
  ∧ backfillFetches (live signedOut) (page (sampleMeals 20)) = [].
Proof. vm_compute. repeat split. lia. Qed.

End Pagination.

(** ** The favorite toggle of [MyMeals] *)

Section Favorite.
Import JS Types MyMeals.

Lemma withFavorite_same (meal : Meal) : withFavorite meal (favorite meal) = meal.
Proof. by destruct meal. Qed.

Lemma setFavorite_lookup (mealId : MealId) (status : bool) (ms : list Meal) (i : nat) :
  setFavorite mealId status ms !! i
  = (λ meal, if decide (id meal = mealId) then withFavorite meal status else meal)
      <$> ms !! i.
Proof. unfold setFavorite. apply list_lookup_fmap. Qed.

Lemma find_id_Some (mealId : MealId) (ms : list Meal) (meal : Meal) :
  find (λ m, bool_decide (id m = mealId)) ms = Some meal → meal ∈ ms ∧ id meal = mealId.
Proof.
  intros H. apply find_some in H as [Hin Hid].
  split; [by apply list_elem_of_In|]. by apply bool_decide_eq_true in Hid.
Qed.

Lemma find_id_None (mealId : MealId) (ms : list Meal) :
  find (λ m, bool_decide (id m = mealId)) ms = None ↔ ∀ meal, meal ∈ ms → id meal ≠ mealId.
Proof.
  split.
  - intros H meal Hin Hid. apply list_elem_of_In in Hin.
    pose proof (find_none _ _ H meal Hin) as Hf. simpl in Hf.
    by rewrite bool_decide_eq_true_2 in Hf.
  - intros H. destruct (find _ ms) as [meal|] eqn:Hf; [|done].
    apply find_id_Some in Hf as [Hin Hid]. by destruct (H meal Hin).
Qed.

(** When identifiers identify, the record found is the only one with its
    identifier, and giving it its own flag changes nothing. *)
Lemma setFavorite_restores (mealId : MealId) (ms : list Meal) (currentMeal : Meal) :
  NoDup (id <$> ms) →
  find (λ m, bool_decide (id m = mealId)) ms = Some currentMeal →
  setFavorite mealId (favorite currentMeal) ms = ms.
Proof.
  intros Hnd Hfind. apply find_id_Some in Hfind as [Hin Hid].
  unfold setFavorite. rewrite <- (list_fmap_id ms) at 2. apply list_fmap_ext.
  intros i meal Hi. simpl. destruct (decide (id meal = mealId)) as [E|]; [|done].
  assert (meal = currentMeal) as ->; [|apply withFavorite_same].
  apply list_elem_of_lookup in Hin as [j Hj].
  assert (i = j) as ->; [|congruence].
  eapply NoDup_lookup; [exact Hnd| |]; rewrite list_lookup_fmap.
  - by rewrite Hi.
  - rewrite Hj. simpl. congruence.
Qed.

(** The run of a toggle whose remote update fails. *)
Lemma toggleFavorite_failed_run (env : State) (mealId : MealId) (message : string)
    (run : Run) (currentMeal : Meal) :
  toggleFavorite env mealId (Some message) = Some run →
  find (λ m, bool_decide (id m = mealId)) (meals env) = Some currentMeal →
  run = {| before := [SetFavoriteLoading (idKey mealId) true; SetError None;
                      SetMeals (setFavorite mealId (negb (favorite currentMeal)) (meals env))];
           requests := [UpdateFavorite mealId (negb (favorite currentMeal))];
           after := [SetMeals (setFavorite mealId (favorite currentMeal) (meals env));
                     SetError (Some (orElse message "Failed to update favorite status"));
                     SetFavoriteLoading (idKey mealId) false];
           timers := [];
           alerts := [orElse message "Failed to update favorite status"] |}.
Proof.
  unfold toggleFavorite. destruct (bool_decide _); [done|].
  destruct (isMacroId mealId); [done|]. intros Hrun Hfind.
  rewrite Hfind in Hrun. injection Hrun as <-. simpl.
  by rewrite orElse_nonempty.
Qed.

(** C6.  Let a record with identifier [mealId] be in the list, [currentMeal]
    being the one the call finds, and let the remote update that
    [toggleFavorite] sends fail.  When the failure is handled, whatever has
    happened to the state in the meantime: each record of the list is the
    record that was at its place before the call, with the favorite flag of
    [currentMeal] if it has the identifier [mealId] and unchanged otherwise;
    so, identifiers being unique, the list is the list as it was before the
    call.  The error is set to the failure's message, and an alert shows
    it. *)
Theorem toggleFavorite_rollback (env : State) (mealId : MealId) (message : string)
    (run : Run) (currentMeal : Meal) :
  find (λ m, bool_decide (id m = mealId)) (meals env) = Some currentMeal →
  toggleFavorite env mealId (Some message) = Some run →
  requests run = [UpdateFavorite mealId (negb (favorite currentMeal))]
  ∧ alerts run = [orElse message "Failed to update favorite status"]
  ∧ ∀ s : State,
      (∀ (i : nat) (meal : Meal),
         meals (applyUpdates (after run) s) !! i = Some meal →
         ∃ old, meals env !! i = Some old
                ∧ meal = (if decide (id old = mealId)
                          then withFavorite old (favorite currentMeal) else old))
      ∧ length (meals (applyUpdates (after run) s)) = length (meals env)
      ∧ (NoDup (id <$> meals env) → meals (applyUpdates (after run) s) = meals env)
      ∧ error (applyUpdates (after run) s)
        = Some (orElse message "Failed to update favorite status").
Proof.
  intros Hfind Hrun.
  rewrite (toggleFavorite_failed_run _ _ _ _ _ Hrun Hfind). simpl.
  split; [done|]. split; [done|]. intros s. split; [|split; [|split]].
  - intros i meal. rewrite setFavorite_lookup.
    destruct (meals env !! i) as [old|]; simpl; [|done]. intros [= <-]. eauto.
  - unfold setFavorite. apply length_fmap.
  - intros Hnd. by apply setFavorite_restores.
  - done.
Qed.

(** Record 2 of twelve is toggled and the update times out. *)
Lemma toggleFavorite_rollback_witness :
  find (λ m, bool_decide (id m = IdNum 2)) (meals (live loaded)) = Some (sampleMeal 2)
  ∧ match toggleFavorite (live loaded) (IdNum 2) (Some "timeout") with
    | Some run =>
        requests run = [UpdateFavorite (IdNum 2) true]
        ∧ meals (applyUpdates (after run) (applyUpdates (before run) (live loaded)))
          = meals (live loaded)
        ∧ error (applyUpdates (after run) (applyUpdates (before run) (live loaded)))
          = Some "timeout"
    | None => False
    end.
Proof.
  assert (Hfind : find (λ m, bool_decide (id m = IdNum 2)) (meals (live loaded))
                  = Some (sampleMeal 2)) by (vm_compute; reflexivity).
  split; [exact Hfind|].
  assert (Hnd : NoDup (id <$> meals (live loaded))).
  { apply (bool_decide_unpack _). by vm_compute. }
  destruct (toggleFavorite (live loaded) (IdNum 2) (Some "timeout")) as [run|] eqn:Hrun;
    [|by vm_compute in Hrun].
  destruct (toggleFavorite_rollback (live loaded) (IdNum 2) "timeout" run (sampleMeal 2)
              Hfind Hrun) as (Hreq & _ & Hpost).
  destruct (Hpost (applyUpdates (before run) (live loaded))) as (_ & _ & Hsame & Herr).
  exact (conj Hreq (conj (Hsame Hnd) Herr)).
Defined.

(** C7, as amended.  A call for a derived identifier, one that starts with
    [macro_], returns at once: it sends no request and updates no state; so
    does a call for an identifier whose toggle is awaiting its answer.  A
    call for any other identifier that no record of the list has sends no
    request, sets the error to "Meal not found", shows it in an alert, and
    leaves the list as it is. *)
Theorem toggleFavorite_not_found_or_derived (env : State) (mealId : MealId)
    (answer : option string) :
  (isMacroId mealId = true → toggleFavorite env mealId answer = None)
  ∧ (favoriteLoading env !! idKey mealId = Some true →
     toggleFavorite env mealId answer = None)
  ∧ (isMacroId mealId = false →
     favoriteLoading env !! idKey mealId ≠ Some true →
     (∀ meal, meal ∈ meals env → id meal ≠ mealId) →
     ∃ run,
       toggleFavorite env mealId answer = Some run
       ∧ requests run = [] ∧ after run = [] ∧ alerts run = ["Meal not found"]
       ∧ ∀ s : State,
           error (applyUpdates (before run) s) = Some "Meal not found"
           ∧ meals (applyUpdates (before run) s) = meals s).
Proof.
  unfold toggleFavorite. split; [|split].
  - intros ->. by destruct (bool_decide _).
  - intros H. by rewrite bool_decide_eq_true_2.
  - intros -> Hflight Habsent. rewrite bool_decide_eq_false_2 by done.
    apply find_id_None in Habsent. rewrite Habsent. eexists. split; [done|]. simpl.
    by repeat split.
Qed.

(** No record of the twelve has the identifier 99; "macro_42" is a derived
    identifier. *)
Lemma toggleFavorite_not_found_or_derived_witness :
  isMacroId (IdNum 99) = false
  ∧ favoriteLoading (live loaded) !! idKey (IdNum 99) ≠ Some true
  ∧ (∀ meal, meal ∈ meals (live loaded) → id meal ≠ IdNum 99)
  ∧ (∃ run, toggleFavorite (live loaded) (IdNum 99) None = Some run
            ∧ alerts run = ["Meal not found"])
  ∧ toggleFavorite (live loaded) (IdStr "macro_42") None = None.
Proof.
  assert (H1 : favoriteLoading (live loaded) !! idKey (IdNum 99) ≠ Some true)
    by (vm_compute; discriminate).
  assert (H2 : ∀ meal, meal ∈ meals (live loaded) → id meal ≠ IdNum 99).
  { apply find_id_None. vm_compute. reflexivity. }
  destruct (toggleFavorite_not_found_or_derived (live loaded) (IdNum 99) None)
    as (_ & _ & Hnf).
  destruct (Hnf eq_refl H1 H2) as (run & Hrun & _ & _ & Halerts & _).
  refine (conj eq_refl (conj H1 (conj H2 (conj _ _)))).
  - exists run. by split.
  - exact (proj1 (toggleFavorite_not_found_or_derived (live loaded) (IdStr "macro_42") None)
                 eq_refl).
Defined.

(** C7, as stated, fails.  The toggle of record 7 awaits its answer when a
    refresh replaces the list by one without that record.  No record has the
    identifier 7 then, it is not a derived identifier, and a call for it
    returns at the first guard: no error is set and nothing is shown. *)
Lemma toggle_of_absent_record_dropped :
  (∀ meal, meal ∈ meals (live toggledThenRefreshed) → id meal ≠ IdNum 7)
  ∧ isMacroId (IdNum 7) = false
  ∧ favoriteLoading (live toggledThenRefreshed) !! idKey (IdNum 7) = Some true
  ∧ toggleFavorite (live toggledThenRefreshed) (IdNum 7) None = None
  ∧ error (live toggledThenRefreshed) = None.
Proof.
  split; [|by vm_compute].
  apply find_id_None. by vm_compute.
Qed.

End Favorite.

(** ** Histories of [MyMeals]: load-more calls and retries *)

Section Histories.
Import JS Types MyMeals.

(** A failed fetch whose render had counted fewer than three retries
    registers a timer that calls [fetchMyMeals] of the same render, with
    the same arguments. *)
Lemma failed_fetch_retries (env : State) (isRefresh loadMore : bool)
    (answers : FetchAnswers) (message : string) :
  filtersLoaded env = true →
  outcome (attempt env loadMore answers) = inl message →
  ∃ run,
    fetchMyMeals env isRefresh loadMore answers = Some run
    ∧ timers run
      = if (retryCount env <? 3) && negb (includes message "Authentication")
        then [ {| delay := 2 ^ retryCount env * 1000;
                  callback := RetryFetch env isRefresh loadMore |} ]
        else [].
Proof.
  intros Hloaded Hout. unfold fetchMyMeals. rewrite Hloaded, Hout. simpl. eauto.
Qed.

(** The retry, failing in turn, registers the very timer that called it. *)
Lemma retry_registers_same_timer (env : State) (isRefresh loadMore : bool)
    (answers : FetchAnswers) (message : string) :
  filtersLoaded env = true →
  outcome (attempt env loadMore answers) = inl message →
  retryCount env < 3 →
  includes message "Authentication" = false →
  ∃ run,
    fire (RetryFetch env isRefresh loadMore) answers = Some run
    ∧ timers run = [ {| delay := 2 ^ retryCount env * 1000;
                        callback := RetryFetch env isRefresh loadMore |} ].
Proof.
  intros Hloaded Hout Hlt Hmsg.
  destruct (failed_fetch_retries env isRefresh loadMore answers message Hloaded Hout)
    as (run & Hrun & Htimers).
  simpl. rewrite Hrun. simpl. eexists. split; [done|]. simpl.
  rewrite Htimers, Hmsg. by destruct (Z.ltb_spec (retryCount env) 3); [|lia].
Qed.

(** A failure to get the user registers no timer. *)
Lemma authentication_error_not_retried (env : State) (isRefresh loadMore : bool)
    (answers : FetchAnswers) (message : string) (run : Run) :
  userAnswer answers = UserError message →
  fetchMyMeals env isRefresh loadMore answers = Some run →
  timers run = [] ∧ ∀ s, error (applyUpdates (after run) s) = Some authMessage.
Proof.
  unfold fetchMyMeals. destruct (negb (filtersLoaded env)); [done|].
  unfold attempt. intros ->. simpl. intros [= <-]. simpl.
  split; [by rewrite andb_false_r|done].
Qed.

(** C4: the code does not keep to it.  [loadMoreMeals] starts a fetch only
    from a render with no load-more under way, more pages expected, the
    filtered list ready and the filters loaded.  But the flag it tests is
    the one of the render that created it.  In the history below a search
    shows 2 of 20 loaded records, so the filter pass registers its timer of
    100 ms; the list reaches its end and calls [loadMoreMeals], which starts
    a fetch of the second page and sets [loadingMore]; then the timer fires
    and calls the [loadMoreMeals] of the earlier render, whose [loadingMore]
    is still false: a second fetch of the same page starts while the first
    is in flight, and when both are answered the list holds the three
    records of that page twice. *)
Theorem loadMore_twice_in_flight :
  (∀ env answers,
     is_Some (loadMoreMeals env answers)
     ↔ loadingMore env = false ∧ hasMoreMeals env = true
       ∧ filteredMealsReady env = true ∧ filtersLoaded env = true)
  ∧ length (meals (live searching)) = 20%nat
  ∧ length (filteredMeals (live searching)) = 2%nat
  ∧ (delay <$> pendingTimers searching) = [100]
  ∧ inFlight searching = []
  ∧ length (loadMoresInFlight (steps searching [EvLoadMore (page secondPage)])) = 1%nat
  ∧ loadingMore (live (steps searching [EvLoadMore (page secondPage)])) = true
  ∧ length (loadMoresInFlight (steps searching endReachedThenTimer)) = 2%nat
  ∧ pageQueries (steps searching endReachedThenTimer)
    = [SelectMeals user1 0 19 "" "" ""; SelectMeals user1 20 39 "" "" "";
       SelectMeals user1 20 39 "" "" ""]
  ∧ meals (live (steps searching (endReachedThenTimer ++ [EvAnswer 0; EvAnswer 0])))
    = sampleMeals 20 ++ secondPage ++ secondPage.
Proof.
  split; [apply loadMoreMeals_started|]. vm_compute. repeat split.
Qed.

(** C8: the code does not keep to it.  A failure to get the user is not
    retried: it sets the error and registers no timer.  Any other failure, in a render that has counted fewer than
    three retries, registers a retry after [2 ^ retryCount] seconds with the
    same arguments; but the retry is the [fetchMyMeals] of that same render,
    for which [retryCount] has not changed: when it fails it registers the
    same timer again.  In the history below twelve records are loaded, a
    refresh fails and so does every retry: the delays are 1000 ms each time,
    and after the third retry has failed a fourth one is pending, which
    sends the query again. *)
Theorem retries_do_not_stop :
  (∀ env isRefresh loadMore answers message run,
     userAnswer answers = UserError message →
     fetchMyMeals env isRefresh loadMore answers = Some run →
     timers run = [] ∧ ∀ s, error (applyUpdates (after run) s) = Some authMessage)
  ∧ (∀ env isRefresh loadMore answers message,
     filtersLoaded env = true →
     outcome (attempt env loadMore answers) = inl message →
     retryCount env < 3 →
     includes message "Authentication" = false →
     ∃ run,
       fire (RetryFetch env isRefresh loadMore) answers = Some run
       ∧ timers run = [ {| delay := 2 ^ retryCount env * 1000;
                           callback := RetryFetch env isRefresh loadMore |} ])
  ∧ length (meals (live loaded)) = 12%nat
  ∧ pendingTimers loaded = []
  ∧ retryCount (live loaded) = 0
  ∧ (delay <$> pendingTimers (steps loaded (refreshFailing 0))) = [1000]
  ∧ (delay <$> pendingTimers (steps loaded (refreshFailing 1))) = [1000]
  ∧ (delay <$> pendingTimers (steps loaded (refreshFailing 2))) = [1000]
  ∧ (delay <$> pendingTimers (steps loaded (refreshFailing 3))) = [1000]
  ∧ retryCount (live (steps loaded (refreshFailing 3))) = 3
  ∧ error (live (steps loaded (refreshFailing 3))) = Some "Network request failed"
  ∧ length (pageQueries (steps loaded (refreshFailing 3))) = 5%nat
  ∧ length (pageQueries (steps loaded (refreshFailing 3 ++ [EvTimer 0 networkDown])))
    = 6%nat.
Proof.
  split; [apply authentication_error_not_retried|].
  split; [apply retry_registers_same_timer|]. vm_compute. repeat split.
Qed.

End Histories.

(** ** The daily totals of [MealPlanCalendar] *)

Section Totals.
Import JS Types Calendar.
Import MyMeals (sampleMeal).

Lemma totals_fold (mealsForDay : list Meal) (t : Totals) :
  fold_left
    (λ totals meal,
       {| totalCalories := add (totalCalories totals) (orZero (calories meal));
          totalProtein := add (totalProtein totals) (orZero (protein meal));
          totalCarbs := add (totalCarbs totals) (orZero (carbohydrates meal));
          totalFat := add (totalFat totals) (orZero (fat meal)) |})
    mealsForDay t
  = {| totalCalories := sumFrom (totalCalories t) (orZero ∘ calories <$> mealsForDay);
       totalProtein := sumFrom (totalProtein t) (orZero ∘ protein <$> mealsForDay);
       totalCarbs := sumFrom (totalCarbs t) (orZero ∘ carbohydrates <$> mealsForDay);
       totalFat := sumFrom (totalFat t) (orZero ∘ fat <$> mealsForDay) |}.
Proof.
  revert t. induction mealsForDay as [|meal ms IH]; intros t; simpl.
  - by destruct t.
  - by rewrite IH.
Qed.

Lemma orZero_plain (x : option number) : plain x = true → orZero x = valueOrZero x.
Proof. destruct x as [[[]| | |]|]; done. Qed.

Lemma sumFrom_plain (f : Meal → option number) (mealsForDay : list Meal) (t : number) :
  Forall (λ meal, plain (f meal) = true) mealsForDay →
  sumFrom t (orZero ∘ f <$> mealsForDay) = sumFrom t (valueOrZero ∘ f <$> mealsForDay).
Proof.
  intros Hplain. revert t. induction Hplain as [|meal ms Hmeal _ IH]; intros t; [done|].
  unfold sumFrom in *. simpl. by rewrite (orZero_plain _ Hmeal), IH.
Qed.

(** C10.  The total of the empty list is (0, 0, 0, 0).  For a list whose
    records hold, in each of the four fields, a number other than NaN and
    the negative zero, or nothing, each component of the daily total is the
    sum, added from left to right starting from 0, of the values of that
    field over the list, a missing field counting as 0.  Adding at the end
    of any list a record with the value [v] in a field, [v] being neither
    NaN nor a zero, adds [v] to the component of that field, and adding a
    record without the field adds 0 to it, which leaves the component as it
    is.  For every list, a field that holds NaN or a zero counts as 0
    too. *)
Theorem nutrition_totals_sum (mealsForDay : list Meal) :
  calculateNutritionTotals []
  = {| totalCalories := zero; totalProtein := zero; totalCarbs := zero; totalFat := zero |}
  ∧ (forallb plainFields mealsForDay = true →
     calculateNutritionTotals mealsForDay = summedTotals mealsForDay)
  ∧ (∀ (meal : Meal) (v : number),
       truthy v = true →
       (calories meal = Some v →
        totalCalories (calculateNutritionTotals (mealsForDay ++ [meal]))
        = add (totalCalories (calculateNutritionTotals mealsForDay)) v)
       ∧ (protein meal = Some v →
          totalProtein (calculateNutritionTotals (mealsForDay ++ [meal]))
          = add (totalProtein (calculateNutritionTotals mealsForDay)) v)
       ∧ (carbohydrates meal = Some v →
          totalCarbs (calculateNutritionTotals (mealsForDay ++ [meal]))
          = add (totalCarbs (calculateNutritionTotals mealsForDay)) v)
       ∧ (fat meal = Some v →
          totalFat (calculateNutritionTotals (mealsForDay ++ [meal]))
          = add (totalFat (calculateNutritionTotals mealsForDay)) v))
  ∧ (∀ meal : Meal,
       (calories meal = None →
        totalCalories (calculateNutritionTotals (mealsForDay ++ [meal]))
        = add (totalCalories (calculateNutritionTotals mealsForDay)) zero)
       ∧ (protein meal = None →
          totalProtein (calculateNutritionTotals (mealsForDay ++ [meal]))
          = add (totalProtein (calculateNutritionTotals mealsForDay)) zero)
       ∧ (carbohydrates meal = None →
          totalCarbs (calculateNutritionTotals (mealsForDay ++ [meal]))
          = add (totalCarbs (calculateNutritionTotals mealsForDay)) zero)
       ∧ (fat meal = None →
          totalFat (calculateNutritionTotals (mealsForDay ++ [meal]))
          = add (totalFat (calculateNutritionTotals mealsForDay)) zero))
  ∧ (∀ x : number, x ≠ S754_zero true → add x zero = x)
  ∧ calculateNutritionTotals mealsForDay
    = {| totalCalories := sumFrom zero (orZero ∘ calories <$> mealsForDay);
         totalProtein := sumFrom zero (orZero ∘ protein <$> mealsForDay);
         totalCarbs := sumFrom zero (orZero ∘ carbohydrates <$> mealsForDay);
         totalFat := sumFrom zero (orZero ∘ fat <$> mealsForDay) |}
  ∧ (∀ v : number, truthy v = false → orZero (Some v) = zero).
Proof.
  assert (Hlast : ∀ meal,
            calculateNutritionTotals (mealsForDay ++ [meal])
            = {| totalCalories :=
                   add (totalCalories (calculateNutritionTotals mealsForDay))
                       (orZero (calories meal));
                 totalProtein :=
                   add (totalProtein (calculateNutritionTotals mealsForDay))
                       (orZero (protein meal));
                 totalCarbs :=
                   add (totalCarbs (calculateNutritionTotals mealsForDay))
                       (orZero (carbohydrates meal));
                 totalFat :=
                   add (totalFat (calculateNutritionTotals mealsForDay))
                       (orZero (fat meal)) |}).
  { intros meal. unfold calculateNutritionTotals. by rewrite fold_left_app. }
  split; [done|]. split.
  { intros Hplain. unfold calculateNutritionTotals, summedTotals. rewrite totals_fold. simpl.
    rewrite forallb_forall in Hplain.
    assert (Hall : ∀ meal, meal ∈ mealsForDay → plainFields meal = true).
    { intros meal Hin. by apply Hplain, list_elem_of_In. }
    f_equal; apply sumFrom_plain, Forall_forall; intros meal Hin;
      specialize (Hall meal Hin); unfold plainFields in Hall;
      repeat (apply andb_prop in Hall as [Hall ?]); done. }
  split.
  { intros meal v Hv. rewrite Hlast. simpl.
    repeat split; intros ->; simpl; by rewrite Hv. }
  split.
  { intros meal. rewrite Hlast. simpl. repeat split; by intros ->. }
  split; [apply add_zero_r|]. split; [apply totals_fold|].
  intros v Hv. simpl. by rewrite Hv.
Qed.

(** The total of two sample records, which have no [fat]. *)
Lemma nutrition_totals_sum_witness :
  forallb plainFields [sampleMeal 3; sampleMeal 5] = true
  ∧ calculateNutritionTotals [sampleMeal 3; sampleMeal 5]
    = {| totalCalories := ofZ 800; totalProtein := ofZ 8; totalCarbs := ofZ 16;
         totalFat := zero |}.
Proof.
  split; [reflexivity|].
  destruct (nutrition_totals_sum [sampleMeal 3; sampleMeal 5]) as (_ & Hsum & _).
  rewrite (Hsum eq_refl). vm_compute. reflexivity.
Defined.

End Totals.

(** ** The week load of [MealPlanCalendar] *)

Section DateFetch.
Import JS Types Calendar.

Lemma meals_applyUpdates (us : list Update) (s : State) :
  meals (applyUpdates us s) = fold_left publish us (meals s).
Proof.
  revert s. induction us as [|u us IH]; intros s; [done|].
  change (applyUpdates (u :: us) s) with (applyUpdates us (applyUpdate s u)).
  rewrite IH. simpl. f_equal. by destruct u.
Qed.

Lemma publish_quiet (us : list Update) (m : gmap string (list Meal)) :
  Forall (λ u, isPublish u = false) us → fold_left publish us m = m.
Proof.
  revert m. induction us as [|u us IH]; intros m Hq; [done|].
  inversion Hq as [|? ? Hu Hus]; subst. simpl. rewrite IH by done. by destruct u.
Qed.

(** No pass of [fetchMealsForDate] publishes. *)
Lemma pass_quiet (date : string) (retryCount : Z) (a : DateAnswers) :
  match pass date retryCount a with
  | Return _ us | Again us => Forall (λ u, isPublish u = false) us
  end.
Proof.
  unfold pass.
  destruct (userAnswer a); [|simpl; by repeat constructor].
  destruct (cacheAnswer a) as [| |[|? ?]], (queriesAnswer a) as [|[]];
    repeat case_match; simplify_eq; simpl; by repeat constructor.
Qed.

(** The pass with [retryCount] 2 returns. *)
Lemma pass_last (date : string) (retryCount : Z) (a : DateAnswers) :
  2 ≤ retryCount → ∃ ms us, pass date retryCount a = Return ms us.
Proof.
  intros Hlast. unfold pass.
  assert ((retryCount <? 2) = false) as Hb by lia.
  destruct (userAnswer a); [|eauto].
  destruct (cacheAnswer a) as [| |[|? ?]], (queriesAnswer a) as [|[]];
    rewrite ?Hb; simpl; eauto.
Qed.

(** With enough fuel to reach [retryCount] 2 the fetch returns. *)
Lemma fetchMealsForDateFrom_returns (fuel : nat) (date : string) (retryCount : Z)
    (answers : Z → DateAnswers) :
  (3 ≤ Z.of_nat fuel + retryCount) → (0 < fuel)%nat →
  ∃ ms us, fetchMealsForDateFrom fuel date retryCount answers = Some (ms, us)
           ∧ Forall (λ u, isPublish u = false) us.
Proof.
  revert retryCount. induction fuel as [|fuel IH]; intros retryCount Hfuel Hpos; [lia|].
  simpl. pose proof (pass_quiet date retryCount (answers retryCount)) as Hq.
  destruct (pass date retryCount (answers retryCount)) as [ms us|us] eqn:Hpass; [eauto|].
  destruct fuel as [|fuel'].
  - destruct (pass_last date retryCount (answers retryCount)) as (? & ? & E); [lia|].
    congruence.
  - destruct (IH (retryCount + 1)) as (ms & us' & -> & Hq'); [lia|lia|].
    eexists _, _. split; [done|]. by apply Forall_app.
Qed.

(** [fetchMealsForDate] returns, within its three passes, and publishes
    nothing itself. *)
Lemma fetchMealsForDate_quiet (date : string) (answers : Z → DateAnswers) :
  fetchMealsForDateFrom 3 date 0 answers = Some (fetchMealsForDate date answers)
  ∧ Forall (λ u, isPublish u = false) (snd (fetchMealsForDate date answers)).
Proof.
  unfold fetchMealsForDate.
  destruct (fetchMealsForDateFrom_returns 3 date 0 answers) as (ms & us & -> & Hq);
    [lia|lia|done].
Qed.





(** What a pass does, by what it gets. *)
Lemma pass_shape (date : string) (retryCount : Z) (a : DateAnswers) :
  match pass date retryCount a with
  | Return ms us =>
      (∃ e, closing date e us ∧ (ms ≠ [] → e = None) ∧ (failed a = false ↔ e = None))
      ∧ (retried a = false ∨ 2 ≤ retryCount)
  | Again us => us = [SetLoadingDate date true] ∧ retried a = true ∧ retryCount < 2
  end.
Proof.
  unfold pass, failed, retried, closing.
  destruct (userAnswer a) as [userId|shown].
  2: { simpl. split; [|by left]. eexists. split; [by left|done]. }
  destruct (Z.ltb_spec retryCount 2) as [Hr|Hr];
    destruct (cacheAnswer a) as [| |[|? ?]], (queriesAnswer a) as [|[message|data] macro];
    simpl;
    try destruct (includes message "network" || includes message "timeout") eqn:Hi; simpl;
    solve [ split; [done|split; [done|lia]]
          | split; [eexists; split; [by (left + right)|done]
                   |first [by left | right; lia]] ].
Qed.

(** The updates of a fetch: a start for each pass that is repeated, then
    the pass that returns. *)
Lemma fetchMealsForDateFrom_shape (fuel : nat) (date : string) (retryCount : Z)
    (answers : Z → DateAnswers) (ms : list Meal) (us : list Update) :
  fetchMealsForDateFrom fuel date retryCount answers = Some (ms, us) →
  ∃ (k : nat) e tail,
    (k < fuel)%nat ∧ us = replicate k (SetLoadingDate date true) ++ tail
    ∧ closing date e tail ∧ (ms ≠ [] → e = None)
    ∧ (failed (answers (retryCount + Z.of_nat k)) = false ↔ e = None)
    ∧ (∀ j : nat, (j < k)%nat →
         retried (answers (retryCount + Z.of_nat j)) = true ∧ retryCount + Z.of_nat j < 2)
    ∧ (retried (answers (retryCount + Z.of_nat k)) = false ∨ 2 ≤ retryCount + Z.of_nat k).
Proof.
  revert retryCount ms us. induction fuel as [|fuel IH]; intros retryCount ms us; [done|].
  simpl. pose proof (pass_shape date retryCount (answers retryCount)) as Hp.
  destruct (pass date retryCount (answers retryCount)) as [ms' us'|us'].
  - intros [= <- <-]. destruct Hp as ((e & Hc & He & Hf) & Hlast).
    exists 0%nat, e, us'. rewrite Z.add_0_r.
    split; [lia|]. split; [done|]. split; [done|]. split; [done|]. split; [done|].
    split; [intros j Hj; lia|done].
  - destruct Hp as (-> & Hretried & Hr).
    destruct (fetchMealsForDateFrom fuel date (retryCount + 1) answers)
      as [[ms' us'']|] eqn:E; [|done].
    intros [= <- <-].
    destruct (IH _ _ _ E) as (k & e & tail & Hk & -> & Hc & He & Hf & Hbefore & Hlast).
    replace (retryCount + 1 + Z.of_nat k) with (retryCount + Z.of_nat (S k)) in * by lia.
    exists (S k), e, tail.
    split; [lia|]. split; [done|]. split; [done|]. split; [done|]. split; [done|].
    split; [|done]. intros [|j] Hj.
    + by rewrite Z.add_0_r.
    + replace (retryCount + Z.of_nat (S j)) with (retryCount + 1 + Z.of_nat j) by lia.
      apply Hbefore. lia.
Qed.

Lemma attempts_replicate (k : nat) (date : string) (e : option string) (tail : list Update) :
  closing date e tail → attempts (replicate k (SetLoadingDate date true) ++ tail) = S k.
Proof.
  intros Hc. unfold attempts. rewrite List.filter_app, length_app.
  assert (length (List.filter isAttempt tail) = 1%nat) as -> by (by destruct Hc as [->| ->]).
  assert (List.filter isAttempt (replicate k (SetLoadingDate date true))
          = replicate k (SetLoadingDate date true)) as ->.
  { induction k as [|k IH]; simpl; [done|]. by rewrite IH. }
  rewrite length_replicate. lia.
Qed.


End DateFetch.

Section WeekJoin.
Import JS Types Calendar.

Variable dateOf : nat → string.

(** Different days have different date strings. *)
Hypothesis dateOf_inj : ∀ i j, dateOf i = dateOf j → i = j.

Lemma fold_insert_lookup (f : nat → list Meal) (l : list nat)
    (m0 : gmap string (list Meal)) (i : nat) :
  fold_left (λ nm j, <[dateOf j := f j]> nm) l m0 !! dateOf i
  = if decide (i ∈ l) then Some (f i) else m0 !! dateOf i.
Proof.
  revert m0. induction l as [|j l IH]; intros m0; simpl; [done|].
  rewrite IH. destruct (decide (i ∈ l)) as [Hin|Hin].
  - rewrite decide_True; [done|]. by right.
  - destruct (decide (i = j)) as [->|Hne].
    + rewrite decide_True by left. apply lookup_insert_eq.
    + rewrite decide_False by (intros [?|?]%elem_of_cons; done).
      rewrite lookup_insert_ne; [done|]. intros E. by apply dateOf_inj in E.
Qed.





Lemma concat_quiet (quiet : nat → list Update) (l : list nat) :
  (∀ j, Forall (λ u, isPublish u = false) (quiet j)) →
  Forall (λ u, isPublish u = false) (concat (quiet <$> l)).
Proof.
  intros Hq. induction l as [|j l IH]; simpl; [constructor|].
  apply Forall_app. split; [apply Hq|apply IH].
Qed.










End WeekJoin.

Section WeekExample.
Import JS Types Calendar.

Lemma marchFrom10_inj (i j : nat) : marchFrom10 i = marchFrom10 j → i = j.
Proof.
  unfold marchFrom10. intros E. by simplify_eq/=.
Qed.



End WeekExample.


(** ** The search box and the filter dialog *)

Section SearchAndDialog.
Import JS Types MyMeals.

Lemma lowerChar_idemp (c : ascii) : lowerChar (lowerChar c) = lowerChar c.
Proof. destruct c as [[] [] [] [] [] [] [] []]; reflexivity. Qed.

Lemma toLowerCase_idemp (s : string) : toLowerCase (toLowerCase s) = toLowerCase s.
Proof. induction s as [|c r IH]; simpl; [done|]. by rewrite lowerChar_idemp, IH. Qed.

Lemma isEmpty_toLowerCase (s : string) : isEmpty (toLowerCase s) = isEmpty s.
Proof. by destruct s. Qed.

Lemma passesSearch_lower (q q' : string) (meal : Meal) :
  toLowerCase q = toLowerCase q' → passesSearch q meal = passesSearch q' meal.
Proof.
  intros H. unfold passesSearch.
  by rewrite <- (isEmpty_toLowerCase q), <- (isEmpty_toLowerCase q'), H.
Qed.

(** X1.  The search does not distinguish capital from small letters in the
    query: two queries with the same lower-case form select the same
    records, whatever the record set and the numeric filters; in particular
    a query and its lower-case form select the same records. *)
Theorem search_ignores_case (meals : list Meal) (filters : list NutritionFilter)
    (q q' : string) :
  toLowerCase q = toLowerCase q' →
  filterMeals meals filters q = filterMeals meals filters q'
  ∧ filterMeals meals filters (toLowerCase q) = filterMeals meals filters q.
Proof.
  intros H. unfold filterMeals. split; apply filter_ext; intros meal.
  - by rewrite (passesSearch_lower q q' meal H).
  - by rewrite (passesSearch_lower (toLowerCase q) q meal (toLowerCase_idemp q)).
Qed.

Lemma search_ignores_case_witness :
  toLowerCase "MEAL 2" = toLowerCase "Meal 2"
  ∧ filterMeals (sampleMeals 20) defaultFilters "MEAL 2"
    = filterMeals (sampleMeals 20) defaultFilters "Meal 2".
Proof.
  split; [reflexivity|].
  exact (proj1 (search_ignores_case (sampleMeals 20) defaultFilters "MEAL 2" "Meal 2"
                  eq_refl)).
Defined.

Lemma isEmpty_eq (s : string) : isEmpty s = true ↔ s = "".
Proof. by destruct s. Qed.

Lemma eqb_empty (s : string) : String.eqb s "" = isEmpty s.
Proof. by destruct s. Qed.

Lemma validBound_enforced (text : string) :
  validBound text = true → isNaN (parseFloat text) = true → text = "".
Proof.
  unfold validBound. intros H Hnan. rewrite Hnan in H. simpl in H.
  rewrite orb_false_r in H. by apply isEmpty_eq.
Qed.

Lemma validFilters_elem (fs : list NutritionFilter) (filter : NutritionFilter) :
  validFilters fs = true → filter ∈ fs →
  validBound (greaterThan filter) = true ∧ validBound (lessThan filter) = true.
Proof.
  unfold validFilters. rewrite forallb_forall. intros H Hin.
  apply andb_prop. apply H. by apply list_elem_of_In.
Qed.

(** X2.  Filters that [applyFilters] has accepted and applied are enforced
    bound by bound: a record whose filtered field holds a number passes
    such a filter exactly when its value is greater than the lower bound,
    unless that bound is empty, and less than the upper bound, unless that
    bound is empty.  The empty text is the only way to leave a bound out: a
    text that does not start with a number does not get past the
    validation. *)
Theorem applied_bounds_are_enforced (draft : Draft) (userId : string) (s : State)
    (meal : Meal) (filter : NutritionFilter) (v : Value) :
  validFilters (tempFilters draft) = true →
  filter ∈ filters (finished (applyFilters draft (UserId userId)) s) →
  getField meal (type filter) = Some v →
  isNaN (parseFloatValue v) = false →
  passesFilter meal filter = true
  ↔ (greaterThan filter = "" ∨ gt (parseFloatValue v) (parseFloat (greaterThan filter)) = true)
    ∧ (lessThan filter = "" ∨ lt (parseFloatValue v) (parseFloat (lessThan filter)) = true).
Proof.
  intros Hvalid Hin Hfield Hnum.
  unfold finished, applyFilters in Hin. rewrite Hvalid in Hin. simpl in Hin.
  destruct (validFilters_elem _ _ Hvalid Hin) as [Hg Hl].
  unfold passesFilter. rewrite Hfield.
  assert (Hcase : ∀ text (cmp strict : number → number → bool),
            validBound text = true →
            (∀ y, isNaN y = false →
                  cmp (parseFloatValue v) y = false ↔ strict (parseFloatValue v) y = true) →
            (negb (isNaN (parseFloat text)) && cmp (parseFloatValue v) (parseFloat text)
             = false
             ↔ (text = "" ∨ strict (parseFloatValue v) (parseFloat text) = true))).
  { intros text cmp strict Hv Hcmp.
    destruct (isNaN (parseFloat text)) eqn:Hnan; simpl.
    - split; [|done]. intros _. left. by apply validBound_enforced.
    - rewrite (Hcmp _ Hnan). split; [by right|]. intros [->|H]; [|done].
      by rewrite parseFloat_empty in Hnan. }
  pose proof (Hcase _ le gt Hg) as Hgt. pose proof (Hcase _ ge lt Hl) as Hlt.
  clear Hcase.
  rewrite <- Hgt, <- Hlt.
  - destruct (negb _ && le _ _); [by split; [|intros [? ?]]|].
    destruct (negb _ && ge _ _); [by split; [|intros [? ?]]|done].
  - intros y Hy. split; [intros H; by apply ge_false_lt|apply lt_ge_false].
  - intros y Hy. split; [intros H; by apply le_false_gt|apply gt_le_false].
Qed.

Lemma applied_bounds_are_enforced_witness :
  validFilters (tempFilters sampleDraft) = true
  ∧ passesFilter (sampleMeal 3) (caloriesBetween "100" "500") = true
  ∧ passesFilter (sampleMeal 5) (caloriesBetween "100" "500") = false.
Proof.
  assert (Hvalid : validFilters (tempFilters sampleDraft) = true) by (vm_compute; reflexivity).
  assert (Hin : caloriesBetween "100" "500"
                ∈ filters (finished (applyFilters sampleDraft (UserId user1)) restoredState)).
  { replace (filters _) with [caloriesBetween "100" "500"] by (vm_compute; reflexivity).
    left. }
  pose proof (applied_bounds_are_enforced sampleDraft user1 restoredState (sampleMeal 3)
                (caloriesBetween "100" "500") (VNum (ofZ 300)) Hvalid Hin eq_refl eq_refl)
    as H3.
  pose proof (applied_bounds_are_enforced sampleDraft user1 restoredState (sampleMeal 5)
                (caloriesBetween "100" "500") (VNum (ofZ 500)) Hvalid Hin eq_refl eq_refl)
    as H5.
  split; [exact Hvalid|]. split.
  - apply H3. split; right; vm_compute; reflexivity.
  - destruct (passesFilter (sampleMeal 5) (caloriesBetween "100" "500")); [|reflexivity].
    destruct (proj1 H5 eq_refl) as [_ [Hl|Hl]]; [discriminate Hl|].
    vm_compute in Hl. discriminate Hl.
Defined.

End SearchAndDialog.


Section ActiveFilters.
Import JS Types MyMeals.

Lemma validFilters_false (fs : list NutritionFilter) (filter : NutritionFilter) :
  filter ∈ fs →
  (greaterThan filter ≠ "" ∧ isNaN (parseFloat (greaterThan filter)) = true)
  ∨ (lessThan filter ≠ "" ∧ isNaN (parseFloat (lessThan filter)) = true) →
  validFilters fs = false.
Proof.
  intros Hin Hbad. apply not_true_is_false. intros Hvalid.
  unfold validFilters in Hvalid. rewrite forallb_forall in Hvalid.
  specialize (Hvalid filter (proj1 (list_elem_of_In _ _) Hin)).
  apply andb_prop in Hvalid as [Hg Hl]. unfold validBound in Hg, Hl.
  destruct Hbad as [[Hne Hnan]|[Hne Hnan]]; rewrite Hnan in *; simpl in *;
    rewrite orb_false_r in *; by apply Hne, isEmpty_eq.
Qed.

(** X3.  One bound of the draft that is not empty and does not start with
    a number makes [applyFilters] reject the whole draft: it asks for no
    user, shows the alert about invalid values, and applies nothing, neither
    the numeric filters nor the three categorical choices of the draft. *)
Theorem invalid_draft_changes_nothing (draft : Draft) (user : UserAnswer) (s : State)
    (filter : NutritionFilter) :
  filter ∈ tempFilters draft →
  (greaterThan filter ≠ "" ∧ isNaN (parseFloat (greaterThan filter)) = true)
  ∨ (lessThan filter ≠ "" ∧ isNaN (parseFloat (lessThan filter)) = true) →
  requests (applyFilters draft user) = []
  ∧ alerts (applyFilters draft user) = [invalidFiltersMessage]
  ∧ filters (finished (applyFilters draft user) s) = filters s
  ∧ dietaryRestrictionFilter (finished (applyFilters draft user) s)
    = dietaryRestrictionFilter s
  ∧ aiFilter (finished (applyFilters draft user) s) = aiFilter s
  ∧ cuisineFilter (finished (applyFilters draft user) s) = cuisineFilter s
  ∧ meals (finished (applyFilters draft user) s) = meals s.
Proof.
  intros Hin Hbad. unfold applyFilters.
  by rewrite (validFilters_false _ _ Hin Hbad).
Qed.

Lemma invalid_draft_changes_nothing_witness :
  caloriesBetween "abc" "500" ∈ tempFilters invalidDraft
  ∧ isNaN (parseFloat "abc") = true
  ∧ requests (applyFilters invalidDraft (UserId user1)) = []
  ∧ dietaryRestrictionFilter (finished (applyFilters invalidDraft (UserId user1)) restoredState)
    = dietaryRestrictionFilter restoredState.
Proof.
  assert (Hin : caloriesBetween "abc" "500" ∈ tempFilters invalidDraft) by left.
  assert (Hnan : isNaN (parseFloat "abc") = true) by reflexivity.
  assert (Hne : greaterThan (caloriesBetween "abc" "500") ≠ "") by discriminate.
  pose proof (invalid_draft_changes_nothing invalidDraft (UserId user1) restoredState
                (caloriesBetween "abc" "500") Hin (or_introl (conj Hne Hnan))) as H.
  destruct H as (Hreq & _ & _ & Hd & _).
  exact (conj Hin (conj Hnan (conj Hreq Hd))).
Defined.

Lemma isFilterActive_false (s : State) :
  isFilterActive s = false →
  Forall (λ filter, greaterThan filter = "" ∧ lessThan filter = "") (filters s).
Proof.
  unfold isFilterActive. rewrite !orb_false_iff. intros (_ & Hex).
  apply Forall_forall. intros filter Hin.
  assert (Hb : boundSet filter = false).
  { destruct (boundSet filter) eqn:Hb; [|done]. rewrite <- Hex. symmetry.
    apply existsb_exists. exists filter. split; [by apply list_elem_of_In|done]. }
  unfold boundSet in Hb. rewrite orb_false_iff, !negb_false_iff, !eqb_empty in Hb.
  by rewrite <- !isEmpty_eq.
Qed.

Lemma filterMeals_inactive (s : State) :
  isFilterActive s = false → searchQuery s = "" →
  filterMeals (meals s) (filters s) (searchQuery s) = meals s.
Proof.
  intros Hinactive Hq. unfold filterMeals. apply filter_all. intros meal.
  rewrite (passesFilters_unset _ _ (isFilterActive_false _ Hinactive)).
  unfold passesSearch. by rewrite Hq.
Qed.

Lemma filteredMeals_afterFilterEffect (s : State) :
  filteredMeals (afterFilterEffect s) = filterMeals (meals s) (filters s) (searchQuery s).
Proof. unfold afterFilterEffect, filterEffect. simpl. by destruct (_ || _). Qed.

Lemma afterFilterEffect_frame (s : State) :
  meals (afterFilterEffect s) = meals s ∧ filters (afterFilterEffect s) = filters s
  ∧ searchQuery (afterFilterEffect s) = searchQuery s
  ∧ aiFilter (afterFilterEffect s) = aiFilter s
  ∧ dietaryRestrictionFilter (afterFilterEffect s) = dietaryRestrictionFilter s
  ∧ cuisineFilter (afterFilterEffect s) = cuisineFilter s
  ∧ loading (afterFilterEffect s) = loading s
  ∧ filtersLoaded (afterFilterEffect s) = filtersLoaded s.
Proof. unfold afterFilterEffect, filterEffect. simpl. by destruct (_ || _). Qed.

(** X4.  After [clearFilters], whatever the state was and whether or not
    there is a user, the next filter pass shows every loaded record: the
    filtered list is the record set, no filter counts as active, and the
    search query is empty. *)
Theorem clearFilters_shows_all_records (user : UserAnswer) (s : State) :
  filteredMeals (afterFilterEffect (finished (clearFilters user) s)) = meals s
  ∧ isFilterActive (afterFilterEffect (finished (clearFilters user) s)) = false
  ∧ searchQuery (afterFilterEffect (finished (clearFilters user) s)) = "".
Proof.
  set (s1 := finished (clearFilters user) s).
  assert (H1 : meals s1 = meals s ∧ isFilterActive s1 = false ∧ searchQuery s1 = "").
  { unfold s1, finished, clearFilters. simpl. by destruct user. }
  destruct H1 as (Hm & Ha & Hq).
  destruct (afterFilterEffect_frame s1) as (Hm' & Hf' & Hq' & Hai & Hd & Hc & _).
  rewrite filteredMeals_afterFilterEffect, (filterMeals_inactive _ Ha Hq), Hq'.
  split; [done|]. split; [|done].
  unfold isFilterActive in *. by rewrite Hf', Hai, Hd, Hc.
Qed.

(** X5.  When, after a filter pass, the component shows the empty state
    with the hint to create a first meal (and not the hint to adjust the
    search or the filters), no record is loaded. *)
Theorem create_hint_only_without_records (s : State) :
  screen (afterFilterEffect s) = EmptyState false → meals s = [].
Proof.
  destruct (afterFilterEffect_frame s) as (Hm' & Hf' & Hq' & Hai & Hd & Hc & _).
  unfold screen. rewrite filteredMeals_afterFilterEffect.
  destruct (_ || _); [done|]. destruct (_ && _); [done|].
  destruct (_ && _) eqn:Hempty; [|done].
  intros [= Hadjust]. apply orb_false_iff in Hadjust as [Hq Ha].
  apply negb_false_iff, isEmpty_eq in Hq.
  assert (Ha' : isFilterActive s = false).
  { unfold isFilterActive in *. by rewrite Hf', Hai, Hd, Hc in Ha. }
  rewrite Hq' in Hq. rewrite (filterMeals_inactive _ Ha' Hq) in Hempty.
  apply andb_prop in Hempty as [Hempty _]. apply andb_prop in Hempty as [Hempty _].
  destruct (meals s); [done|]. simpl in Hempty. lia.
Qed.

Lemma create_hint_only_without_records_witness :
  screen (afterFilterEffect (live emptyLoaded)) = EmptyState false
  ∧ meals (live emptyLoaded) = [].
Proof.
  assert (H : screen (afterFilterEffect (live emptyLoaded)) = EmptyState false)
    by (vm_compute; reflexivity).
  exact (conj H (create_hint_only_without_records (live emptyLoaded) H)).
Defined.

End ActiveFilters.


(** ** Fetching: what a finished fetch leaves *)

Section Fetching.
Import JS Types MyMeals.

Lemma attempt_inner (env : State) (loadMore : bool) (answers : FetchAnswers) :
  inner (attempt env loadMore answers) = []
  ∨ ∃ e, inner (attempt env loadMore answers) = [SetError e].
Proof.
  unfold attempt. destruct (userAnswer answers); simpl; [|by eauto].
  left. by repeat case_match.
Qed.

(** What the final updates of a fetch do to a state, by outcome. *)
Lemma fetch_after_failure (env : State) (isRefresh loadMore : bool) (answers : FetchAnswers)
    (run : Run) (message : string) (s : State) :
  fetchMyMeals env isRefresh loadMore answers = Some run →
  outcome (attempt env loadMore answers) = inl message →
  let s' := applyUpdates (after run) s in
  meals s' = meals s ∧ filters s' = filters s ∧ searchQuery s' = searchQuery s
  ∧ currentPage s' = currentPage s ∧ hasMoreMeals s' = hasMoreMeals s
  ∧ filtersLoaded s' = filtersLoaded s
  ∧ error s' = Some (orElse message "Failed to fetch meals. Please try again later.")
  ∧ loading s' = false ∧ refreshing s' = false ∧ loadingMore s' = false.
Proof.
  unfold fetchMyMeals. destruct (negb (filtersLoaded env)); [done|].
  intros Hrun Hout. rewrite Hout in Hrun. injection Hrun as <-. simpl.
  by destruct (attempt_inner env loadMore answers) as [->|[e ->]].
Qed.

Lemma fetch_after_success (env : State) (isRefresh loadMore : bool) (answers : FetchAnswers)
    (run : Run) (batch : list Meal) (s : State) :
  fetchMyMeals env isRefresh loadMore answers = Some run →
  outcome (attempt env loadMore answers) = inr batch →
  let s' := applyUpdates (after run) s in
  meals s' = (if loadMore then meals s ++ batch else batch)
  ∧ filters s' = filters s ∧ searchQuery s' = searchQuery s
  ∧ filtersLoaded s' = filtersLoaded s
  ∧ loading s' = false ∧ refreshing s' = false ∧ loadingMore s' = false.
Proof.
  unfold fetchMyMeals. destruct (negb (filtersLoaded env)); [done|].
  intros Hrun Hout. rewrite Hout in Hrun. injection Hrun as <-. simpl.
  by destruct (attempt_inner env loadMore answers) as [->|[e ->]], loadMore.
Qed.

Lemma fetch_before (env : State) (isRefresh loadMore : bool) (answers : FetchAnswers)
    (run : Run) (s : State) :
  fetchMyMeals env isRefresh loadMore answers = Some run →
  let s' := applyUpdates (before run) s in
  meals s' = meals s ∧ filters s' = filters s ∧ searchQuery s' = searchQuery s
  ∧ filtersLoaded s' = filtersLoaded s
  ∧ currentPage s' = (if isRefresh then 0 else currentPage s)
  ∧ hasMoreMeals s' = (if isRefresh then true else hasMoreMeals s).
Proof.
  unfold fetchMyMeals. destruct (negb (filtersLoaded env)); [done|].
  intros Hrun.
  assert (Hb : before run =
    (if isRefresh then
         [SetRefreshing true; SetError None; SetCurrentPage 0; SetHasMoreMeals true]
       else if loadMore then [SetLoadingMore true]
       else [SetLoading true; SetError None])
      ++ (if negb loadMore then [SetFilteredMealsReady false] else [])).
  { destruct (outcome _); by injection Hrun as <-. }
  rewrite Hb. by destruct isRefresh, loadMore.
Qed.

Lemma filterMeals_app (ms ms' : list Meal) (filters : list NutritionFilter) (q : string) :
  filterMeals (ms ++ ms') filters q = filterMeals ms filters q ++ filterMeals ms' filters q.
Proof. apply List.filter_app. Qed.

(** X6.  When a load-more obtains a batch, the filter pass that follows
    shows the list that the records loaded so far give, followed by what the
    batch gives under the same filters and query: the records shown before
    keep their places, and the new ones come after them. *)
Theorem loadMore_extends_visible_list (env : State) (answers : FetchAnswers) (run : Run)
    (batch : list Meal) (s : State) :
  loadMoreMeals env answers = Some run →
  outcome (attempt env true answers) = inr batch →
  filteredMeals (afterFilterEffect (applyUpdates (after run) s))
  = filterMeals (meals s) (filters s) (searchQuery s)
    ++ filterMeals batch (filters s) (searchQuery s).
Proof.
  unfold loadMoreMeals. destruct (loadMoreGuard env); [|done]. intros Hrun Hout.
  destruct (fetch_after_success _ _ _ _ _ _ s Hrun Hout) as (Hm & Hf & Hq & _).
  by rewrite filteredMeals_afterFilterEffect, Hm, Hf, Hq, filterMeals_app.
Qed.

(** X7.  Once a fetch is over, with a batch or with an error, and a filter
    pass has run, the component no longer shows its full-screen loading
    view, nor the spinner in place of the list: it shows the list or the
    empty state. *)
Theorem loader_gone_after_fetch (env : State) (isRefresh loadMore : bool)
    (answers : FetchAnswers) (run : Run) (s : State) :
  fetchMyMeals env isRefresh loadMore answers = Some run →
  filtersLoaded s = true →
  match screen (afterFilterEffect (applyUpdates (after run) s)) with
  | EmptyState _ | MealList _ _ => True
  | LoadingScreen | ListSpinner => False
  end.
Proof.
  intros Hrun Hloaded.
  assert (H : loading (applyUpdates (after run) s) = false
              ∧ filtersLoaded (applyUpdates (after run) s) = true).
  { destruct (outcome (attempt env loadMore answers)) as [message|batch] eqn:Hout.
    - destruct (fetch_after_failure _ _ _ _ _ _ s Hrun Hout)
        as (_ & _ & _ & _ & _ & Hl & _ & ? & _). by rewrite Hl.
    - destruct (fetch_after_success _ _ _ _ _ _ s Hrun Hout)
        as (_ & _ & _ & Hl & ? & _). by rewrite Hl. }
  destruct H as [Hloading Hfl]. revert Hloading Hfl.
  generalize (applyUpdates (after run) s). intros s1 Hloading Hfl.
  unfold screen, afterFilterEffect, filterEffect. simpl. rewrite Hloading. simpl.
  rewrite Hfl. simpl. rewrite !Hloading. simpl. by destruct (_ && _).
Qed.


Lemma handleRefresh_run (env : State) (answers : FetchAnswers) (run : Run) :
  filtersLoaded env = true →
  handleRefresh env answers = Some run →
  ∃ run0, fetchMyMeals env true false answers = Some run0
          ∧ before run = SetRetryCount 0 :: before run0 ∧ after run = after run0.
Proof.
  intros Hloaded. unfold handleRefresh, withUpdates.
  destruct (proj2 (fetchMyMeals_started env true false answers) Hloaded) as [run0 ->].
  intros [= <-]. eauto.
Qed.

(** X9.  A fetch that fails leaves the record set, the numeric filters and
    the search query as they are, and sets the error to the message of the
    failure.  It leaves the page number and [hasMoreMeals] as they are too,
    unless it is a refresh: a refresh has set the page number to 0 and
    [hasMoreMeals] to true before it fails, and they stay so. *)
Theorem failed_fetch_keeps_records (env : State) (isRefresh loadMore : bool)
    (answers : FetchAnswers) (run : Run) (message : string) (s : State) :
  fetchMyMeals env isRefresh loadMore answers = Some run →
  outcome (attempt env loadMore answers) = inl message →
  let s' := finished run s in
  meals s' = meals s ∧ filters s' = filters s ∧ searchQuery s' = searchQuery s
  ∧ error s' = Some (orElse message "Failed to fetch meals. Please try again later.")
  ∧ currentPage s' = (if isRefresh then 0 else currentPage s)
  ∧ hasMoreMeals s' = (if isRefresh then true else hasMoreMeals s).
Proof.
  intros Hrun Hout. simpl. unfold finished.
  destruct (fetch_after_failure _ _ _ _ _ _ (applyUpdates (before run) s) Hrun Hout)
    as (-> & -> & -> & -> & -> & _ & -> & _).
  by destruct (fetch_before _ _ _ _ _ s Hrun) as (-> & -> & -> & _ & -> & ->).
Qed.

(** X10.  After a refresh that fails, the records loaded before are all
    still there, and the next load-more asks for the rows 20 to 39, however
    many pages had been loaded before the refresh. *)
Theorem loadMore_after_failed_refresh_asks_second_page (env : State)
    (answers : FetchAnswers) (run : Run) (message : string) (s : State)
    (answers' : FetchAnswers) (userId : string) :
  filtersLoaded env = true →
  handleRefresh env answers = Some run →
  outcome (attempt env false answers) = inl message →
  filtersLoaded s = true →
  userAnswer answers' = UserId userId →
  let s' := afterFilterEffect (finished run s) in
  meals s' = meals s
  ∧ ∃ run',
      loadMoreMeals s' answers' = Some run'
      ∧ requests run'
        = [GetUser;
           SelectMeals userId 20 39 (dietaryRestrictionFilter s) (aiFilter s)
                       (cuisineFilter s)].
Proof.
  intros Henv Hrun Hout Hloaded Huser. simpl.
  destruct (handleRefresh_run _ _ _ Henv Hrun) as (run0 & Hrun0 & Hb & Ha).
  unfold finished. rewrite Hb, Ha.
  change (applyUpdates (SetRetryCount 0 :: before run0) s)
    with (applyUpdates (before run0) (applyUpdate s (SetRetryCount 0))).
  set (s0 := applyUpdate s (SetRetryCount 0)).
  set (s1 := applyUpdates (before run0) s0).
  set (s2 := applyUpdates (after run0) s1).
  unfold fetchMyMeals in Hrun0. destruct (negb (filtersLoaded env)); [done|].
  rewrite Hout in Hrun0. injection Hrun0 as <-.
  assert (H2 : meals s2 = meals s ∧ currentPage s2 = 0 ∧ hasMoreMeals s2 = true
               ∧ loadingMore s2 = false ∧ loading s2 = false ∧ filtersLoaded s2 = true
               ∧ dietaryRestrictionFilter s2 = dietaryRestrictionFilter s
               ∧ aiFilter s2 = aiFilter s ∧ cuisineFilter s2 = cuisineFilter s).
  { unfold s2, s1, s0. simpl.
    by destruct (attempt_inner env false answers) as [->|[e ->]]. }
  destruct H2 as (Hm & Hp & Hh & Hlm & Hl & Hfl & Hd & Hai & Hc).
  revert Hm Hp Hh Hlm Hl Hfl Hd Hai Hc. generalize s2. clear - Huser. intros s2 **.
  assert (H3 : meals (afterFilterEffect s2) = meals s
               ∧ currentPage (afterFilterEffect s2) = 0
               ∧ loadMoreGuard (afterFilterEffect s2) = true
               ∧ filtersLoaded (afterFilterEffect s2) = true
               ∧ dietaryRestrictionFilter (afterFilterEffect s2) = dietaryRestrictionFilter s
               ∧ aiFilter (afterFilterEffect s2) = aiFilter s
               ∧ cuisineFilter (afterFilterEffect s2) = cuisineFilter s).
  { unfold loadMoreGuard, afterFilterEffect, filterEffect. simpl. rewrite Hl. simpl.
    by rewrite Hlm, Hh. }
  destruct H3 as (Hm' & Hp' & Hg & Hfl' & Hd' & Hai' & Hc').
  split; [done|].
  destruct (proj2 (fetchMyMeals_started (afterFilterEffect s2) false true answers'))
    as [run' Hrun']; [done|].
  exists run'. unfold loadMoreMeals. rewrite Hg. split; [done|].
  rewrite (loadMore_requests (afterFilterEffect s2) answers' run' userId).
  - by rewrite Hp', Hd', Hai', Hc'.
  - unfold loadMoreMeals. by rewrite Hg.
  - done.
Qed.




(** X11.  Two load-mores that follow each other, the second made by the
    render that follows the first one's full batch of 20 records, ask for
    adjacent ranges: the second asks for the 20 rows after the last row the
    first has asked for, and the batch of the first is appended to the
    records. *)
Theorem loadMore_pages_are_adjacent (env : State) (answers answers' : FetchAnswers)
    (run : Run) (batch : list Meal) (userId userId' : string) :
  loadMoreMeals env answers = Some run →
  userAnswer answers = UserId userId →
  userAnswer answers' = UserId userId' →
  outcome (attempt env true answers) = inr batch →
  length batch = 20%nat →
  let s' := afterFilterEffect (finished run env) in
  ∃ offset run',
    requests run
    = [GetUser; SelectMeals userId offset (offset + 19) (dietaryRestrictionFilter env)
                            (aiFilter env) (cuisineFilter env)]
    ∧ meals s' = meals env ++ batch
    ∧ loadMoreMeals s' answers' = Some run'
    ∧ requests run'
      = [GetUser; SelectMeals userId' (offset + 20) (offset + 39)
                              (dietaryRestrictionFilter env) (aiFilter env)
                              (cuisineFilter env)].
Proof.
  intros Hrun Huser Huser' Hout Hlen. simpl.
  pose proof (loadMore_requests _ _ _ _ Hrun Huser) as Hreq.
  destruct (proj1 (loadMoreMeals_started env answers)) as (Hlm & Hh & Hr & Hfl); [by eauto|].
  unfold loadMoreMeals in Hrun. unfold loadMoreGuard in Hrun.
  rewrite Hlm, Hh, Hr in Hrun. simpl in Hrun.
  unfold fetchMyMeals in Hrun. rewrite Hfl, Hout in Hrun. simpl in Hrun.
  injection Hrun as <-. simpl in Hreq. simpl requests. rewrite Hreq. clear Hreq.
  set (s1 := finished _ env).
  assert (H1 : meals s1 = meals env ++ batch ∧ currentPage s1 = currentPage env + 1
               ∧ hasMoreMeals s1 = true ∧ loadingMore s1 = false ∧ loading s1 = false
               ∧ filtersLoaded s1 = true
               ∧ dietaryRestrictionFilter s1 = dietaryRestrictionFilter env
               ∧ aiFilter s1 = aiFilter env ∧ cuisineFilter s1 = cuisineFilter env).
  { unfold s1, finished. simpl. rewrite Hlen.
    by destruct (attempt_inner env true answers) as [->|[e ->]]. }
  destruct H1 as (Hm & Hp & Hh1 & Hlm1 & Hl1 & Hfl1 & Hd & Hai & Hc).
  revert Hm Hp Hh1 Hlm1 Hl1 Hfl1 Hd Hai Hc. generalize s1. clear - Huser'. intros s1 **.
  assert (H2 : meals (afterFilterEffect s1) = meals env ++ batch
               ∧ currentPage (afterFilterEffect s1) = currentPage env + 1
               ∧ loadMoreGuard (afterFilterEffect s1) = true
               ∧ filtersLoaded (afterFilterEffect s1) = true
               ∧ dietaryRestrictionFilter (afterFilterEffect s1) = dietaryRestrictionFilter env
               ∧ aiFilter (afterFilterEffect s1) = aiFilter env
               ∧ cuisineFilter (afterFilterEffect s1) = cuisineFilter env).
  { unfold loadMoreGuard, afterFilterEffect, filterEffect. simpl. rewrite Hl1. simpl.
    by rewrite Hlm1, Hh1. }
  destruct H2 as (Hm' & Hp' & Hg & Hfl' & Hd' & Hai' & Hc').
  destruct (proj2 (fetchMyMeals_started (afterFilterEffect s1) false true answers'))
    as [run' Hrun']; [done|].
  assert (Hcall : loadMoreMeals (afterFilterEffect s1) answers' = Some run').
  { unfold loadMoreMeals. by rewrite Hg. }
  exists ((currentPage env + 1) * 20), run'.
  split; [do 3 f_equal; lia|]. split; [done|]. split; [done|].
  rewrite (loadMore_requests _ _ _ _ Hcall Huser'), Hp', Hd', Hai', Hc'.
  do 3 f_equal; lia.
Qed.

End Fetching.


Section FetchingExamples.
Import JS Types MyMeals.

Lemma loadMore_extends_visible_list_witness :
  outcome (attempt (live searching) true (page secondPage)) = inr secondPage
  ∧ match loadMoreMeals (live searching) (page secondPage) with
    | Some run =>
        filteredMeals (afterFilterEffect (applyUpdates (after run) (live searching)))
        = filterMeals (meals (live searching)) (filters (live searching))
                      (searchQuery (live searching))
          ++ filterMeals secondPage (filters (live searching)) (searchQuery (live searching))
    | None => False
    end.
Proof.
  assert (Hout : outcome (attempt (live searching) true (page secondPage)) = inr secondPage)
    by (vm_compute; reflexivity).
  split; [exact Hout|].
  destruct (loadMoreMeals (live searching) (page secondPage)) as [run|] eqn:Hrun;
    [|by vm_compute in Hrun].
  exact (loadMore_extends_visible_list (live searching) (page secondPage) run secondPage
           (live searching) Hrun Hout).
Defined.

Lemma loader_gone_after_fetch_witness :
  filtersLoaded restoredState = true
  ∧ match fetchMyMeals restoredState false false (page (sampleMeals 3)) with
    | Some run =>
        match screen (afterFilterEffect (applyUpdates (after run) restoredState)) with
        | EmptyState _ | MealList _ _ => True
        | LoadingScreen | ListSpinner => False
        end
    | None => False
    end.
Proof.
  split; [reflexivity|].
  destruct (fetchMyMeals restoredState false false (page (sampleMeals 3))) as [run|] eqn:Hrun;
    [|by vm_compute in Hrun].
  exact (loader_gone_after_fetch restoredState false false (page (sampleMeals 3)) run
           restoredState Hrun eq_refl).
Defined.


Lemma failed_fetch_keeps_records_witness :
  outcome (attempt (live loaded) false networkDown) = inl "Network request failed"
  ∧ match fetchMyMeals (live loaded) true false networkDown with
    | Some run =>
        meals (finished run (live loaded)) = meals (live loaded)
        ∧ currentPage (finished run (live loaded)) = 0
    | None => False
    end.
Proof.
  assert (Hout : outcome (attempt (live loaded) false networkDown)
                 = inl "Network request failed") by (vm_compute; reflexivity).
  split; [exact Hout|].
  destruct (fetchMyMeals (live loaded) true false networkDown) as [run|] eqn:Hrun;
    [|by vm_compute in Hrun].
  destruct (failed_fetch_keeps_records (live loaded) true false networkDown run
              "Network request failed" (live loaded) Hrun Hout)
    as (Hmeals & _ & _ & _ & Hpage & _).
  exact (conj Hmeals Hpage).
Defined.

Lemma loadMore_after_failed_refresh_asks_second_page_witness :
  filtersLoaded (live loaded) = true
  ∧ outcome (attempt (live loaded) false networkDown) = inl "Network request failed"
  ∧ match handleRefresh (live loaded) networkDown with
    | Some run =>
        ∃ run',
          loadMoreMeals (afterFilterEffect (finished run (live loaded))) (page secondPage)
          = Some run'
          ∧ requests run'
            = [GetUser;
               SelectMeals user1 20 39 (dietaryRestrictionFilter (live loaded))
                           (aiFilter (live loaded)) (cuisineFilter (live loaded))]
    | None => False
    end.
Proof.
  assert (Hloaded : filtersLoaded (live loaded) = true) by (vm_compute; reflexivity).
  assert (Hout : outcome (attempt (live loaded) false networkDown)
                 = inl "Network request failed") by (vm_compute; reflexivity).
  split; [exact Hloaded|]. split; [exact Hout|].
  destruct (handleRefresh (live loaded) networkDown) as [run|] eqn:Hrun;
    [|by vm_compute in Hrun].
  exact (proj2 (loadMore_after_failed_refresh_asks_second_page (live loaded) networkDown run
                  "Network request failed" (live loaded) (page secondPage) user1
                  Hloaded Hrun Hout Hloaded eq_refl)).
Defined.

Lemma loadMore_pages_are_adjacent_witness :
  outcome (attempt (live searching) true (page (sampleMeals 20))) = inr (sampleMeals 20)
  ∧ length (sampleMeals 20) = 20%nat
  ∧ match loadMoreMeals (live searching) (page (sampleMeals 20)) with
    | Some run =>
        ∃ offset run',
          requests run
          = [GetUser;
             SelectMeals user1 offset (offset + 19)
                         (dietaryRestrictionFilter (live searching))
                         (aiFilter (live searching)) (cuisineFilter (live searching))]
          ∧ meals (afterFilterEffect (finished run (live searching)))
            = meals (live searching) ++ sampleMeals 20
          ∧ loadMoreMeals (afterFilterEffect (finished run (live searching)))
                          (page secondPage)
            = Some run'
          ∧ requests run'
            = [GetUser;
               SelectMeals user1 (offset + 20) (offset + 39)
                           (dietaryRestrictionFilter (live searching))
                           (aiFilter (live searching)) (cuisineFilter (live searching))]
    | None => False
    end.
Proof.
  assert (Hout : outcome (attempt (live searching) true (page (sampleMeals 20)))
                 = inr (sampleMeals 20)) by (vm_compute; reflexivity).
  split; [exact Hout|]. split; [reflexivity|].
  destruct (loadMoreMeals (live searching) (page (sampleMeals 20))) as [run|] eqn:Hrun;
    [|by vm_compute in Hrun].
  exact (loadMore_pages_are_adjacent (live searching) (page (sampleMeals 20))
           (page secondPage) run (sampleMeals 20) user1 user1 Hrun eq_refl eq_refl Hout
           eq_refl).
Defined.


End FetchingExamples.


(** ** More on favorites *)

Section FavoriteMore.
Import JS Types MyMeals.

Lemma toggleFavorite_done_run (env : State) (mealId : MealId) (run : Run)
    (currentMeal : Meal) :
  toggleFavorite env mealId None = Some run →
  find (λ m, bool_decide (id m = mealId)) (meals env) = Some currentMeal →
  run = {| before := [SetFavoriteLoading (idKey mealId) true; SetError None;
                      SetMeals (setFavorite mealId (negb (favorite currentMeal)) (meals env))];
           requests := [UpdateFavorite mealId (negb (favorite currentMeal))];
           after := [SetFavoriteLoading (idKey mealId) false];
           timers := []; alerts := [] |}.
Proof.
  unfold toggleFavorite. destruct (bool_decide _); [done|].
  destruct (isMacroId mealId); [done|]. intros Hrun Hfind.
  rewrite Hfind in Hrun. by injection Hrun as <-.
Qed.

Lemma toggleFavorite_absent_run (env : State) (mealId : MealId) (answer : option string)
    (run : Run) :
  toggleFavorite env mealId answer = Some run →
  find (λ m, bool_decide (id m = mealId)) (meals env) = None →
  requests run = [] ∧ after run = []
  ∧ ∀ s, meals (applyUpdates (before run) s) = meals s
         ∧ favoriteLoading (applyUpdates (before run) s) !! idKey mealId = Some false.
Proof.
  unfold toggleFavorite. destruct (bool_decide _); [done|].
  destruct (isMacroId mealId); [done|]. intros Hrun Hfind.
  rewrite Hfind in Hrun. injection Hrun as <-. simpl.
  split; [done|]. split; [done|]. intros s. split; [done|].
  by rewrite lookup_insert_eq.
Qed.

Lemma ids_setFavorite (mealId : MealId) (status : bool) (ms : list Meal) :
  ids (setFavorite mealId status ms) = ids ms.
Proof.
  unfold ids, setFavorite. rewrite <- list_fmap_compose. apply list_fmap_ext.
  intros i meal _. simpl. by destruct (decide _).
Qed.

(** X13.  A toggle whose remote update succeeds changes the favorite flag
    of the records with the given identifier and nothing else: the list
    keeps its length and its identifiers in their order, each record with
    another identifier is the record it was, and each record with the
    identifier gets the negation of the flag of the record found.  It sends
    one update, with that negated flag, shows no alert, leaves no error,
    and releases the loading flag of the identifier. *)
Theorem toggleFavorite_flips_only_the_target (env : State) (mealId : MealId) (run : Run)
    (currentMeal : Meal) (s : State) :
  toggleFavorite env mealId None = Some run →
  find (λ m, bool_decide (id m = mealId)) (meals env) = Some currentMeal →
  let s' := finished run s in
  ids (meals s') = ids (meals env)
  ∧ (∀ i meal, meals env !! i = Some meal →
       meals s' !! i
       = Some (if decide (id meal = mealId)
               then withFavorite meal (negb (favorite currentMeal)) else meal))
  ∧ requests run = [UpdateFavorite mealId (negb (favorite currentMeal))]
  ∧ alerts run = []
  ∧ error s' = None
  ∧ favoriteLoading s' !! idKey mealId = Some false.
Proof.
  intros Hrun Hfind. rewrite (toggleFavorite_done_run _ _ _ _ Hrun Hfind).
  unfold finished. simpl. split; [apply ids_setFavorite|].
  split; [|by rewrite lookup_insert_eq].
  intros i meal Hi. by rewrite setFavorite_lookup, Hi.
Qed.

Lemma find_setFavorite (mealId : MealId) (status : bool) (ms : list Meal) :
  find (λ m, bool_decide (id m = mealId)) (setFavorite mealId status ms)
  = (λ meal, withFavorite meal status) <$> find (λ m, bool_decide (id m = mealId)) ms.
Proof.
  induction ms as [|meal ms IH]; simpl; [done|].
  destruct (decide (id meal = mealId)) as [E|E]; simpl.
  - by rewrite !bool_decide_eq_true_2.
  - by rewrite !bool_decide_eq_false_2.
Qed.

Lemma setFavorite_twice (mealId : MealId) (a b : bool) (ms : list Meal) :
  setFavorite mealId b (setFavorite mealId a ms) = setFavorite mealId b ms.
Proof.
  unfold setFavorite. rewrite <- list_fmap_compose. apply list_fmap_ext.
  intros i meal _. simpl. destruct (decide (id meal = mealId)) as [E|E]; simpl.
  - by rewrite decide_True.
  - by rewrite decide_False.
Qed.

(** X14.  Identifiers being unique, two toggles of the same identifier
    that follow each other and both succeed, the second made by the render
    that follows the first, give back the record list as it was. *)
Theorem toggleFavorite_twice_restores (env : State) (mealId : MealId) (run1 run2 : Run) :
  NoDup (ids (meals env)) →
  toggleFavorite env mealId None = Some run1 →
  toggleFavorite (finished run1 env) mealId None = Some run2 →
  meals (finished run2 (finished run1 env)) = meals env.
Proof.
  intros Hnd Hrun1 Hrun2.
  destruct (find (λ m, bool_decide (id m = mealId)) (meals env)) as [currentMeal|] eqn:Hfind.
  - pose proof (toggleFavorite_done_run _ _ _ _ Hrun1 Hfind) as ->.
    set (s1 := finished _ env) in *.
    assert (Hm1 : meals s1 = setFavorite mealId (negb (favorite currentMeal)) (meals env))
      by done.
    assert (Hfind1 : find (λ m, bool_decide (id m = mealId)) (meals s1)
                     = Some (withFavorite currentMeal (negb (favorite currentMeal)))).
    { by rewrite Hm1, find_setFavorite, Hfind. }
    pose proof (toggleFavorite_done_run _ _ _ _ Hrun2 Hfind1) as ->.
    unfold finished at 1. simpl. rewrite negb_involutive, setFavorite_twice.
    by apply setFavorite_restores.
  - destruct (toggleFavorite_absent_run _ _ _ _ Hrun1 Hfind) as (_ & Ha1 & Hb1).
    assert (Hm1 : meals (finished run1 env) = meals env).
    { unfold finished. rewrite Ha1. simpl. apply Hb1. }
    assert (Hfind1 : find (λ m, bool_decide (id m = mealId)) (meals (finished run1 env))
                     = None) by (by rewrite Hm1).
    destruct (toggleFavorite_absent_run _ _ _ _ Hrun2 Hfind1) as (_ & Ha2 & Hb2).
    unfold finished at 1. rewrite Ha2. simpl. by rewrite (proj1 (Hb2 _)).
Qed.

(** X15.  While a toggle awaits its answer, a second toggle of the same
    identifier, made by a render that has seen the first one start, is
    dropped: it sends nothing and changes nothing.  Once the toggle is
    over, with or without an error, the loading flag of the identifier is
    released. *)
Theorem second_toggle_in_flight_is_dropped (env : State) (mealId : MealId)
    (answer answer' : option string) (run : Run) (s : State) :
  toggleFavorite env mealId answer = Some run →
  (requests run ≠ [] → toggleFavorite (applyUpdates (before run) s) mealId answer' = None)
  ∧ favoriteLoading (finished run s) !! idKey mealId = Some false.
Proof.
  intros Hrun.
  destruct (find (λ m, bool_decide (id m = mealId)) (meals env)) as [currentMeal|] eqn:Hfind.
  - unfold toggleFavorite in Hrun. destruct (bool_decide _); [done|].
    destruct (isMacroId mealId); [done|]. rewrite Hfind in Hrun.
    destruct answer; injection Hrun as <-; unfold finished; simpl;
      (split; [|by rewrite lookup_insert_eq]); intros _; unfold toggleFavorite; simpl;
      by rewrite lookup_insert_eq, bool_decide_eq_true_2.
  - destruct (toggleFavorite_absent_run _ _ _ _ Hrun Hfind) as (Hr & Ha & Hb).
    split; [done|]. unfold finished. rewrite Ha. apply Hb.
Qed.

Lemma toggleFavorite_flips_only_the_target_witness :
  find (λ m, bool_decide (id m = IdNum 2)) (meals (live loaded)) = Some (sampleMeal 2)
  ∧ match toggleFavorite (live loaded) (IdNum 2) None with
    | Some run =>
        ids (meals (finished run (live loaded))) = ids (meals (live loaded))
        ∧ meals (finished run (live loaded)) !! 1%nat
          = Some (withFavorite (sampleMeal 2) true)
        ∧ meals (finished run (live loaded)) !! 2%nat = Some (sampleMeal 3)
        ∧ requests run = [UpdateFavorite (IdNum 2) true]
    | None => False
    end.
Proof.
  assert (Hfind : find (λ m, bool_decide (id m = IdNum 2)) (meals (live loaded))
                  = Some (sampleMeal 2)) by (vm_compute; reflexivity).
  split; [exact Hfind|].
  destruct (toggleFavorite (live loaded) (IdNum 2) None) as [run|] eqn:Hrun;
    [|by vm_compute in Hrun].
  destruct (toggleFavorite_flips_only_the_target (live loaded) (IdNum 2) run (sampleMeal 2)
              (live loaded) Hrun Hfind) as (Hids & Hat & Hreq & _).
  assert (H1 : meals (live loaded) !! 1%nat = Some (sampleMeal 2))
    by (vm_compute; reflexivity).
  assert (H2 : meals (live loaded) !! 2%nat = Some (sampleMeal 3))
    by (vm_compute; reflexivity).
  exact (conj Hids (conj (Hat 1%nat (sampleMeal 2) H1)
                      (conj (Hat 2%nat (sampleMeal 3) H2) Hreq))).
Defined.

Lemma toggleFavorite_twice_restores_witness :
  NoDup (ids (meals (live loaded)))
  ∧ match toggleFavorite (live loaded) (IdNum 2) None with
    | Some run1 =>
        match toggleFavorite (finished run1 (live loaded)) (IdNum 2) None with
        | Some run2 =>
            meals (finished run2 (finished run1 (live loaded))) = meals (live loaded)
        | None => False
        end
    | None => False
    end.
Proof.
  assert (Hnd : NoDup (ids (meals (live loaded)))).
  { apply (bool_decide_unpack _). by vm_compute. }
  split; [exact Hnd|].
  destruct (toggleFavorite (live loaded) (IdNum 2) None) as [run1|] eqn:Hrun1;
    [|by vm_compute in Hrun1].
  destruct (toggleFavorite (finished run1 (live loaded)) (IdNum 2) None) as [run2|] eqn:Hrun2.
  - exact (toggleFavorite_twice_restores (live loaded) (IdNum 2) run1 run2 Hnd Hrun1 Hrun2).
  - vm_compute in Hrun1. injection Hrun1 as <-. by vm_compute in Hrun2.
Defined.

Lemma second_toggle_in_flight_is_dropped_witness :
  match toggleFavorite (live loaded) (IdNum 2) None with
  | Some run =>
      requests run ≠ []
      ∧ toggleFavorite (applyUpdates (before run) (live loaded)) (IdNum 2) None = None
      ∧ favoriteLoading (finished run (live loaded)) !! idKey (IdNum 2) = Some false
  | None => False
  end.
Proof.
  destruct (toggleFavorite (live loaded) (IdNum 2) None) as [run|] eqn:Hrun;
    [|by vm_compute in Hrun].
  destruct (second_toggle_in_flight_is_dropped (live loaded) (IdNum 2) None None run
              (live loaded) Hrun) as [Hdrop Hreleased].
  assert (Hreq : requests run ≠ []).
  { vm_compute in Hrun. injection Hrun as <-. discriminate. }
  exact (conj Hreq (conj (Hdrop Hreq) Hreleased)).
Defined.

End FavoriteMore.

Section Derived.
Import JS Types.

Lemma startsWith_append (p t : string) : startsWith (p +:+ t) p = true.
Proof.
  unfold startsWith. induction p as [|c p IH]; simpl; [by destruct t|].
  by destruct (ascii_dec c c).
Qed.

(** X16.  A record that the calendar builds from a row of scanned meals
    cannot be made a favorite: for its identifier [toggleFavorite] returns
    at its guard, whatever the state, and sends nothing. *)
Theorem scanned_records_cannot_be_favorited (env : MyMeals.State)
    (macroMeal : Calendar.MacroMeal) (answer : option string) :
  MyMeals.toggleFavorite env (id (Calendar.transformMacroMeal macroMeal)) answer = None.
Proof.
  unfold MyMeals.toggleFavorite. destruct (bool_decide _); [done|].
  simpl. by rewrite startsWith_append.
Qed.

End Derived.


(** ** The calendar: loading flags, the next week, deletions *)

Section DateFetchSettles.
Import JS Types Calendar.

Lemma applyUpdates_replicate_start (k : nat) (date : string) (us : list Update) (s : State) :
  applyUpdates (replicate k (SetLoadingDate date true) ++ SetLoadingDate date true :: us) s
  = applyUpdates (SetLoadingDate date true :: us) s.
Proof.
  revert s. induction k as [|k IH]; intros s; [done|].
  change (applyUpdates (replicate (S k) (SetLoadingDate date true)
                        ++ SetLoadingDate date true :: us) s)
    with (applyUpdates (replicate k (SetLoadingDate date true)
                        ++ SetLoadingDate date true :: us)
                       (applyUpdate s (SetLoadingDate date true))).
  rewrite IH. unfold applyUpdates. simpl. by rewrite insert_insert_eq.
Qed.

(** The state the updates of a fetch leave. *)
Lemma fetchMealsForDate_state (date : string) (answers : Z → DateAnswers) (s : State) :
  ∃ e,
    loadingDates (applyUpdates (snd (fetchMealsForDate date answers)) s)
    = <[date := false]> (loadingDates s)
    ∧ meals (applyUpdates (snd (fetchMealsForDate date answers)) s) = meals s
    ∧ error (applyUpdates (snd (fetchMealsForDate date answers)) s) = e
    ∧ (fst (fetchMealsForDate date answers) ≠ [] → e = None)
    ∧ (failed (answers (Z.of_nat (attempts (snd (fetchMealsForDate date answers))) - 1))
       = false ↔ e = None).
Proof.
  destruct (fetchMealsForDate_quiet date answers) as [Hret _].
  destruct (fetchMealsForDate date answers) as [ms us]. simpl.
  destruct (fetchMealsForDateFrom_shape _ _ _ _ _ _ Hret)
    as (k & e & tail & _ & -> & Hc & He & Hf & _).
  rewrite (attempts_replicate _ _ _ _ Hc).
  replace (Z.of_nat (S k) - 1) with (0 + Z.of_nat k) by lia.
  assert (Hstate : ∀ s0 : State,
            loadingDates (applyUpdates tail s0) = <[date := false]> (loadingDates s0)
            ∧ meals (applyUpdates tail s0) = meals s0
            ∧ error (applyUpdates tail s0) = e).
  { intros s0. destruct Hc as [-> | ->]; unfold applyUpdates; simpl;
      by rewrite insert_insert_eq. }
  assert (Htail : ∃ rest, tail = SetLoadingDate date true :: rest)
    by (destruct Hc as [-> | ->]; eauto).
  destruct Htail as [rest Hrest]. rewrite Hrest, applyUpdates_replicate_start, <- Hrest.
  destruct (Hstate s) as (Hl & Hm & Herr). exists e.
  by rewrite Hl, Hm, Herr.
Qed.

(** X17.  Whatever the answers, the updates of [fetchMealsForDate] leave
    the loading flag of its date released and the loading flags of the other
    dates as they were, and they publish nothing.  The error they leave
    tells how the last attempt ended: it is cleared exactly when the last
    attempt did not fail, and it is cleared whenever records are
    returned. *)
Theorem fetchMealsForDate_settles (date : string) (answers : Z → DateAnswers) (s : State) :
  let fetched := fetchMealsForDate date answers in
  let s' := applyUpdates (snd fetched) s in
  loadingDates s' !! date = Some false
  ∧ (∀ other, other ≠ date → loadingDates s' !! other = loadingDates s !! other)
  ∧ meals s' = meals s
  ∧ (error s' = None ↔ failed (answers (Z.of_nat (attempts (snd fetched)) - 1)) = false)
  ∧ (fst fetched ≠ [] → error s' = None).
Proof.
  simpl. destruct (fetchMealsForDate_state date answers s) as (e & -> & -> & -> & He & Hf).
  rewrite lookup_insert_eq. split; [done|]. split.
  { intros other Hother. by rewrite lookup_insert_ne. }
  split; [done|]. split; [by symmetry|done].
Qed.

End DateFetchSettles.

Section WeekInvariants.
Import JS Types Calendar.

Variable dateOf : nat → string.

Lemma calendar_applyUpdates_app (us vs : list Update) (s : State) :
  applyUpdates (us ++ vs) s = applyUpdates vs (applyUpdates us s).
Proof. apply fold_left_app. Qed.

Lemma steady_nil : steady [].
Proof. intros s. split; [done|]. by right. Qed.

Lemma steady_app (us vs : list Update) : steady us → steady vs → steady (us ++ vs).
Proof.
  intros Hus Hvs s. rewrite calendar_applyUpdates_app.
  destruct (Hus s) as [Hm1 Hl1], (Hvs (applyUpdates us s)) as [Hm2 Hl2].
  split; [by auto|]. intros date.
  destruct (Hl2 date) as [E|E]; rewrite E; [by left|apply Hl1].
Qed.

Lemma steady_concat {A} (f : A → list Update) (l : list A) :
  (∀ x, steady (f x)) → steady (concat (f <$> l)).
Proof.
  intros Hf. induction l as [|x l IH]; simpl; [apply steady_nil|]. by apply steady_app.
Qed.

Lemma steady_one (u : Update) :
  (∀ date, u ≠ SetLoadingDate date true) → steady [u].
Proof.
  intros Hu s. destruct u as [date [|]| | | | |]; unfold applyUpdates; simpl.
  - by destruct (Hu date).
  - split; [done|]. intros d. destruct (decide (d = date)) as [->|Hne].
    + left. apply lookup_insert_eq.
    + right. by apply lookup_insert_ne.
  - split; [done|]. by right.
  - split; [|by right]. intros d [ms Hd]. rewrite lookup_union. rewrite Hd.
    by destruct (newMeals !! d).
  - split; [|by right]. intros d Hd. destruct (decide (d = date)) as [->|Hne].
    + by rewrite lookup_insert_eq.
    + by rewrite lookup_insert_ne.
  - split; [done|]. by right.
  - split; [done|]. by right.
Qed.

Lemma steady_fetch (date : string) (answers : Z → DateAnswers) :
  steady (snd (fetchMealsForDate date answers)).
Proof.
  intros s. destruct (fetchMealsForDate_state date answers s) as (e & Hl & Hm & _).
  split; [by rewrite Hm|]. intros d. rewrite Hl.
  destruct (decide (d = date)) as [->|Hne].
  - left. apply lookup_insert_eq.
  - right. by apply lookup_insert_ne.
Qed.

Lemma steady_freshWeek (env : State) (w : WeekAnswers) (nm : gmap string (list Meal)) :
  steady (freshWeek dateOf env w nm).
Proof.
  unfold freshWeek. apply steady_app.
  - apply (steady_concat (λ i, snd (fetchMealsForDate (dateOf i) (weekFetch w i)))).
    intros i. apply steady_fetch.
  - apply (steady_app [_] [_]); by apply steady_one.
Qed.

Lemma steady_cachedThenMissing (env : State) (w : WeekAnswers)
    (nm : gmap string (list Meal)) :
  steady (cachedThenMissing dateOf env w nm).
Proof.
  unfold cachedThenMissing. apply (steady_app [_]); [by apply steady_one|].
  apply steady_app; [|by apply steady_one].
  apply (steady_concat
           (λ i, snd (fetchMealsForDate (dateOf i) (weekFetch w i))
                 ++ [SetMealsForDate (dateOf i)
                       (fst (fetchMealsForDate (dateOf i) (weekFetch w i)))])).
  intros i. apply steady_app; [apply steady_fetch|by apply steady_one].
Qed.

(** X18.  Whatever the answers and the order in which reads and fetches
    settle, when a week load is over neither the refreshing flag nor the
    initial-loading flag is set, every date that had a list still has one,
    and each per-date loading flag is released or as it was before the
    load.  A load without a user publishes nothing and leaves the
    authentication error. *)
Theorem week_load_releases_flags (env : State) (isRefresh : bool) (w : WeekAnswers)
    (s : State) :
  let s' := applyUpdates (fetchMealsForWeek dateOf env isRefresh w) s in
  isRefreshing s' = false ∧ isInitialLoading s' = false
  ∧ (∀ date, is_Some (meals s !! date) → is_Some (meals s' !! date))
  ∧ (∀ date, loadingDates s' !! date = Some false
             ∨ loadingDates s' !! date = loadingDates s !! date)
  ∧ (∀ shown, weekUser w = NoUser shown →
       meals s' = meals s
       ∧ error s' = Some "Authentication required. Please log in again.").
Proof.
  simpl.
  assert (Hshape : ∃ body,
            steady body
            ∧ fetchMealsForWeek dateOf env isRefresh w
              = body ++ [SetIsRefreshing false; SetIsInitialLoading false]).
  { unfold fetchMealsForWeek.
    set (start := if isRefresh then [SetIsRefreshing true] else [SetIsInitialLoading true]).
    assert (Hstart : steady start) by (destruct isRefresh; by apply steady_one).
    destruct (weekUser w).
    - destruct isRefresh.
      + eexists (start ++ _). rewrite <- app_assoc. split; [|done].
        apply steady_app; [done|apply steady_freshWeek].
      + destruct (cachedWeek dateOf env w) as [newMeals nullSeen].
        destruct (negb nullSeen && _).
        * eexists (start ++ _). rewrite <- app_assoc. split; [|done].
          apply steady_app; [done|apply steady_cachedThenMissing].
        * eexists (start ++ _). rewrite <- app_assoc. split; [|done].
          apply steady_app; [done|apply steady_freshWeek].
    - eexists (start ++ _). rewrite <- app_assoc. split; [|done].
      apply steady_app; [done|]. apply (steady_app [_] [_]); by apply steady_one. }
  destruct Hshape as (body & Hbody & Heq).
  split; [by rewrite Heq, calendar_applyUpdates_app|].
  split; [by rewrite Heq, calendar_applyUpdates_app|].
  split.
  { rewrite Heq, calendar_applyUpdates_app. intros date Hd. by apply Hbody. }
  split.
  { rewrite Heq, calendar_applyUpdates_app. intros date. apply Hbody. }
  intros shown Huser. unfold fetchMealsForWeek. rewrite Huser. by destruct isRefresh.
Qed.

End WeekInvariants.

Section NextWeekProps.
Import JS Types Calendar.

Variable dateOf : nat → string.
Hypothesis dateOf_inj : ∀ i j, dateOf i = dateOf j → i = j.

Lemma elem_of_daysToFetch (env : State) (i : nat) :
  i ∈ daysToFetch dateOf env
  ↔ (daysToShow env ≤ i < daysToShow env + 7)%nat ∧ meals env !! dateOf i = None.
Proof.
  unfold daysToFetch. rewrite list_elem_of_In, filter_In, <- list_elem_of_In, elem_of_seq.
  rewrite bool_decide_eq_true. tauto.
Qed.

Lemma fold_insert_dom (f : nat → list Meal) (l : list nat) (m0 : gmap string (list Meal))
    (date : string) :
  (∀ i, date ≠ dateOf i) →
  fold_left (λ nm j, <[dateOf j := f j]> nm) l m0 !! date = m0 !! date.
Proof.
  intros Hdate. revert m0. induction l as [|j l IH]; intros m0; simpl; [done|].
  rewrite IH. by apply lookup_insert_ne.
Qed.

Lemma handleNextWeek_meals (env : State) (answers : nat → Z → DateAnswers)
    (n : nat) (us : list Update) (s : State) :
  handleNextWeek dateOf env answers = Some (n, us) →
  meals (applyUpdates us s)
  = fold_left (λ nm i, <[dateOf i := fst (fetchMealsForDate (dateOf i) (answers i))]> nm)
              (daysToFetch dateOf env) ∅
    ∪ meals s.
Proof.
  unfold handleNextWeek. destruct (_ || _); [done|]. intros [= <- <-].
  rewrite meals_applyUpdates, fold_left_app, (publish_quiet (concat _)).
  - case_bool_decide as Hsize; simpl; [done|].
    assert (size (fold_left
                    (λ nm i, <[dateOf i := fst (fetchMealsForDate (dateOf i) (answers i))]> nm)
                    (daysToFetch dateOf env) (∅ : gmap string (list Meal))) = 0%nat) as Hz by lia.
    apply map_size_empty_iff in Hz. rewrite Hz. by rewrite (left_id_L ∅ (∪)).
  - apply (concat_quiet (λ i, snd (fetchMealsForDate (dateOf i) (answers i)))).
    intros j. apply fetchMealsForDate_quiet.
Qed.

(** X19.  Different days having different date strings: [handleNextWeek]
    does nothing while a refresh or the initial load is under way;
    otherwise it asks for seven more days to be shown, and once its updates
    are applied each of the seven days after those shown that had no list
    in the render of the call holds what its fetch returned, while every
    other date, among them the days of the new week that had a list
    already, holds what it held. *)
Theorem handleNextWeek_loads_missing_days (env : State) (answers : nat → Z → DateAnswers)
    (s : State) :
  match handleNextWeek dateOf env answers with
  | None => isRefreshing env = true ∨ isInitialLoading env = true
  | Some (n, us) =>
      isRefreshing env = false ∧ isInitialLoading env = false
      ∧ n = (daysToShow env + 7)%nat
      ∧ (∀ i, meals (applyUpdates us s) !! dateOf i
              = if decide ((daysToShow env ≤ i < daysToShow env + 7)%nat
                           ∧ meals env !! dateOf i = None)
                then Some (fst (fetchMealsForDate (dateOf i) (answers i)))
                else meals s !! dateOf i)
      ∧ (∀ date, (∀ i, date ≠ dateOf i) →
                 meals (applyUpdates us s) !! date = meals s !! date)
  end.
Proof.
  destruct (handleNextWeek dateOf env answers) as [[n us]|] eqn:Hcall.
  - pose proof (handleNextWeek_meals _ _ _ _ s Hcall) as Hmeals.
    unfold handleNextWeek in Hcall.
    destruct (isRefreshing env), (isInitialLoading env); try done. simpl in Hcall.
    injection Hcall as <- _. split; [done|]. split; [done|]. split; [done|].
    rewrite Hmeals. split.
    + intros i. rewrite lookup_union.
      rewrite (fold_insert_lookup dateOf dateOf_inj
                 (λ j, fst (fetchMealsForDate (dateOf j) (answers j)))).
      destruct (decide (i ∈ daysToFetch dateOf env)) as [Hin|Hin].
      * rewrite decide_True by (by apply elem_of_daysToFetch).
        by destruct (meals s !! dateOf i).
      * rewrite decide_False by (by rewrite <- elem_of_daysToFetch).
        rewrite lookup_empty. by destruct (meals s !! dateOf i).
    + intros date Hdate. rewrite lookup_union, fold_insert_dom by done.
      rewrite lookup_empty. by destruct (meals s !! date).
  - unfold handleNextWeek in Hcall.
    destruct (isRefreshing env), (isInitialLoading env); try done; auto.
Qed.

End NextWeekProps.

Section NextWeekExample.
Import JS Types Calendar.

Lemma handleNextWeek_loads_missing_days_witness :
  match handleNextWeek marchFrom10 firstWeekShown everyDayAnswered with
  | Some (n, us) =>
      n = 14%nat
      ∧ meals (applyUpdates us firstWeekShown) !! marchFrom10 9
        = Some [transformEntry (plannedMeal 9)]
      ∧ meals (applyUpdates us firstWeekShown) !! marchFrom10 3
        = Some [transformEntry (plannedMeal 3)]
  | None => False
  end.
Proof.
  pose proof (handleNextWeek_loads_missing_days marchFrom10 marchFrom10_inj firstWeekShown
                everyDayAnswered firstWeekShown) as H.
  destruct (handleNextWeek marchFrom10 firstWeekShown everyDayAnswered) as [[n us]|].
  - destruct H as (_ & _ & Hn & Hday & _).
    split; [exact Hn|]. split.
    + rewrite (Hday 9%nat). rewrite decide_True; [reflexivity|].
      split; [simpl; lia|by vm_compute].
    + rewrite (Hday 3%nat). rewrite decide_False; [by vm_compute|].
      intros [Hrange _]. simpl in Hrange. lia.
  - destruct H as [H|H]; discriminate H.
Defined.

End NextWeekExample.

Section Deleting.
Import JS Types Calendar.

Lemma slice_append (p t : string) : slice (String.length p) (p +:+ t) = t.
Proof. induction p as [|c p IH]; simpl; [by destruct t|done]. Qed.

Lemma replace_prefix (p t : string) : replace (p +:+ t) p "" = t.
Proof.
  destruct p as [|c p]; [by destruct t|].
  change (replace (String c p +:+ t) (String c p) "")
    with (if startsWith (String c p +:+ t) (String c p)
          then "" +:+ slice (String.length (String c p)) (String c p +:+ t)
          else String c (replace (p +:+ t) (String c p) "")).
  by rewrite startsWith_append, slice_append.
Qed.

Lemma hasMacroPrefix_transformMacroMeal (macroMeal : MacroMeal) :
  hasMacroPrefix (id (transformMacroMeal macroMeal)) = true.
Proof. apply (startsWith_append "macro_"). Qed.

Lemma macroMealId_transformMacroMeal (macroMeal : MacroMeal) :
  replace (idText (id (transformMacroMeal macroMeal))) "macro_" ""
  = idText (macroId macroMeal).
Proof. apply (replace_prefix "macro_"). Qed.

(** X20.  For a record that the calendar has built from a row of scanned
    meals, [deleteMacroMeal] passes its guard and addresses its deletion to
    that row: the identifier it sends is the identifier of the row, the
    prefix taken off again.  Its updates leave every other date as it is,
    and the date of the record gets what the new fetch returns exactly when
    the deletion and the invalidation of the cache both succeed. *)
Theorem deleteMacroMeal_addresses_its_row (macroMeal : MacroMeal) (mealDate userId : string)
    (answer : DeleteAnswer) (invalidated : bool) (refetch : Z → DateAnswers) (s : State) :
  let handled :=
    deleteMacroMeal (transformMacroMeal macroMeal) true mealDate (UserId userId) answer
                    invalidated refetch in
  head (sentRequests handled) = Some (DeleteMacroMeal (idText (macroId macroMeal)) userId)
  ∧ (∀ date, date ≠ mealDate →
       meals (applyUpdates (updates handled) s) !! date = meals s !! date)
  ∧ meals (applyUpdates (updates handled) s) !! mealDate
    = match answer with
      | DeleteDone =>
          if invalidated then Some (fst (fetchMealsForDate mealDate refetch))
          else meals s !! mealDate
      | _ => meals s !! mealDate
      end.
Proof.
  cbv zeta. unfold deleteMacroMeal.
  rewrite hasMacroPrefix_transformMacroMeal, macroMealId_transformMacroMeal.
  destruct answer; simpl; try done.
  destruct invalidated; simpl; [|done].
  destruct (fetchMealsForDate_quiet mealDate refetch) as [_ Hq].
  destruct (fetchMealsForDate mealDate refetch) as [updatedMeals us]. simpl in *.
  rewrite meals_applyUpdates, fold_left_app, (publish_quiet _ _ Hq). simpl.
  split; [done|]. split; [|apply lookup_insert_eq].
  intros date Hne. by apply lookup_insert_ne.
Qed.

(** X21.  [deleteAllMealsForDate] never changes what another date holds
    or shows.  When there is a user, the dialog is confirmed, the deletion
    succeeds and the cache is invalidated, the date holds the empty list:
    its totals are zero, no nutrition is reported, and the cell shows that
    no meals are planned, unless the date is loading.  In every other case,
    also when the rows are deleted but the invalidation of the cache fails,
    the record map stays as it is. *)
Theorem deleteAll_empties_that_day_only (date : string) (user : UserAnswer)
    (confirmed : bool) (answer : DeleteAnswer) (invalidated : bool) (s : State) :
  let handled := deleteAllMealsForDate date user confirmed answer invalidated in
  let s' := applyUpdates (updates handled) s in
  (∀ other, other ≠ date →
     meals s' !! other = meals s !! other ∧ dayTotals s' other = dayTotals s other
     ∧ dayCell s' other = dayCell s other)
  ∧ match user, confirmed, answer, invalidated with
    | UserId userId, true, DeleteDone, true =>
        sentRequests handled = [DeleteMealPlan userId date; InvalidateMealPlanCache userId]
        ∧ meals s' !! date = Some []
        ∧ dayTotals s' date = noTotals
        ∧ hasNutrition s' date = false
        ∧ dayCell s' date
          = (if default false (loadingDates s !! date) then Spinner else NoMealsPlanned)
    | _, _, _, _ => meals s' = meals s
    end.
Proof.
  cbv zeta. unfold deleteAllMealsForDate.
  destruct user as [userId|shown]; [|by repeat split].
  destruct confirmed; simpl; [|by repeat split].
  destruct answer; simpl; try by repeat split.
  destruct invalidated; simpl; [|by repeat split].
  unfold hasNutrition, dayTotals, dayCell, applyUpdates. simpl. split.
  - intros other Hne. by rewrite lookup_insert_ne.
  - by rewrite lookup_insert_eq.
Qed.

End Deleting.


(** ** Pictures *)

Section Pictures.
Import JS Types.

Lemma bytes_checked : forallb byteChecked (Z.of_nat <$> seq 0 256) = true.
Proof. vm_compute. reflexivity. Qed.

Lemma byte_checked (b : Z) : 0 ≤ b < 256 → byteChecked b = true.
Proof.
  intros Hb. pose proof bytes_checked as H. rewrite forallb_forall in H. apply H.
  apply list_elem_of_In, list_elem_of_fmap. exists (Z.to_nat b).
  split; [lia|]. apply elem_of_seq. lia.
Qed.

Lemma chunks_hexOfBytes (bs : list Z) :
  Forall (λ b, 0 ≤ b < 256) bs →
  matchOneOrTwo (hexOfBytes bs) = hexOfByte <$> bs
  ∧ matchTwo (hexOfBytes bs) = hexOfByte <$> bs.
Proof.
  induction 1 as [|b bs Hb _ [IH1 IH2]]; [done|].
  pose proof (byte_checked b Hb) as Hc. unfold byteChecked in Hc.
  apply andb_prop in Hc as [Hc Hl2]. apply andb_prop in Hc as [_ Hl1].
  apply negb_true_iff in Hl1, Hl2.
  change (hexOfBytes (b :: bs))
    with (String (hexDigit (b / 16)) (String (hexDigit (b mod 16)) (hexOfBytes bs))).
  simpl. rewrite Hl1, Hl2, IH1, IH2. done.
Qed.

Lemma decodeHex_hexOfBytes (bs : list Z) :
  Forall (λ b, 0 ≤ b < 256) bs → decodeHex (hexOfByte <$> bs) = bs.
Proof.
  induction 1 as [|b bs Hb _ IH]; [done|].
  pose proof (byte_checked b Hb) as Hc. unfold byteChecked in Hc.
  apply andb_prop in Hc as [Hc _]. apply andb_prop in Hc as [Hc _].
  apply Z.eqb_eq in Hc. unfold decodeHex in *. rewrite fmap_cons, fmap_cons.
  by rewrite IH, Hc.
Qed.

(** X22.  A picture that arrives as the prefix [\x] followed by two
    lower-case hexadecimal digits for each byte is decoded to those bytes,
    by the calendar and by the meal list alike: the decoding is the inverse
    of that text format. *)
Theorem picture_bytes_round_trip (bs : list Z) :
  Forall (λ b, 0 ≤ b < 256) bs →
  Calendar.pictureUri (Some ("\x" +:+ hexOfBytes bs)) = Some bs
  ∧ MyMeals.imageUri (Some ("\x" +:+ hexOfBytes bs)) = Some bs.
Proof.
  intros Hbs. destruct (chunks_hexOfBytes bs Hbs) as [H1 H2].
  unfold Calendar.pictureUri, MyMeals.imageUri.
  rewrite (startsWith_append "\x").
  change (isEmpty ("\x" +:+ hexOfBytes bs)) with false.
  change (slice 2 ("\x" +:+ hexOfBytes bs)) with (hexOfBytes bs).
  by rewrite H1, H2, decodeHex_hexOfBytes.
Qed.

Lemma chunks_agree (s : string) :
  singleLine s = true →
  (Nat.even (String.length s) = true → matchOneOrTwo s = matchTwo s)
  ∧ (∀ a, isLineTerminator a = false → Nat.even (String.length (String a s)) = true →
          matchOneOrTwo (String a s) = matchTwo (String a s)).
Proof.
  induction s as [|b r IH]; intros Hs.
  - split; [done|]. intros a _ Ha. done.
  - simpl in Hs. apply andb_prop in Hs as [Hb Hr]. apply negb_true_iff in Hb.
    destruct (IH Hr) as [IHa IHb]. split.
    + by apply IHb.
    + intros a Ha Heven.
      change (matchOneOrTwo (String a (String b r)))
        with (if isLineTerminator a then matchOneOrTwo (String b r)
              else if isLineTerminator b then String a EmptyString :: matchOneOrTwo r
              else String a (String b EmptyString) :: matchOneOrTwo r).
      change (matchTwo (String a (String b r)))
        with (if isLineTerminator a then matchTwo (String b r)
              else if isLineTerminator b then matchTwo r
              else String a (String b EmptyString) :: matchTwo r).
      rewrite Ha, Hb. f_equal. apply IHa. exact Heven.
Qed.

Lemma singleLine_slice (n : nat) (s : string) :
  singleLine s = true → singleLine (slice n s) = true.
Proof.
  revert s. induction n as [|n IH]; intros [|c r]; simpl; try done.
  intros [_ H]%andb_prop. by apply IH.
Qed.

Lemma length_slice_2 (s : string) :
  Nat.even (String.length s) = true → Nat.even (String.length (slice 2 s)) = true.
Proof. destruct s as [|a [|b r]]; done. Qed.

(** X23.  The meal list and the calendar decode a picture in two ways,
    the one taking the text two characters at a time, the other one or two;
    on a text without line terminators and with an even number of
    characters they give the same result. *)
Theorem picture_decoders_agree (picture : string) :
  singleLine picture = true →
  Nat.even (String.length picture) = true →
  MyMeals.imageUri (Some picture) = Calendar.pictureUri (Some picture).
Proof.
  intros Hs Heven. unfold MyMeals.imageUri, Calendar.pictureUri.
  destruct (isEmpty picture); [done|]. destruct (startsWith picture "\x"); [|done].
  destruct (chunks_agree (slice 2 picture)) as [H _]; [by apply singleLine_slice|].
  by rewrite H by (by apply length_slice_2).
Qed.


Lemma picture_bytes_round_trip_witness :
  Forall (λ b, 0 ≤ b < 256) [104; 116; 116; 112; 0; 255]
  ∧ hexOfBytes [104; 116; 116; 112; 0; 255] = "6874747000ff"
  ∧ Calendar.pictureUri (Some "\x6874747000ff") = Some [104; 116; 116; 112; 0; 255]
  ∧ MyMeals.imageUri (Some "\x6874747000ff") = Some [104; 116; 116; 112; 0; 255].
Proof.
  assert (H : Forall (λ b, 0 ≤ b < 256) [104; 116; 116; 112; 0; 255])
    by (repeat constructor; lia).
  exact (conj H (conj eq_refl (picture_bytes_round_trip [104; 116; 116; 112; 0; 255] H))).
Defined.

Lemma picture_decoders_agree_witness :
  singleLine "\x6874747g" = true
  ∧ Nat.even (String.length "\x6874747g") = true
  ∧ MyMeals.imageUri (Some "\x6874747g") = Calendar.pictureUri (Some "\x6874747g").
Proof.
  exact (conj eq_refl (conj eq_refl (picture_decoders_agree "\x6874747g" eq_refl eq_refl))).
Defined.

End Pictures.
